(** * Stock-Analysis: the forecast ensemble engine

    A shallow embedding of the two prediction services of the repository,

    - [backend/services/prediction_service.py] (module [Backend]) and
    - [prediction-service/services/prediction_service.py] (module [Service]),

    and the properties of the forecast they assemble.

    Conventions of the embedding.

    - Python and numpy floats are idealised as real numbers ([R]): rounding
      error of binary64 arithmetic, infinities and NaN are outside the model.
    - A Python [int] is a [Z]; a list or a one-dimensional numpy array is a
      [list]; negative indices and slices follow Python.
    - A calendar date is its proleptic Gregorian ordinal
      ([datetime.date.toordinal]), so [timedelta(days=k)] adds [k] and
      [weekday()] is [(ordinal + 6) mod 7] (Monday = 0).  A date printed with
      [strftime('%Y-%m-%d')] is kept as that ordinal.  The modules [Backend]
      and [Service] walk calendar days.  The index of a history is
      time-zone-aware, and there [timedelta(days=k)] adds [k] times 24 hours
      to an instant: module [BackendTz] has the date loop of the backend on
      such timestamps, and lemma [timestamps_future_dates_ok] shows that it
      walks the calendar days as long as the UTC offset of the zone does not
      change before the end of the horizon; lemma
      [backend_dates_across_dst_end] shows the difference a change makes.
    - Exceptions are values of [exn]; a computation yields an [outcome].
      [OutOfFuel] is not a Python exception: it marks a [while] loop of the
      model that ran out of fuel, and no handler catches it.
    - statsmodels ([AutoReg], [ARIMA]) and scikit-learn ([LinearRegression])
      are not part of the repository: a [library] record supplies their
      behaviour, each fit being free to raise.
    - The coroutines of the asynchronous service are run one after the other,
      in the order [asyncio.gather] receives them. *)

From Stdlib Require Import Reals Lra Lia ZArith List String Ascii Bool.
From Stdlib Require Import DecimalString.
Import ListNotations.

Local Open Scope Z_scope.
Local Open Scope R_scope.

(** ** Exceptions and outcomes *)

Inductive exn : Type :=
| ValueError (msg : string)
| IndexError (msg : string)
| ZeroDivisionError (msg : string)
| LibraryError (msg : string)
| Exception_ (msg : string).

(** [str(e)] *)
Definition str (e : exn) : string :=
  match e with
  | ValueError m | IndexError m | ZeroDivisionError m
  | LibraryError m | Exception_ m => m
  end.

Inductive outcome (A : Type) : Type :=
| Ok (a : A)
| Raise (e : exn)
| OutOfFuel.
Arguments Ok {A} a.
Arguments Raise {A} e.
Arguments OutOfFuel {A}.

Definition obind {A B} (o : outcome A) (k : A -> outcome B) : outcome B :=
  match o with
  | Ok a => k a
  | Raise e => Raise e
  | OutOfFuel => OutOfFuel
  end.

Declare Scope outcome_scope.
Delimit Scope outcome_scope with outcome.
Notation "x <- c ;; k" := (obind c (fun x => k))
  (at level 61, c at next level, right associativity) : outcome_scope.
Notation "' pat <- c ;; k" := (obind c (fun x => match x with pat => k end))
  (at level 61, pat pattern, c at next level, right associativity) : outcome_scope.

(** ** Python and numpy primitives *)

Module Py.

Definition len {A} (l : list A) : Z := Z.of_nat (List.length l).

(** [str(n)] for an [int] *)
Definition str_of_int (n : Z) : string := NilZero.string_of_int (Z.to_int n).

(** [range(a, b)] *)
Definition range (a b : Z) : list Z :=
  map (fun k => (a + Z.of_nat k)%Z) (seq 0 (Z.to_nat (b - a))).

(** [enumerate(l)], counting from [k] *)
Fixpoint enumerate_from {A} (k : Z) (l : list A) : list (Z * A) :=
  match l with
  | [] => []
  | x :: t => (k, x) :: enumerate_from (k + 1)%Z t
  end.
Definition enumerate {A} (l : list A) : list (Z * A) := enumerate_from 0%Z l.

(** [l[i]] on a Python list *)
Definition getitem {A} (l : list A) (i : Z) : outcome A :=
  let j := if (i <? 0)%Z then (i + len l)%Z else i in
  if (j <? 0)%Z then Raise (IndexError "list index out of range")
  else match nth_error l (Z.to_nat j) with
       | Some x => Ok x
       | None => Raise (IndexError "list index out of range")
       end.

(** [a[i]] on a one-dimensional numpy array or a pandas index *)
Definition np_getitem {A} (a : list A) (i : Z) : outcome A :=
  let j := if (i <? 0)%Z then (i + len a)%Z else i in
  let err := IndexError ("index " ++ str_of_int i
                         ++ " is out of bounds for axis 0 with size "
                         ++ str_of_int (len a))%string in
  if (j <? 0)%Z then Raise err
  else match nth_error a (Z.to_nat j) with
       | Some x => Ok x
       | None => Raise err
       end.

(** [l[i:]] *)
Definition slice_from {A} (l : list A) (i : Z) : list A :=
  let j := if (i <? 0)%Z then Z.max 0 (i + len l) else i in
  skipn (Z.to_nat j) l.

(** [l[:i]] *)
Definition slice_to {A} (l : list A) (i : Z) : list A :=
  let j := if (i <? 0)%Z then Z.max 0 (i + len l) else i in
  firstn (Z.to_nat j) l.

(** [sum] of floats *)
Definition fsum (l : list R) : R := fold_right Rplus 0 l.

(** [np.mean] *)
Definition np_mean (l : list R) : R := fsum l / IZR (len l).

(** [np.std], the population standard deviation ([ddof = 0]) *)
Definition np_std (l : list R) : R :=
  let m := np_mean l in
  sqrt (np_mean (map (fun x => (x - m) * (x - m)) l)).

(** [np.diff] *)
Fixpoint np_diff (l : list R) : list R :=
  match l with
  | x :: (y :: _) as t => (y - x) :: np_diff t
  | _ => []
  end.

(** [a / b] on arrays of one length, element by element *)
Definition np_divide (a b : list R) : list R :=
  map (fun p => fst p / snd p) (combine a b).

(** Round half to even, the rounding of [round] and [np.round]. *)
Definition rint (y : R) : Z :=
  let f := Zfloor y in
  let d := y - IZR f in
  if Rlt_dec d (1 / 2) then f
  else if Rlt_dec (1 / 2) d then (f + 1)%Z
  else if Z.even f then f else (f + 1)%Z.

(** [round(x, 2)] *)
Definition round2 (x : R) : R := IZR (rint (x * 100)) / 100.

(** [x / y] on Python floats *)
Definition float_div (x y : R) : outcome R :=
  if Req_dec_T y 0 then Raise (ZeroDivisionError "float division by zero")
  else Ok (x / y).

End Py.
Import Py.

(** ** Dates *)

Definition date := Z.

(** [d.weekday()] *)
Definition weekday (d : date) : Z := ((d + 6) mod 7)%Z.

(** [d + timedelta(days=k)] *)
Definition add_days (d : date) (k : Z) : date := (d + k)%Z.

Definition business_day (d : date) : Prop := (0 <= weekday d <= 4)%Z.

(** Strictly increasing dates. *)
Fixpoint increasing (l : list date) : Prop :=
  match l with
  | [] => True
  | d :: t => match t with [] => True | e :: _ => (d < e)%Z end /\ increasing t
  end.

(** ** Loops *)

(** [for x in l: out += body(x)]: the body yields what it appends, and the
    first iteration that raises ends the loop. *)
Fixpoint for_each {A B} (body : A -> outcome (list B)) (l : list A)
  : outcome (list B) :=
  match l with
  | [] => Ok []
  | x :: t =>
      (ys <- body x ;;
       rest <- for_each body t ;;
       Ok (ys ++ rest))%outcome
  end.

(** ** Computations that record which predictors were invoked *)

Inductive call : Type := CallAutoRegression | CallLinearRegression | CallArima.

Definition M (A : Type) : Type := list call -> outcome A * list call.

Definition ret {A} (a : A) : M A := fun log => (Ok a, log).

Definition bind {A B} (m : M A) (k : A -> M B) : M B :=
  fun log =>
    match m log with
    | (Ok a, log') => k a log'
    | (Raise e, log') => (Raise e, log')
    | (OutOfFuel, log') => (OutOfFuel, log')
    end.

Definition raise {A} (e : exn) : M A := fun log => (Raise e, log).

Definition lift {A} (o : outcome A) : M A := fun log => (o, log).

Definition invoke (c : call) : M unit := fun log => (Ok tt, log ++ [c]).

(** [try: m / except Exception as e: h e] (a bare [except:] alike) *)
Definition try_except {A} (m : M A) (h : exn -> M A) : M A :=
  fun log =>
    match m log with
    | (Raise e, log') => h e log'
    | r => r
    end.

Declare Scope M_scope.
Delimit Scope M_scope with M.
Notation "x <- c ;; k" := (bind c (fun x => k))
  (at level 61, c at next level, right associativity) : M_scope.
Notation "c ;; k" := (bind c (fun _ => k))
  (at level 61, right associativity) : M_scope.

(** ** The numeric libraries *)

(** A fitted [LinearRegression]: [coef_] and [intercept_]. *)
Record linear_model : Type := {
  coef_ : list R;
  intercept_ : R
}.

Fixpoint dot (a b : list R) : R :=
  match a, b with
  | x :: a', y :: b' => x * y + dot a' b'
  | _, _ => 0
  end.

(** [model.predict([x])[0]] *)
Definition predict (m : linear_model) (x : list R) : R :=
  dot x (coef_ m) + intercept_ m.

Record library : Type := {
  (** [AutoReg(prices, lags=lag, trend='ct').fit().forecast(steps).tolist()] *)
  AutoReg_forecast : list R -> Z -> Z -> exn + list R;
  (** [LinearRegression().fit(X, y)] *)
  LinearRegression_fit : list (list R) -> list R -> exn + linear_model;
  (** [ARIMA(prices, order=(1, 1, 1)).fit().forecast(steps).tolist()] *)
  ARIMA_forecast : list R -> Z -> exn + list R
}.

Definition of_sum {A} (s : exn + A) : outcome A :=
  match s with
  | inl e => Raise e
  | inr a => Ok a
  end.

(** What statsmodels documents of [forecast(steps)]: as many values as steps. *)
Definition forecasts_steps (lib : library) : Prop :=
  (forall prices lag steps l,
      (0 <= steps)%Z ->
      AutoReg_forecast lib prices lag steps = inr l -> len l = steps) /\
  (forall prices steps l,
      (0 <= steps)%Z ->
      ARIMA_forecast lib prices steps = inr l -> len l = steps).

(** ** The response *)

Record PredictionData : Type := {
  date_ : date;
  predicted_price : R;
  lower_bound : R;
  upper_bound : R;
  change_from_current : R;
  change_percent : R
}.

Record AccuracyMetrics : Type := {
  recent_volatility_percent : R;
  trend_direction : string;
  data_points_used : Z
}.

Record ModelInfo : Type := {
  methods_used : list string;
  ensemble : string;
  accuracy_metrics : AccuracyMetrics
}.

Record PredictionResponse : Type := {
  symbol : string;
  current_price : R;
  prediction_period : string;
  predictions : list PredictionData;
  model_info : ModelInfo;
  timestamp : string
}.

(** [ticker.history(period="2y")]: the rows of the frame, each the date of its
    index and its [Close]. *)
Definition history : Type := list (date * R).

(** [hist['Close'].values] *)
Definition Close (hist : history) : list R := map snd hist.

(** [hist.index] *)
Definition index (hist : history) : list date := map fst hist.

(** ** Functions the two services share word for word *)

(** [_simple_trend_prediction] *)
Definition _simple_trend_prediction (prices : list R) (days : Z)
  : outcome (list R) :=
  (let recent_prices := slice_from prices (-10) in
   r_last <- np_getitem recent_prices (-1) ;;
   r_first <- np_getitem recent_prices 0 ;;
   let trend := (r_last - r_first) / IZR (len recent_prices) in
   for_each (fun i =>
               p_last <- np_getitem prices (-1) ;;
               let pred := p_last + trend * IZR i in
               Ok [pred])
            (range 1 (days + 1)))%outcome.

(** [_calculate_accuracy_metrics] *)
Definition _calculate_accuracy_metrics (prices : list R)
  : outcome AccuracyMetrics :=
  (let recent_volatility :=
     np_std (slice_from prices (-30)) / np_mean (slice_from prices (-30)) * 100 in
   p_last <- np_getitem prices (-1) ;;
   p_30 <- np_getitem prices (-30) ;;
   let trend_direction :=
     if Rgt_dec p_last p_30 then "upward"%string else "downward"%string in
   Ok {| recent_volatility_percent := round2 recent_volatility;
         trend_direction := trend_direction;
         data_points_used := len prices |})%outcome.

(** [df['price'].rolling(k).mean()]: undefined ([None]) on the first [k - 1]
    rows, the mean of the [k] last prices afterwards. *)
Definition rolling_mean (k : nat) (prices : list R) : list (option R) :=
  map (fun t => if (S t <? k)%nat then None
                else Some (np_mean (firstn k (skipn (S t - k) prices))))
      (seq 0 (List.length prices)).

(** The frame of the feature regression after [dropna()]: the rows
    [([ma_5; ma_10; ma_20; trend], price)] whose averages are all defined. *)
Definition feature_rows (prices : list R) : list (list R * R) :=
  let ma_5 := rolling_mean 5 prices in
  let ma_10 := rolling_mean 10 prices in
  let ma_20 := rolling_mean 20 prices in
  flat_map (fun t =>
              match nth_error prices t, nth t ma_5 None,
                    nth t ma_10 None, nth t ma_20 None with
              | Some p, Some a, Some b, Some c =>
                  [([a; b; c; IZR (Z.of_nat t)], p)]
              | _, _, _, _ => []
              end)
           (seq 0 (List.length prices)).

(** The forecasting loop of the feature regression. *)
Fixpoint lr_forecast (model : linear_model) (n_prices : Z) (steps : list Z)
    (last_prices : list R) : list R :=
  match steps with
  | [] => []
  | i :: rest =>
      let ma_5 := np_mean (slice_from last_prices (-5)) in
      let ma_10 := np_mean (slice_from last_prices (-10)) in
      let ma_20 := np_mean (slice_from last_prices (-20)) in
      let trend := (n_prices + i)%Z in
      let pred := predict model [ma_5; ma_10; ma_20; IZR trend] in
      let last_prices := last_prices ++ [pred] in
      let last_prices :=
        if (len last_prices >? 20)%Z then tl last_prices else last_prices in
      pred :: lr_forecast model n_prices rest last_prices
  end.

(** The [try] block of the feature regression
    ([_predict_with_linear_regression] in the backend, [_lr_predict] in the
    service). *)
Definition lr_try (lib : library) (prices : list R) (days : Z)
  : outcome (list R) :=
  (let rows := feature_rows prices in
   let X := map fst rows in
   let y := map snd rows in
   model <- of_sum (LinearRegression_fit lib X y) ;;
   let last_prices := slice_from prices (-20) in
   Ok (lr_forecast model (len prices) (range 0 days) last_prices))%outcome.

(** The [try] block of the autoregression. *)
Definition ar_try (lib : library) (prices : list R) (days : Z)
  : outcome (list R) :=
  let max_lag := Z.min 20 (len prices / 5) in
  of_sum (AutoReg_forecast lib prices max_lag days).

(** The [try] block of the ARIMA predictor. *)
Definition arima_try (lib : library) (prices : list R) (days : Z)
  : outcome (list R) :=
  of_sum (ARIMA_forecast lib prices days).

(** The ensemble loop of [predict_prices]. *)
Definition ensemble_predictions (ar lr arima : list R) (days : Z)
  : outcome (list R) :=
  for_each (fun i =>
              a <- getitem ar i ;;
              b <- getitem lr i ;;
              c <- getitem arima i ;;
              Ok [np_mean [a; b; c]])%outcome
           (range 0 days).

(** The loop of [predict_prices] that prepares [predictions_data]. *)
Definition predictions_data (current_price : R) (ensemble : list R)
    (confidence_intervals : list (R * R)) (future_dates : list date)
  : outcome (list PredictionData) :=
  for_each (fun '(i, d) =>
              if (i <? len ensemble)%Z then
                e <- getitem ensemble i ;;
                let pred_price := round2 e in
                ci <- getitem confidence_intervals i ;;
                let lower_bound := round2 (fst ci) in
                ci' <- getitem confidence_intervals i ;;
                let upper_bound := round2 (snd ci') in
                q <- float_div (pred_price - current_price) current_price ;;
                Ok [ {| date_ := d;
                        predicted_price := pred_price;
                        lower_bound := lower_bound;
                        upper_bound := upper_bound;
                        change_from_current :=
                          round2 (pred_price - current_price);
                        change_percent := round2 (q * 100) |} ]
              else Ok [])%outcome
           (enumerate future_dates).

(** ** backend/services/prediction_service.py *)

Module Backend.

Definition _predict_with_autoregression (lib : library) (prices : list R)
    (days : Z) : M (list R) :=
  (invoke CallAutoRegression ;;
   try_except (lift (ar_try lib prices days))
              (fun _ => lift (_simple_trend_prediction prices days)))%M.

Definition _predict_with_linear_regression (lib : library) (prices : list R)
    (days : Z) : M (list R) :=
  (invoke CallLinearRegression ;;
   try_except (lift (lr_try lib prices days))
              (fun _ => lift (_simple_trend_prediction prices days)))%M.

Definition _predict_with_arima (lib : library) (prices : list R)
    (days : Z) : M (list R) :=
  (invoke CallArima ;;
   try_except (lift (arima_try lib prices days))
              (fun _ => lift (_simple_trend_prediction prices days)))%M.

Definition _calculate_confidence_intervals (historical_prices : list R)
    (predictions : list R) : list (R * R) :=
  let returns :=
    np_divide (np_diff historical_prices) (slice_to historical_prices (-1)) in
  let volatility := np_std returns in
  map (fun '(i, pred) =>
         let uncertainty := volatility * sqrt (IZR (i + 1)) * pred in
         let lower_bound := pred - (1.96 * uncertainty) in
         let upper_bound := pred + (1.96 * uncertainty) in
         (lower_bound, upper_bound))
      (enumerate predictions).

(** [while future_date.weekday() > 4: future_date += timedelta(days=1)] *)
Fixpoint skip_weekend (fuel : nat) (future_date : date) : outcome date :=
  if (weekday future_date >? 4)%Z then
    match fuel with
    | O => OutOfFuel
    | S fuel' => skip_weekend fuel' (add_days future_date 1)
    end
  else Ok future_date.

(** The loop of [predict_prices] that generates [future_dates]. *)
Definition future_dates (fuel : nat) (last_date : date) (days : Z)
  : outcome (list date) :=
  for_each (fun i =>
              future_date <- skip_weekend fuel (add_days last_date i) ;;
              Ok [future_date])%outcome
           (range 1 (days + 1)).

(** The [try] block of [predict_prices]; [now] is the clock reading. *)
Definition predict_prices_try (lib : library) (fuel : nat) (now : string)
    (hist : history) (symbol : string) (days : Z) : M PredictionResponse :=
  (if (len hist <? 50)%Z then
     raise (ValueError ("Insufficient historical data for " ++ symbol)%string)
   else
     let prices := Close hist in
     ar_predictions <- _predict_with_autoregression lib prices days ;;
     lr_predictions <- _predict_with_linear_regression lib prices days ;;
     arima_predictions <- _predict_with_arima lib prices days ;;
     ensemble_predictions <-
       lift (ensemble_predictions ar_predictions lr_predictions
                                  arima_predictions days) ;;
     let confidence_intervals :=
       _calculate_confidence_intervals prices ensemble_predictions in
     last_date <- lift (np_getitem (index hist) (-1)) ;;
     future_dates <- lift (future_dates fuel last_date days) ;;
     current_price <- lift (np_getitem prices (-1)) ;;
     predictions_data <-
       lift (predictions_data current_price ensemble_predictions
                              confidence_intervals future_dates) ;;
     accuracy_metrics <- lift (_calculate_accuracy_metrics prices) ;;
     ret {| symbol := symbol;
            current_price := round2 current_price;
            prediction_period := (str_of_int days ++ " days")%string;
            predictions := predictions_data;
            model_info :=
              {| methods_used :=
                   ["AutoRegression"; "Linear Regression"; "ARIMA"]%string;
                 ensemble := "Average of all methods";
                 accuracy_metrics := accuracy_metrics |};
            timestamp := now |})%M.

Definition predict_prices (lib : library) (fuel : nat) (now : string)
    (hist : history) (symbol : string) (days : Z) : M PredictionResponse :=
  try_except (predict_prices_try lib fuel now hist symbol days)
             (fun e => raise (Exception_ ("Error predicting prices for "
                                          ++ symbol ++ ": " ++ str e)%string)).

End Backend.

(** ** prediction-service/services/prediction_service.py

    [logger] calls are left out: they change no value of the computation. *)

Module Service.

Definition _ar_predict (lib : library) (prices : list R) (days : Z)
  : M (list R) :=
  try_except (lift (ar_try lib prices days))
             (fun _ => lift (_simple_trend_prediction prices days)).

Definition _predict_with_autoregression (lib : library) (prices : list R)
    (days : Z) : M (list R) :=
  (invoke CallAutoRegression ;;
   try_except (_ar_predict lib prices days)
              (fun _ => lift (_simple_trend_prediction prices days)))%M.

Definition _lr_predict (lib : library) (prices : list R) (days : Z)
  : M (list R) :=
  try_except (lift (lr_try lib prices days))
             (fun _ => lift (_simple_trend_prediction prices days)).

Definition _predict_with_linear_regression (lib : library) (prices : list R)
    (days : Z) : M (list R) :=
  (invoke CallLinearRegression ;;
   try_except (_lr_predict lib prices days)
              (fun _ => lift (_simple_trend_prediction prices days)))%M.

Definition _arima_predict (lib : library) (prices : list R) (days : Z)
  : M (list R) :=
  try_except (lift (arima_try lib prices days))
             (fun _ => lift (_simple_trend_prediction prices days)).

Definition _predict_with_arima (lib : library) (prices : list R)
    (days : Z) : M (list R) :=
  (invoke CallArima ;;
   try_except (_arima_predict lib prices days)
              (fun _ => lift (_simple_trend_prediction prices days)))%M.

Definition _calculate_confidence_intervals (historical_prices : list R)
    (predictions : list R) : list (R * R) :=
  let returns :=
    np_divide (np_diff historical_prices) (slice_to historical_prices (-1)) in
  let volatility := np_std returns in
  map (fun '(i, pred) =>
         let uncertainty := volatility * sqrt (IZR (i + 1)) * pred * 0.1 in
         let lower_bound := pred - (1.96 * uncertainty) in
         let upper_bound := pred + (1.96 * uncertainty) in
         (lower_bound, upper_bound))
      (enumerate predictions).

(** The [while] loop of [_generate_business_dates]: one iteration for each
    unit of fuel. *)
Fixpoint business_dates_loop (fuel : nat) (days : Z)
    (business_dates : list date) (current_date : date) : outcome (list date) :=
  if (len business_dates <? days)%Z then
    match fuel with
    | O => OutOfFuel
    | S fuel' =>
        let business_dates :=
          if (weekday current_date <? 5)%Z
          then business_dates ++ [current_date]
          else business_dates in
        business_dates_loop fuel' days business_dates (add_days current_date 1)
    end
  else Ok business_dates.

Definition _generate_business_dates (fuel : nat) (start_date : date)
    (days : Z) : outcome (list date) :=
  let current_date := add_days start_date 1 in
  business_dates_loop fuel days [] current_date.

(** The [try] block of [predict_prices]; [now] is the clock reading. *)
Definition predict_prices_try (lib : library) (fuel : nat) (now : string)
    (hist : history) (symbol : string) (days : Z) : M PredictionResponse :=
  (if (len hist <? 50)%Z then
     raise (ValueError ("Insufficient historical data for " ++ symbol)%string)
   else
     let prices := Close hist in
     ar_predictions <- _predict_with_autoregression lib prices days ;;
     lr_predictions <- _predict_with_linear_regression lib prices days ;;
     arima_predictions <- _predict_with_arima lib prices days ;;
     ensemble_predictions <-
       lift (ensemble_predictions ar_predictions lr_predictions
                                  arima_predictions days) ;;
     let confidence_intervals :=
       _calculate_confidence_intervals prices ensemble_predictions in
     last_date <- lift (np_getitem (index hist) (-1)) ;;
     future_dates <- lift (_generate_business_dates fuel last_date days) ;;
     current_price <- lift (np_getitem prices (-1)) ;;
     predictions_data <-
       lift (predictions_data current_price ensemble_predictions
                              confidence_intervals
                              (slice_to future_dates days)) ;;
     accuracy_metrics <- lift (_calculate_accuracy_metrics prices) ;;
     ret {| symbol := symbol;
            current_price := round2 current_price;
            prediction_period := (str_of_int days ++ " business days")%string;
            predictions := predictions_data;
            model_info :=
              {| methods_used :=
                   ["AutoRegression"; "Linear Regression"; "ARIMA"]%string;
                 ensemble := "Weighted average of all methods";
                 accuracy_metrics := accuracy_metrics |};
            timestamp := now |})%M.

Definition predict_prices (lib : library) (fuel : nat) (now : string)
    (hist : history) (symbol : string) (days : Z) : M PredictionResponse :=
  try_except (predict_prices_try lib fuel now hist symbol days)
             (fun e => raise (Exception_ ("Prediction failed for "
                                          ++ symbol ++ ": " ++ str e)%string)).

End Service.

(** ** The predict endpoints

    [upper] is [str.upper], [yf_history] what [ticker.history(period="2y")]
    returns for a symbol; on reaching a handler a [LibraryError] stands for
    an error that is no [ValueError]. *)

(** What an endpoint does: it returns a value, the framework answering with
    status 200, or raises [HTTPException]; [Unfinished] when a loop of the
    model ran out of fuel. *)
Inductive reply (A : Type) : Type :=
| Returns (a : A)
| HTTPException (status_code : Z) (detail : string)
| Unfinished.
Arguments Returns {A} a.
Arguments HTTPException {A} status_code detail.
Arguments Unfinished {A}.

(** prediction-service/main.py.  The declaration of [days] as
    [Query(default=30, ge=1, le=365)] makes the framework refuse a request
    whose [days] lies outside 1..365 before the function is entered; the
    definition is the body of the function, for the [days] it is called
    with. *)
Module Main.

Definition predict_stock_price (upper : string -> string)
    (yf_history : string -> history) (lib : library) (fuel : nat)
    (now : string) (symbol : string) (days : Z)
  : list call -> reply PredictionResponse * list call :=
  fun log =>
    match Service.predict_prices lib fuel now (yf_history (upper symbol))
            (upper symbol) days log with
    | (Ok predictions, log') => (Returns predictions, log')
    | (Raise (ValueError msg), log') => (HTTPException 400 msg, log')
    | (Raise e, log') =>
        (HTTPException 500 ("Prediction failed: " ++ str e)%string, log')
    | (OutOfFuel, log') => (Unfinished, log')
    end.

End Main.

(** backend/app.py: the view returns [jsonify(data)], status 200, or
    [jsonify({"error": str(e)}), 400]. *)
Inductive view_reply : Type :=
| Jsonify (data : PredictionResponse)
| JsonifyError (error : string) (status : Z)
| ViewUnfinished.

Module App.

(** [days_arg] is [request.args.get('days')], [None] when the query has no
    such key; [int] is the conversion [int(s)] of a string. *)
Definition predict_stock_price (upper : string -> string)
    (int : string -> exn + Z) (yf_history : string -> history)
    (lib : library) (fuel : nat) (now : string) (symbol : string)
    (days_arg : option string) : list call -> view_reply * list call :=
  fun log =>
    let parsed := match days_arg with
                  | None => inr 30%Z
                  | Some s => int s
                  end in
    match parsed with
    | inl e => (JsonifyError (str e) 400, log)
    | inr days =>
        match Backend.predict_prices lib fuel now (yf_history (upper symbol))
                (upper symbol) days log with
        | (Ok data, log') => (Jsonify data, log')
        | (Raise e, log') => (JsonifyError (str e) 400, log')
        | (OutOfFuel, log') => (ViewUnfinished, log')
        end
    end.

End App.

(** ** The date loop of the backend on time-zone-aware timestamps *)

(** [hist.index[-1]] is a pandas [Timestamp] in the zone of the exchange: an
    instant, [seconds] after 1970-01-01T00:00:00Z, and a zone, given by its
    UTC offset in seconds at every instant. *)
Record Timestamp : Type := {
  seconds : Z;
  utcoffset : Z -> Z
}.

(** [t + timedelta(days=k)]: the instant [k] times 24 hours later, in the
    same zone. *)
Definition add_timedelta_days (t : Timestamp) (k : Z) : Timestamp :=
  {| seconds := (seconds t + k * 86400)%Z; utcoffset := utcoffset t |}.

(** The calendar date that the clocks of the zone show at [t], as its
    ordinal (1970-01-01 is 719163): the date that [t.weekday()] reads and
    that [t.strftime('%Y-%m-%d')] prints. *)
Definition local_date (t : Timestamp) : date :=
  (719163 + (seconds t + utcoffset t (seconds t)) / 86400)%Z.

Module BackendTz.

(** [while future_date.weekday() > 4: future_date += timedelta(days=1)] *)
Fixpoint skip_weekend (fuel : nat) (future_date : Timestamp)
  : outcome Timestamp :=
  if (weekday (local_date future_date) >? 4)%Z then
    match fuel with
    | O => OutOfFuel
    | S fuel' => skip_weekend fuel' (add_timedelta_days future_date 1)
    end
  else Ok future_date.

(** The loop of [predict_prices] that generates [future_dates]. *)
Definition future_dates (fuel : nat) (last_date : Timestamp) (days : Z)
  : outcome (list date) :=
  for_each (fun i =>
              future_date <- skip_weekend fuel (add_timedelta_days last_date i) ;;
              Ok [local_date future_date])%outcome
           (range 1 (days + 1)).

End BackendTz.

(** ** Vocabulary of the specification *)

(** The daily returns in the words of the specification:
    [(price[t] - price[t-1]) / price[t-1]] for every [t] from 1 on. *)
Definition daily_returns (price : list R) : list R :=
  map (fun t => (nth t price 0 - nth (t - 1) price 0) / nth (t - 1) price 0)
      (seq 1 (List.length price - 1)).

(** [series[-k]], for [k] from 1 to the length of the series. *)
Definition from_end (series : list R) (k : nat) : R :=
  nth (List.length series - k) series 0.

(** The last [k] observations of a series. *)
Definition trailing (k : nat) (series : list R) : list R :=
  skipn (List.length series - k) series.

(** The deterministic trend fallback in the words of the specification:
    step [i], counted from 1. *)
Definition trend_fallback_step (series : list R) (i : Z) : R :=
  from_end series 1 + ((from_end series 1 - from_end series 10) / 10) * IZR i.

(** A price series in the sense of the data model: positive prices. *)
Definition PriceSeries (series : list R) : Prop :=
  Forall (fun p => 0 < p) series.

(** The historical volatility: the standard deviation of the daily returns
    of the whole series. *)
Definition volatility (series : list R) : R := np_std (daily_returns series).

(** The uncertainty of step [i] (counted from 0) around the forecast [e],
    and the same damped by the fixed factor 0.1. *)
Definition uncertainty (series : list R) (i : Z) (e : R) : R :=
  volatility series * sqrt (IZR (i + 1)) * e.

Definition damped_uncertainty (series : list R) (i : Z) (e : R) : R :=
  uncertainty series i e * 0.1.

(** The width of a confidence interval [(lower, upper)]. *)
Definition width (ci : R * R) : R := snd ci - fst ci.

(** The whole fallback forecast: steps 1 to [days]. *)
Definition fallback_forecast (series : list R) (days : Z) : list R :=
  map (trend_fallback_step series) (range 1 (days + 1)).

(** What a predictor hands to the ensemble: the forecast of its model, or the
    trend fallback when the model raised. *)
Definition output_of (attempt : outcome (list R)) (series : list R) (days : Z)
  : list R :=
  match attempt with
  | Ok l => l
  | _ => fallback_forecast series days
  end.

(** What [predict_prices] does once the three predictors have returned,
    free of the record of invocations: [intervals], [calendar], [trim] and the
    two labels are what the services differ in. *)
Definition assemble (intervals : list R -> list R -> list (R * R))
    (calendar : date -> outcome (list date)) (trim : list date -> list date)
    (period description : string) (now : string) (hist : history)
    (symbol : string) (days : Z) (ar lr arima : list R)
  : outcome PredictionResponse :=
  (let prices := Close hist in
   ens <- ensemble_predictions ar lr arima days ;;
   last_date <- np_getitem (index hist) (-1) ;;
   dates <- calendar last_date ;;
   cp <- np_getitem prices (-1) ;;
   pd <- predictions_data cp ens (intervals prices ens) (trim dates) ;;
   acc <- _calculate_accuracy_metrics prices ;;
   Ok {| symbol := symbol;
         current_price := round2 cp;
         prediction_period := period;
         predictions := pd;
         model_info :=
           {| methods_used :=
                ["AutoRegression"; "Linear Regression"; "ARIMA"]%string;
              ensemble := description;
              accuracy_metrics := acc |};
         timestamp := now |})%outcome.

Definition backend_assemble (fuel : nat) (now : string) (hist : history)
    (symbol : string) (days : Z) (ar lr arima : list R)
  : outcome PredictionResponse :=
  assemble Backend._calculate_confidence_intervals
           (fun d => Backend.future_dates fuel d days) (fun l => l)
           (str_of_int days ++ " days")%string "Average of all methods"
           now hist symbol days ar lr arima.

Definition service_assemble (fuel : nat) (now : string) (hist : history)
    (symbol : string) (days : Z) (ar lr arima : list R)
  : outcome PredictionResponse :=
  assemble Service._calculate_confidence_intervals
           (fun d => Service._generate_business_dates fuel d days)
           (fun l => slice_to l days)
           (str_of_int days ++ " business days")%string
           "Weighted average of all methods"
           now hist symbol days ar lr arima.

(** The record of one step, from the ensemble value, its interval and its
    date. *)
Definition step_record (cp : R) (e : R) (ci : R * R) (d : date)
  : PredictionData :=
  {| date_ := d;
     predicted_price := round2 e;
     lower_bound := round2 (fst ci);
     upper_bound := round2 (snd ci);
     change_from_current := round2 (round2 e - cp);
     change_percent := round2 ((round2 e - cp) / cp * 100) |}.

(** The plain mean of the three predictor outputs at step [i]. *)
Definition ensemble_mean (ar lr arima : list R) (i : nat) : R :=
  (nth i ar 0 + nth i lr 0 + nth i arima 0) / 3.

(** The first business day from [d] on. *)
Definition next_business_day (d : date) : date :=
  if (weekday d =? 5)%Z then (d + 2)%Z
  else if (weekday d =? 6)%Z then (d + 1)%Z
  else d.

(** The dates of a forecast of [days] steps after [last_date] when every
    step [i] is moved to the first business day from [last_date + i] on. *)
Definition calendar_dates (last_date : date) (days : Z) : list date :=
  map (fun i => next_business_day (last_date + i)%Z) (range 1 (days + 1)).

(** The accuracy metrics of a series of at least 30 observations. *)
Definition metrics_of (series : list R) : AccuracyMetrics :=
  {| recent_volatility_percent :=
       round2 (np_std (trailing 30 series) / np_mean (trailing 30 series) * 100);
     trend_direction :=
       if Rgt_dec (from_end series 1) (from_end series 30)
       then "upward"%string else "downward"%string;
     data_points_used := len series |}.

(** The response assembled from the three predictor outputs and the dates
    of the calendar. *)
Definition response_of (intervals : list R -> list R -> list (R * R))
    (period description : string) (now : string) (hist : history)
    (symbol : string) (days : Z) (ar lr arima : list R) (dates : list date)
  : PredictionResponse :=
  let prices := Close hist in
  let cp := last prices 0 in
  let ens := map (ensemble_mean ar lr arima) (seq 0 (Z.to_nat days)) in
  {| symbol := symbol;
     current_price := round2 cp;
     prediction_period := period;
     predictions :=
       map (fun p => step_record cp (fst (fst p)) (snd (fst p)) (snd p))
           (combine (combine ens (intervals prices ens)) dates);
     model_info :=
       {| methods_used :=
            ["AutoRegression"; "Linear Regression"; "ARIMA"]%string;
          ensemble := description;
          accuracy_metrics := metrics_of prices |};
     timestamp := now |}.

(** The three predictors, in the order [predict_prices] runs them. *)
Definition all_predictors : list call :=
  [CallAutoRegression; CallLinearRegression; CallArima].

(** A library none of whose models can be fitted. *)
Definition failing_library : library :=
  {| AutoReg_forecast := fun _ _ _ => inl (LibraryError "fit failed");
     LinearRegression_fit := fun _ _ => inl (LibraryError "fit failed");
     ARIMA_forecast := fun _ _ => inl (LibraryError "fit failed") |}.

(** A library whose time-series models repeat the last price and whose
    regression returns the model that copies the 5-period average. *)
Definition naive_library : library :=
  {| AutoReg_forecast := fun prices _ steps =>
       inr (map (fun _ => last prices 0) (range 0 steps));
     LinearRegression_fit := fun _ _ =>
       inr {| coef_ := [1; 0; 0; 0]; intercept_ := 0 |};
     ARIMA_forecast := fun prices steps =>
       inr (map (fun _ => last prices 0) (range 0 steps)) |}.

(** The response of a run that returns one. *)
Definition backend_response (lib : library) (now : string) (hist : history)
    (sym : string) (days : Z) : PredictionResponse :=
  response_of Backend._calculate_confidence_intervals
    (str_of_int days ++ " days")%string "Average of all methods"
    now hist sym days
    (output_of (ar_try lib (Close hist) days) (Close hist) days)
    (output_of (lr_try lib (Close hist) days) (Close hist) days)
    (output_of (arima_try lib (Close hist) days) (Close hist) days)
    (map (fun i => next_business_day (last (index hist) 0 + i)%Z)
         (range 1 (days + 1))).

Definition service_response (lib : library) (now : string) (hist : history)
    (sym : string) (days : Z) (dates : list date) : PredictionResponse :=
  response_of Service._calculate_confidence_intervals
    (str_of_int days ++ " business days")%string
    "Weighted average of all methods"
    now hist sym days
    (output_of (ar_try lib (Close hist) days) (Close hist) days)
    (output_of (lr_try lib (Close hist) days) (Close hist) days)
    (output_of (arima_try lib (Close hist) days) (Close hist) days)
    dates.

(** ** Concrete inputs *)

(** The 50 business days of the ten weeks that end on Friday 2024-01-05
    (ordinal 738890); 2023-10-30, a Monday, is ordinal 738823. *)
Definition ten_weeks : list date :=
  flat_map (fun w => map (fun d => (738823 + 7 * Z.of_nat w + Z.of_nat d)%Z)
                         (seq 0 5))
           (seq 0 10).

(** A history over those days: [close] on every day but the last, which
    closes at [last_close]. *)
Definition friday_history (close last_close : R) : history :=
  combine ten_weeks (repeat close 49 ++ [last_close]).

(** The response of the backend to that history closing at 102, for AAPL and
    a horizon of 3 days, with the naive library. *)
Definition friday_response : PredictionResponse :=
  backend_response naive_library "2024-01-05T18:00:00"
    (friday_history 100 102) "AAPL" 3.

(** Three observations only. *)
Definition short_history : history :=
  [(738888%Z, 100); (738889%Z, 101); (738890%Z, 102)].

(** A series of 50 closes, flat at 50 and closing at 10. *)
Definition falling_series : list R := repeat 50 49 ++ [10].

(** The response of the prediction service to the same request: the three
    business days after Friday 2024-01-05. *)
Definition friday_service_response : PredictionResponse :=
  service_response naive_library "2024-01-05T18:00:00"
    (friday_history 100 102) "AAPL" 3 [738893; 738894; 738895]%Z.

(** A provider that has the short history for every symbol, and one that has
    the ten weeks closing at 102. *)
Definition short_provider (symbol : string) : history := short_history.

Definition friday_provider (symbol : string) : history := friday_history 100 102.

(** The UTC offset of America/New_York at the instants of 2024: daylight
    saving time from 2024-03-10T07:00:00Z to 2024-11-03T06:00:00Z. *)
Definition new_york (t : Z) : Z :=
  if (t <? 1710054000)%Z then (-18000)%Z
  else if (t <? 1730613600)%Z then (-14400)%Z
  else (-18000)%Z.

(** Midnight in New York on Tuesday 2024-01-02 (ordinal 738887) and on
    Friday 2024-11-01 (ordinal 739191), two days before the clocks go
    back. *)
Definition tuesday_in_january : Timestamp :=
  {| seconds := 1704171600; utcoffset := new_york |}.

Definition friday_before_dst_end : Timestamp :=
  {| seconds := 1730433600; utcoffset := new_york |}.

(** ** Vocabulary of the feature regression *)

(** The features of one forecast step of the feature regression, from the
    series [known] of the prices known or predicted so far. *)
Definition lr_features (known : list R) (trend : Z) : list R :=
  [np_mean (slice_from known (-5)); np_mean (slice_from known (-10));
   np_mean (slice_from known (-20)); IZR trend].

(** The prices [series[first .. first + k - 1]]. *)
Definition window (k first : nat) (series : list R) : list R :=
  firstn k (skipn first series).

(** ** Lists, ranges and indices *)

(** Decide the integer comparisons of the goal, most of them by [lia]. *)
Ltac zlt_cases :=
  repeat match goal with
         | |- context [(?a <? ?b)%Z] =>
             lazymatch a with
             | context [if _ then _ else _] => fail
             | _ => destruct (Z.ltb_spec a b); try lia
             end
         end.

Lemma len_nonneg {A} (l : list A) : (0 <= len l)%Z.
Proof. unfold len. lia. Qed.

Lemma len_app {A} (l1 l2 : list A) : len (l1 ++ l2) = (len l1 + len l2)%Z.
Proof. unfold len. rewrite length_app. lia. Qed.

Lemma len_map {A B} (f : A -> B) (l : list A) : len (map f l) = len l.
Proof. unfold len. now rewrite length_map. Qed.

Lemma length_range a b : List.length (range a b) = Z.to_nat (b - a).
Proof. unfold range. now rewrite length_map, length_seq. Qed.

Lemma len_range a b : (a <= b)%Z -> len (range a b) = (b - a)%Z.
Proof. intros H. unfold len. rewrite length_range. lia. Qed.

Lemma in_range a b i : In i (range a b) <-> (a <= i < b)%Z.
Proof.
  unfold range. rewrite in_map_iff. split.
  - intros [k [<- Hk]]. apply in_seq in Hk. lia.
  - intros H. exists (Z.to_nat (i - a)). split; [lia|].
    apply in_seq. lia.
Qed.

Lemma nth_error_range a b (k : nat) :
  (k < Z.to_nat (b - a))%nat ->
  nth_error (range a b) k = Some (a + Z.of_nat k)%Z.
Proof.
  intros H. unfold range.
  rewrite nth_error_map, nth_error_seq.
  destruct (Nat.ltb_spec k (Z.to_nat (b - a))); [reflexivity | lia].
Qed.

Lemma nth_error_enumerate_from {A} (l : list A) : forall k i,
  nth_error (enumerate_from k l) i =
  option_map (fun x => ((k + Z.of_nat i)%Z, x)) (nth_error l i).
Proof.
  induction l as [|x t IH]; intros k [|i]; simpl; try reflexivity.
  - now rewrite Z.add_0_r.
  - rewrite IH. destruct (nth_error t i); simpl; [|reflexivity].
    do 2 f_equal. lia.
Qed.

Lemma length_enumerate_from {A} (l : list A) k :
  List.length (enumerate_from k l) = List.length l.
Proof. revert k. induction l; intros k; simpl; [|rewrite IHl]; reflexivity. Qed.

Lemma getitem_nth_error {A} (l : list A) (i : nat) x :
  nth_error l i = Some x -> getitem l (Z.of_nat i) = Ok x.
Proof.
  intros H. unfold getitem. cbv zeta. zlt_cases.
  now rewrite Nat2Z.id, H.
Qed.

Lemma getitem_ok_inv {A} (l : list A) (i : Z) x :
  (0 <= i)%Z -> getitem l i = Ok x -> nth_error l (Z.to_nat i) = Some x.
Proof.
  intros Hi. unfold getitem. cbv zeta. zlt_cases.
  destruct (nth_error l (Z.to_nat i)); [|discriminate].
  now intros [= ->].
Qed.

Lemma np_getitem_from_end (a : list R) (k : nat) :
  (1 <= k <= List.length a)%nat ->
  np_getitem a (- Z.of_nat k) = Ok (from_end a k).
Proof.
  intros Hk. unfold np_getitem, from_end, len. cbv zeta. zlt_cases.
  replace (Z.to_nat (- Z.of_nat k + Z.of_nat (List.length a)))
    with (List.length a - k)%nat by lia.
  destruct (nth_error a (List.length a - k)) eqn:E.
  - now rewrite (nth_error_nth _ _ _ E).
  - apply nth_error_None in E. lia.
Qed.

Lemma np_getitem_last {A} (a : list A) (d : A) :
  a <> [] -> np_getitem a (-1) = Ok (last a d).
Proof.
  intros Ha. unfold np_getitem, len. cbv zeta.
  destruct a as [|x t]; [congruence|].
  assert (E : x :: t = removelast (x :: t) ++ [last (x :: t) d])
    by (apply app_removelast_last; discriminate).
  assert (L : List.length (removelast (x :: t)) = List.length t).
  { apply (f_equal (@List.length A)) in E.
    rewrite length_app in E. simpl in E. simpl. lia. }
  change (-1 <? 0)%Z with true. cbv iota.
  destruct (Z.ltb_spec (-1 + Z.of_nat (List.length (x :: t))) 0);
    [cbn [List.length] in *; lia|].
  replace (Z.to_nat (-1 + Z.of_nat (List.length (x :: t))))
    with (List.length (removelast (x :: t)))
    by (cbn [List.length] in *; lia).
  rewrite E at 1. rewrite nth_error_app2, Nat.sub_diag by lia.
  reflexivity.
Qed.

Lemma slice_from_trailing (l : list R) (k : nat) :
  (1 <= k)%nat -> slice_from l (- Z.of_nat k) = trailing k l.
Proof.
  intros Hk. unfold slice_from, trailing, len.
  destruct (Z.ltb_spec (- Z.of_nat k) 0); [|lia].
  f_equal. lia.
Qed.

Lemma length_trailing (l : list R) (k : nat) :
  (k <= List.length l)%nat -> List.length (trailing k l) = k.
Proof. intros H. unfold trailing. rewrite length_skipn. lia. Qed.

Lemma from_end_trailing (l : list R) (k j : nat) :
  (1 <= j <= k)%nat -> (k <= List.length l)%nat ->
  from_end (trailing k l) j = from_end l j.
Proof.
  intros Hj Hk. unfold from_end. rewrite length_trailing by lia.
  unfold trailing. rewrite nth_skipn. f_equal. lia.
Qed.

Lemma from_end_last (l : list R) : from_end l 1 = last l 0.
Proof.
  unfold from_end. destruct l as [|x t]; [reflexivity|].
  rewrite (app_removelast_last 0 (l := x :: t)) at 2 by discriminate.
  assert (L : List.length (removelast (x :: t)) = List.length t).
  { pose proof (app_removelast_last 0 (l := x :: t)) as E.
    specialize (E ltac:(discriminate)).
    apply (f_equal (@List.length R)) in E.
    rewrite length_app in E. simpl in E. simpl. lia. }
  rewrite app_nth2 by (cbn [List.length] in *; lia).
  replace (List.length (x :: t) - 1 - List.length (removelast (x :: t)))%nat
    with 0%nat by (cbn [List.length] in *; lia).
  reflexivity.
Qed.

(** ** Loops *)

Lemma for_each_singletons {A B} (body : A -> outcome (list B)) (f : A -> B) l :
  (forall x, In x l -> body x = Ok [f x]) ->
  for_each body l = Ok (map f l).
Proof.
  induction l as [|x t IH]; intros H; simpl; [reflexivity|].
  rewrite (H x) by now left. simpl.
  rewrite IH by (intros y Hy; apply H; now right).
  reflexivity.
Qed.

(** ** Rounding and statistics *)

Lemma rint_error (y : R) : - (1 / 2) <= IZR (rint y) - y <= 1 / 2.
Proof.
  unfold rint. pose proof (Zfloor_bound y) as [Hlo Hhi].
  assert (E : forall z, IZR (z + 1) = IZR z + 1)
    by (intros; now rewrite plus_IZR).
  destruct (Rlt_dec (y - IZR (Zfloor y)) (1 / 2)) as [H1|H1]; [lra|].
  destruct (Rlt_dec (1 / 2) (y - IZR (Zfloor y))) as [H2|H2].
  - rewrite E. lra.
  - destruct (Z.even (Zfloor y)); [|rewrite E]; lra.
Qed.

Lemma round2_bounds (x : R) : - (1 / 200) <= round2 x - x <= 1 / 200.
Proof. unfold round2. pose proof (rint_error (x * 100)) as H. lra. Qed.

Lemma np_std_nonneg (l : list R) : 0 <= np_std l.
Proof. unfold np_std. apply sqrt_pos. Qed.

Lemma fsum_nonneg (l : list R) : Forall (fun x => 0 <= x) l -> 0 <= fsum l.
Proof.
  induction 1 as [|x t Hx _ IH]; simpl; lra.
Qed.

Lemma fsum_ge_member (l : list R) x :
  Forall (fun y => 0 <= y) l -> In x l -> x <= fsum l.
Proof.
  induction 1 as [|y t Hy Ht IH]; intros Hin; [contradiction|].
  simpl. pose proof (fsum_nonneg t Ht) as Hs.
  destruct Hin as [->|Hin]; [lra|]. specialize (IH Hin). lra.
Qed.

(** The standard deviation is positive as soon as one value is off the mean. *)
Lemma np_std_pos (l : list R) x :
  In x l -> x <> np_mean l -> 0 < np_std l.
Proof.
  intros Hin Hx. unfold np_std. apply sqrt_lt_R0.
  set (m := np_mean l) in *.
  set (sq := map (fun y => (y - m) * (y - m)) l).
  assert (Hsq : Forall (fun y => 0 <= y) sq).
  { apply Forall_forall. intros y Hy. apply in_map_iff in Hy.
    destruct Hy as [z [<- _]]. apply Rle_0_sqr. }
  assert (Hmem : (x - m) * (x - m) <= fsum sq).
  { apply fsum_ge_member; [exact Hsq|]. apply in_map_iff. now exists x. }
  assert (Hpos : 0 < (x - m) * (x - m))
    by (apply Rlt_0_sqr; intros E; apply Hx; lra).
  assert (Hlen : 0 < IZR (len sq)).
  { apply IZR_lt. unfold sq, len. rewrite length_map.
    destruct l; [contradiction | simpl; lia]. }
  unfold np_mean. apply Rdiv_lt_0_compat; lra.
Qed.

(** The returns of the code are the daily returns of the specification. *)
Lemma returns_daily_returns (h : list R) :
  np_divide (np_diff h) (slice_to h (-1)) = daily_returns h.
Proof.
  unfold slice_to, daily_returns, len. cbv zeta. zlt_cases.
  replace (Z.to_nat (Z.max 0 (-1 + Z.of_nat (List.length h))))
    with (List.length h - 1)%nat by lia.
  induction h as [|x t IH]; [reflexivity|].
  destruct t as [|y t']; [reflexivity|].
  cbn [List.length Nat.sub] in *. rewrite Nat.sub_0_r in *.
  change (np_diff (x :: y :: t')) with ((y - x) :: np_diff (y :: t')).
  cbn [firstn seq map]. unfold np_divide in *. cbn [combine map fst snd nth].
  f_equal. rewrite IH. rewrite <- (seq_shift (List.length t') 1), map_map.
  apply map_ext_in. intros k Hk. apply in_seq in Hk.
  destruct k as [|k]; [lia|].
  cbn [nth Nat.sub]. rewrite Nat.sub_0_r. reflexivity.
Qed.

(** ** Confidence intervals *)

Lemma backend_interval (series ensemble : list R) (i : nat) (e : R) :
  nth_error ensemble i = Some e ->
  nth_error (Backend._calculate_confidence_intervals series ensemble) i =
  Some (e - 1.96 * uncertainty series (Z.of_nat i) e,
        e + 1.96 * uncertainty series (Z.of_nat i) e).
Proof.
  intros H. unfold Backend._calculate_confidence_intervals. cbv zeta.
  rewrite returns_daily_returns, nth_error_map.
  unfold enumerate. rewrite nth_error_enumerate_from, H.
  reflexivity.
Qed.

Lemma service_interval (series ensemble : list R) (i : nat) (e : R) :
  nth_error ensemble i = Some e ->
  nth_error (Service._calculate_confidence_intervals series ensemble) i =
  Some (e - 1.96 * damped_uncertainty series (Z.of_nat i) e,
        e + 1.96 * damped_uncertainty series (Z.of_nat i) e).
Proof.
  intros H. unfold Service._calculate_confidence_intervals. cbv zeta.
  rewrite returns_daily_returns, nth_error_map.
  unfold enumerate. rewrite nth_error_enumerate_from, H.
  reflexivity.
Qed.

Lemma length_backend_intervals series ensemble :
  List.length (Backend._calculate_confidence_intervals series ensemble) =
  List.length ensemble.
Proof.
  unfold Backend._calculate_confidence_intervals, enumerate.
  now rewrite length_map, length_enumerate_from.
Qed.

Lemma length_service_intervals series ensemble :
  List.length (Service._calculate_confidence_intervals series ensemble) =
  List.length ensemble.
Proof.
  unfold Service._calculate_confidence_intervals, enumerate.
  now rewrite length_map, length_enumerate_from.
Qed.

Lemma volatility_nonneg series : 0 <= volatility series.
Proof. apply np_std_nonneg. Qed.

Lemma sqrt_step_nonneg (i : nat) : 0 <= sqrt (IZR (Z.of_nat i + 1)).
Proof. apply sqrt_pos. Qed.

Lemma sqrt_step_increasing (i j : nat) :
  (i < j)%nat ->
  sqrt (IZR (Z.of_nat i + 1)) < sqrt (IZR (Z.of_nat j + 1)).
Proof.
  intros H. apply sqrt_lt_1.
  - apply IZR_le. lia.
  - apply IZR_le. lia.
  - apply IZR_lt. lia.
Qed.

(** The product [sqrt(i+1) * e] grows with the step when the forecasts are
    nonnegative and do not fall. *)
Lemma scaled_forecast_monotone (i j : nat) (ei ej : R) :
  (i < j)%nat -> 0 <= ei <= ej ->
  sqrt (IZR (Z.of_nat i + 1)) * ei <= sqrt (IZR (Z.of_nat j + 1)) * ej /\
  (0 < ei -> sqrt (IZR (Z.of_nat i + 1)) * ei < sqrt (IZR (Z.of_nat j + 1)) * ej).
Proof.
  intros Hij He.
  pose proof (sqrt_step_increasing i j Hij) as Hs.
  pose proof (sqrt_step_nonneg i) as Hi.
  split; [|intros Hpos]; nra.
Qed.

(** C3. For every forecast step [i] (0-indexed) the confidence bounds are
    [ensemble[i] -/+ 1.96 * uncertainty], where the uncertainty is
    [volatility * sqrt(i+1) * ensemble[i]] in the backend and the same scaled
    by the fixed factor 0.1 in the prediction service, and the volatility is
    the standard deviation of the daily returns
    [(price[t] - price[t-1]) / price[t-1]] of the full input series; there is
    one interval for each step. *)
Theorem confidence_bounds_formula (series ensemble : list R) (i : nat) (e : R) :
  nth_error ensemble i = Some e ->
  nth_error (Backend._calculate_confidence_intervals series ensemble) i =
    Some (e - 1.96 * (volatility series * sqrt (IZR (Z.of_nat i + 1)) * e),
          e + 1.96 * (volatility series * sqrt (IZR (Z.of_nat i + 1)) * e)) /\
  nth_error (Service._calculate_confidence_intervals series ensemble) i =
    Some (e - 1.96 * (volatility series * sqrt (IZR (Z.of_nat i + 1)) * e * 0.1),
          e + 1.96 * (volatility series * sqrt (IZR (Z.of_nat i + 1)) * e * 0.1)) /\
  volatility series = np_std (daily_returns series) /\
  List.length (Backend._calculate_confidence_intervals series ensemble) =
    List.length ensemble /\
  List.length (Service._calculate_confidence_intervals series ensemble) =
    List.length ensemble.
Proof.
  intros H. repeat split.
  - now apply backend_interval.
  - now apply service_interval.
  - apply length_backend_intervals.
  - apply length_service_intervals.
Qed.

(** C10. Before the rounding to 2 decimals, the confidence interval of every
    step is symmetric about the point forecast, and it contains the point
    forecast whenever that forecast is nonnegative; in both services. *)
Theorem interval_symmetric (series ensemble : list R) (i : nat) (e lo hi : R) :
  nth_error ensemble i = Some e ->
  nth_error (Backend._calculate_confidence_intervals series ensemble) i
    = Some (lo, hi) \/
  nth_error (Service._calculate_confidence_intervals series ensemble) i
    = Some (lo, hi) ->
  hi - e = e - lo /\ (0 <= e -> lo <= e <= hi).
Proof.
  intros He H.
  pose proof (volatility_nonneg series) as Hv.
  pose proof (sqrt_step_nonneg i) as Hs.
  assert (Hvs : 0 <= volatility series * sqrt (IZR (Z.of_nat i + 1)))
    by now apply Rmult_le_pos.
  destruct H as [H|H].
  - rewrite (backend_interval _ _ _ _ He) in H. injection H as <- <-.
    unfold uncertainty. split; [lra|]. intros Hpos. nra.
  - rewrite (service_interval _ _ _ _ He) in H. injection H as <- <-.
    unfold damped_uncertainty, uncertainty. split; [lra|]. intros Hpos. nra.
Qed.

Lemma confidence_bounds_formula_witness :
  nth_error [10; 20] 1 = Some 20 /\
  nth_error (Backend._calculate_confidence_intervals [100; 110; 121] [10; 20]) 1 =
    Some (20 - 1.96 * (volatility [100; 110; 121] * sqrt (IZR (1 + 1)) * 20),
          20 + 1.96 * (volatility [100; 110; 121] * sqrt (IZR (1 + 1)) * 20)) /\
  nth_error (Service._calculate_confidence_intervals [100; 110; 121] [10; 20]) 1 =
    Some (20 - 1.96 * (volatility [100; 110; 121] * sqrt (IZR (1 + 1)) * 20 * 0.1),
          20 + 1.96 * (volatility [100; 110; 121] * sqrt (IZR (1 + 1)) * 20 * 0.1)).
Proof.
  split; [reflexivity|].
  pose proof (confidence_bounds_formula [100; 110; 121] [10; 20] 1 20 eq_refl)
    as [HB [HS _]].
  split; [exact HB | exact HS].
Defined.

Lemma interval_symmetric_witness :
  nth_error [10; 20] 1 = Some 20 /\
  nth_error (Backend._calculate_confidence_intervals [100; 110; 121] [10; 20]) 1 =
    Some (20 - 1.96 * uncertainty [100; 110; 121] 1 20,
          20 + 1.96 * uncertainty [100; 110; 121] 1 20) /\
  (20 + 1.96 * uncertainty [100; 110; 121] 1 20) - 20 =
    20 - (20 - 1.96 * uncertainty [100; 110; 121] 1 20) /\
  (0 <= 20 ->
   20 - 1.96 * uncertainty [100; 110; 121] 1 20 <= 20
   <= 20 + 1.96 * uncertainty [100; 110; 121] 1 20).
Proof.
  split; [reflexivity|].
  split; [apply (backend_interval [100; 110; 121] [10; 20] 1 20 eq_refl)|].
  apply (interval_symmetric [100; 110; 121] [10; 20] 1 20 _ _ eq_refl).
  left. apply (backend_interval [100; 110; 121] [10; 20] 1 20 eq_refl).
Defined.

(** *** Widths along the horizon *)

Lemma falling_series_volatility : 0 < volatility falling_series.
Proof.
  unfold volatility. apply np_std_pos with (x := 0).
  - unfold daily_returns, falling_series. simpl. left. lra.
  - unfold np_mean, daily_returns, falling_series, len. simpl. lra.
Qed.

Lemma sqrt_2_lt_3 : sqrt 2 < 3.
Proof.
  apply Rsqr_incrst_0; [|apply sqrt_pos|lra].
  rewrite Rsqr_sqrt by lra. unfold Rsqr. lra.
Qed.

(** C4, counterexample. On a series of 50 observations that ends in a fall,
    with the positive forecasts 6 and 2 (the trend fallback of that series),
    the interval of the second step is strictly narrower than the interval of
    the first, in both services: the width does not grow with the step. *)
Lemma width_not_monotone :
  0 < 6 /\ 0 < 2 /\
  exists b0 b1 s0 s1,
    nth_error (Backend._calculate_confidence_intervals falling_series [6; 2]) 0
      = Some b0 /\
    nth_error (Backend._calculate_confidence_intervals falling_series [6; 2]) 1
      = Some b1 /\
    nth_error (Service._calculate_confidence_intervals falling_series [6; 2]) 0
      = Some s0 /\
    nth_error (Service._calculate_confidence_intervals falling_series [6; 2]) 1
      = Some s1 /\
    width b1 < width b0 /\ width s1 < width s0.
Proof.
  split; [lra|]. split; [lra|].
  pose proof falling_series_volatility as Hv.
  pose proof sqrt_2_lt_3 as H2.
  do 4 eexists.
  rewrite (backend_interval falling_series [6; 2] 0 6 eq_refl).
  rewrite (backend_interval falling_series [6; 2] 1 2 eq_refl).
  rewrite (service_interval falling_series [6; 2] 0 6 eq_refl).
  rewrite (service_interval falling_series [6; 2] 1 2 eq_refl).
  repeat (split; [reflexivity|]).
  unfold width, damped_uncertainty, uncertainty. cbn [fst snd].
  change (IZR (Z.of_nat 0 + 1)) with 1. change (IZR (Z.of_nat 1 + 1)) with 2.
  rewrite sqrt_1. split; nra.
Qed.

(** C4, amended. The uncertainty of step [i] is
    [volatility * sqrt(i+1) * ensemble[i]] (times 0.1 in the prediction
    service), whose factor [sqrt(i+1)] strictly increases with [i].  Hence for
    steps [i < j] whose forecasts satisfy [0 <= ensemble[i] <= ensemble[j]] the
    interval width at step [j] is at least the width at step [i], and it is
    strictly larger when the volatility and [ensemble[i]] are positive. *)
Theorem width_grows_with_step (series ensemble : list R) (i j : nat) (ei ej : R) :
  (i < j)%nat ->
  nth_error ensemble i = Some ei ->
  nth_error ensemble j = Some ej ->
  0 <= ei <= ej ->
  sqrt (IZR (Z.of_nat i + 1)) < sqrt (IZR (Z.of_nat j + 1)) /\
  exists bi bj si sj,
    nth_error (Backend._calculate_confidence_intervals series ensemble) i
      = Some bi /\
    nth_error (Backend._calculate_confidence_intervals series ensemble) j
      = Some bj /\
    nth_error (Service._calculate_confidence_intervals series ensemble) i
      = Some si /\
    nth_error (Service._calculate_confidence_intervals series ensemble) j
      = Some sj /\
    width bi = 2 * 1.96 * uncertainty series (Z.of_nat i) ei /\
    width si = 2 * 1.96 * damped_uncertainty series (Z.of_nat i) ei /\
    width bi <= width bj /\ width si <= width sj /\
    (0 < volatility series -> 0 < ei ->
     width bi < width bj /\ width si < width sj).
Proof.
  intros Hij Hi Hj He.
  split; [now apply sqrt_step_increasing|].
  do 4 eexists.
  rewrite (backend_interval _ _ _ _ Hi), (backend_interval _ _ _ _ Hj).
  rewrite (service_interval _ _ _ _ Hi), (service_interval _ _ _ _ Hj).
  repeat (split; [reflexivity|]).
  pose proof (volatility_nonneg series) as Hv.
  destruct (scaled_forecast_monotone i j ei ej Hij He) as [Hle Hlt].
  unfold width, damped_uncertainty, uncertainty. cbn [fst snd].
  set (v := volatility series) in *.
  set (a := sqrt (IZR (Z.of_nat i + 1))) in *.
  set (b := sqrt (IZR (Z.of_nat j + 1))) in *.
  split; [lra|]. split; [lra|].
  split; [nra|]. split; [nra|].
  intros Hvpos Hepos. specialize (Hlt Hepos). split; nra.
Qed.

Lemma width_grows_with_step_witness :
  (0 < 1)%nat /\ nth_error [6; 8] 0 = Some 6 /\ nth_error [6; 8] 1 = Some 8 /\
  0 <= 6 <= 8 /\
  exists bi bj,
    nth_error (Backend._calculate_confidence_intervals falling_series [6; 8]) 0
      = Some bi /\
    nth_error (Backend._calculate_confidence_intervals falling_series [6; 8]) 1
      = Some bj /\
    width bi <= width bj.
Proof.
  split; [lia|]. split; [reflexivity|]. split; [reflexivity|].
  split; [lra|].
  destruct (width_grows_with_step falling_series [6; 8] 0 1 6 8
              ltac:(lia) eq_refl eq_refl ltac:(lra))
    as [_ [bi [bj [si [sj [H1 [H2 [_ [_ [_ [_ [H3 _]]]]]]]]]]]].
  exists bi, bj. repeat split; assumption.
Defined.

(** ** The trend fallback *)

Lemma np_getitem_nonneg {A} (a : list A) (i : Z) x :
  (0 <= i)%Z -> nth_error a (Z.to_nat i) = Some x -> np_getitem a i = Ok x.
Proof.
  intros Hi H. unfold np_getitem. cbv zeta. zlt_cases. now rewrite H.
Qed.

Lemma simple_trend_prediction_ok (prices : list R) (days : Z) :
  (10 <= List.length prices)%nat ->
  _simple_trend_prediction prices days = Ok (fallback_forecast prices days).
Proof.
  intros Hlen. unfold _simple_trend_prediction. cbv zeta.
  change (-10)%Z with (- Z.of_nat 10)%Z.
  rewrite slice_from_trailing by lia.
  change (-1)%Z with (- Z.of_nat 1)%Z.
  rewrite np_getitem_from_end by (rewrite length_trailing; lia).
  rewrite from_end_trailing by lia. cbn [obind].
  rewrite (np_getitem_nonneg _ 0 (from_end prices 10)); [|lia|].
  2:{ unfold trailing, from_end. cbn [Z.to_nat].
      rewrite nth_error_skipn, Nat.add_0_r.
      apply nth_error_nth'. lia. }
  cbn [obind]. unfold fallback_forecast.
  apply for_each_singletons. intros i _.
  rewrite np_getitem_from_end by lia. cbn [obind].
  unfold trend_fallback_step, len. rewrite length_trailing by lia.
  reflexivity.
Qed.

Lemma len_fallback_forecast prices days :
  (0 <= days)%Z -> len (fallback_forecast prices days) = days.
Proof.
  intros H. unfold fallback_forecast. rewrite len_map, len_range; lia.
Qed.

Lemma nth_error_fallback_forecast prices days (i : Z) :
  (1 <= i <= days)%Z ->
  nth_error (fallback_forecast prices days) (Z.to_nat (i - 1)) =
  Some (trend_fallback_step prices i).
Proof.
  intros Hi. unfold fallback_forecast.
  rewrite nth_error_map, nth_error_range by lia.
  cbn [option_map]. do 2 f_equal. lia.
Qed.

(** ** The three predictors *)

Lemma ar_try_terminates lib prices days : ar_try lib prices days <> OutOfFuel.
Proof.
  unfold ar_try. cbv zeta.
  destruct (AutoReg_forecast lib prices _ days); discriminate.
Qed.

Lemma arima_try_terminates lib prices days :
  arima_try lib prices days <> OutOfFuel.
Proof.
  unfold arima_try. destruct (ARIMA_forecast lib prices days); discriminate.
Qed.

Lemma lr_try_terminates lib prices days : lr_try lib prices days <> OutOfFuel.
Proof.
  unfold lr_try. cbv zeta.
  destruct (LinearRegression_fit lib _ _); discriminate.
Qed.

(** A [try] block guarded by the trend fallback, once or twice. *)
Lemma guarded_once (attempt : outcome (list R)) prices days log :
  (10 <= List.length prices)%nat -> attempt <> OutOfFuel ->
  try_except (lift attempt)
             (fun _ => lift (_simple_trend_prediction prices days)) log =
  (Ok (output_of attempt prices days), log).
Proof.
  intros Hlen Hno. unfold try_except, lift.
  destruct attempt; cbn; [reflexivity | | congruence].
  now rewrite simple_trend_prediction_ok.
Qed.

Lemma guarded_twice (attempt : outcome (list R)) prices days log :
  (10 <= List.length prices)%nat -> attempt <> OutOfFuel ->
  try_except (try_except (lift attempt)
                (fun _ => lift (_simple_trend_prediction prices days)))
             (fun _ => lift (_simple_trend_prediction prices days)) log =
  (Ok (output_of attempt prices days), log).
Proof.
  intros Hlen Hno.
  unfold try_except at 1. now rewrite guarded_once.
Qed.

Lemma backend_autoregression_run lib prices days log :
  (10 <= List.length prices)%nat ->
  Backend._predict_with_autoregression lib prices days log =
  (Ok (output_of (ar_try lib prices days) prices days),
   log ++ [CallAutoRegression]).
Proof.
  intros H. unfold Backend._predict_with_autoregression, bind, invoke.
  apply guarded_once; [exact H | apply ar_try_terminates].
Qed.

Lemma backend_linear_regression_run lib prices days log :
  (10 <= List.length prices)%nat ->
  Backend._predict_with_linear_regression lib prices days log =
  (Ok (output_of (lr_try lib prices days) prices days),
   log ++ [CallLinearRegression]).
Proof.
  intros H. unfold Backend._predict_with_linear_regression, bind, invoke.
  apply guarded_once; [exact H | apply lr_try_terminates].
Qed.

Lemma backend_arima_run lib prices days log :
  (10 <= List.length prices)%nat ->
  Backend._predict_with_arima lib prices days log =
  (Ok (output_of (arima_try lib prices days) prices days),
   log ++ [CallArima]).
Proof.
  intros H. unfold Backend._predict_with_arima, bind, invoke.
  apply guarded_once; [exact H | apply arima_try_terminates].
Qed.

Lemma service_autoregression_run lib prices days log :
  (10 <= List.length prices)%nat ->
  Service._predict_with_autoregression lib prices days log =
  (Ok (output_of (ar_try lib prices days) prices days),
   log ++ [CallAutoRegression]).
Proof.
  intros H.
  unfold Service._predict_with_autoregression, Service._ar_predict, bind, invoke.
  apply guarded_twice; [exact H | apply ar_try_terminates].
Qed.

Lemma service_linear_regression_run lib prices days log :
  (10 <= List.length prices)%nat ->
  Service._predict_with_linear_regression lib prices days log =
  (Ok (output_of (lr_try lib prices days) prices days),
   log ++ [CallLinearRegression]).
Proof.
  intros H.
  unfold Service._predict_with_linear_regression, Service._lr_predict,
    bind, invoke.
  apply guarded_twice; [exact H | apply lr_try_terminates].
Qed.

Lemma service_arima_run lib prices days log :
  (10 <= List.length prices)%nat ->
  Service._predict_with_arima lib prices days log =
  (Ok (output_of (arima_try lib prices days) prices days),
   log ++ [CallArima]).
Proof.
  intros H.
  unfold Service._predict_with_arima, Service._arima_predict, bind, invoke.
  apply guarded_twice; [exact H | apply arima_try_terminates].
Qed.

(** ** [predict_prices], from the predictors to the response *)

Lemma bind_lift {A B} (o : outcome A) (k : A -> M B) log :
  bind (lift o) k log =
  match o with
  | Ok a => k a log
  | Raise e => (Raise e, log)
  | OutOfFuel => (OutOfFuel, log)
  end.
Proof. unfold bind, lift. now destruct o. Qed.

Lemma length_Close hist : List.length (Close hist) = List.length hist.
Proof. unfold Close. apply length_map. Qed.

(** Peel the lifted stages of [predict_prices_try] one by one. *)
Ltac peel_stages :=
  repeat (rewrite bind_lift;
          match goal with
          | |- context [match ?o with Ok _ => _ | Raise _ => _ | OutOfFuel => _ end] =>
              destruct o; cbn [obind]; try reflexivity
          end).

Lemma backend_try_run lib fuel now hist sym days log :
  (50 <= len hist)%Z ->
  Backend.predict_prices_try lib fuel now hist sym days log =
  (backend_assemble fuel now hist sym days
     (output_of (ar_try lib (Close hist) days) (Close hist) days)
     (output_of (lr_try lib (Close hist) days) (Close hist) days)
     (output_of (arima_try lib (Close hist) days) (Close hist) days),
   log ++ all_predictors).
Proof.
  intros Hlen. unfold Backend.predict_prices_try.
  destruct (Z.ltb_spec (len hist) 50); [lia|]. cbv zeta.
  assert (H10 : (10 <= List.length (Close hist))%nat)
    by (rewrite length_Close; unfold len in Hlen; lia).
  unfold bind at 1. rewrite backend_autoregression_run by exact H10.
  unfold bind at 1. rewrite backend_linear_regression_run by exact H10.
  unfold bind at 1. rewrite backend_arima_run by exact H10.
  replace (((log ++ [CallAutoRegression]) ++ [CallLinearRegression])
             ++ [CallArima]) with (log ++ all_predictors)
    by (unfold all_predictors; now rewrite <- !app_assoc).
  unfold backend_assemble, assemble. cbv zeta.
  peel_stages.
Qed.

Lemma service_try_run lib fuel now hist sym days log :
  (50 <= len hist)%Z ->
  Service.predict_prices_try lib fuel now hist sym days log =
  (service_assemble fuel now hist sym days
     (output_of (ar_try lib (Close hist) days) (Close hist) days)
     (output_of (lr_try lib (Close hist) days) (Close hist) days)
     (output_of (arima_try lib (Close hist) days) (Close hist) days),
   log ++ all_predictors).
Proof.
  intros Hlen. unfold Service.predict_prices_try.
  destruct (Z.ltb_spec (len hist) 50); [lia|]. cbv zeta.
  assert (H10 : (10 <= List.length (Close hist))%nat)
    by (rewrite length_Close; unfold len in Hlen; lia).
  unfold bind at 1. rewrite service_autoregression_run by exact H10.
  unfold bind at 1. rewrite service_linear_regression_run by exact H10.
  unfold bind at 1. rewrite service_arima_run by exact H10.
  replace (((log ++ [CallAutoRegression]) ++ [CallLinearRegression])
             ++ [CallArima]) with (log ++ all_predictors)
    by (unfold all_predictors; now rewrite <- !app_assoc).
  unfold service_assemble, assemble. cbv zeta.
  peel_stages.
Qed.

Lemma backend_try_short lib fuel now hist sym days log :
  (len hist < 50)%Z ->
  Backend.predict_prices_try lib fuel now hist sym days log =
  (Raise (ValueError ("Insufficient historical data for " ++ sym)%string), log).
Proof.
  intros H. unfold Backend.predict_prices_try.
  destruct (Z.ltb_spec (len hist) 50); [reflexivity | lia].
Qed.

Lemma service_try_short lib fuel now hist sym days log :
  (len hist < 50)%Z ->
  Service.predict_prices_try lib fuel now hist sym days log =
  (Raise (ValueError ("Insufficient historical data for " ++ sym)%string), log).
Proof.
  intros H. unfold Service.predict_prices_try.
  destruct (Z.ltb_spec (len hist) 50); [reflexivity | lia].
Qed.

(** The handler of [predict_prices]. *)
Lemma handler_run {A} (m : M A) (prefix sym : string) log :
  try_except m (fun e => raise (Exception_ (prefix ++ sym ++ ": " ++ str e)%string))
             log =
  match m log with
  | (Raise e, log') =>
      (Raise (Exception_ (prefix ++ sym ++ ": " ++ str e)%string), log')
  | r => r
  end.
Proof. unfold try_except, raise. destruct (m log) as [[a|e|] l]; reflexivity. Qed.

(** ** The ensemble *)

Lemma for_each_ok_each {A B} (body : A -> outcome (list B)) l out :
  for_each body l = Ok out ->
  forall x, In x l -> exists ys, body x = Ok ys.
Proof.
  revert out. induction l as [|x t IH]; intros out H y Hy; [contradiction|].
  simpl in H. destruct (body x) as [ys| |] eqn:Ex; simpl in H; try discriminate.
  destruct (for_each body t) as [rest| |] eqn:Et; simpl in H; try discriminate.
  destruct Hy as [<-|Hy]; [eauto | eapply IH; eauto].
Qed.

Lemma getitem_nth {A} (l : list A) (i : Z) (d : A) :
  (0 <= i < len l)%Z -> getitem l i = Ok (nth (Z.to_nat i) l d).
Proof.
  intros Hi. unfold getitem. cbv zeta. zlt_cases.
  destruct (nth_error l (Z.to_nat i)) eqn:E.
  - now rewrite (nth_error_nth _ _ _ E).
  - apply nth_error_None in E. unfold len in Hi. lia.
Qed.

Lemma getitem_ok_bound {A} (l : list A) (i : Z) x :
  (0 <= i)%Z -> getitem l i = Ok x -> (i < len l)%Z.
Proof.
  intros Hi H. apply getitem_ok_inv in H; [|exact Hi].
  assert (Z.to_nat i < List.length l)%nat
    by (apply nth_error_Some; congruence).
  unfold len. lia.
Qed.

Lemma map_range_seq {B} (f : nat -> B) (days : Z) :
  map (fun i => f (Z.to_nat i)) (range 0 days) = map f (seq 0 (Z.to_nat days)).
Proof.
  unfold range. rewrite map_map, Z.sub_0_r.
  apply map_ext. intros k. f_equal. lia.
Qed.

Lemma np_mean_three a b c : np_mean [a; b; c] = (a + b + c) / 3.
Proof. unfold np_mean, fsum, len. simpl. lra. Qed.

Lemma ensemble_predictions_ok ar lr arima days :
  (days <= len ar)%Z -> (days <= len lr)%Z -> (days <= len arima)%Z ->
  ensemble_predictions ar lr arima days =
  Ok (map (ensemble_mean ar lr arima) (seq 0 (Z.to_nat days))).
Proof.
  intros Ha Hl Hm. unfold ensemble_predictions.
  rewrite <- map_range_seq. apply for_each_singletons.
  intros i Hi. apply in_range in Hi.
  rewrite (getitem_nth ar i 0), (getitem_nth lr i 0), (getitem_nth arima i 0)
    by lia.
  cbn [obind]. now rewrite np_mean_three.
Qed.

Lemma ensemble_predictions_inv ar lr arima days ens :
  ensemble_predictions ar lr arima days = Ok ens ->
  ens = map (ensemble_mean ar lr arima) (seq 0 (Z.to_nat days)) /\
  ((0 < days)%Z ->
   (days <= len ar)%Z /\ (days <= len lr)%Z /\ (days <= len arima)%Z).
Proof.
  intros H.
  assert (Hb : (0 < days)%Z ->
               (days <= len ar)%Z /\ (days <= len lr)%Z /\ (days <= len arima)%Z).
  { intros Hd.
    destruct (for_each_ok_each _ _ _ H (days - 1)%Z) as [ys Hys];
      [apply in_range; lia|].
    destruct (getitem ar (days - 1)) eqn:Ea; cbn [obind] in Hys; try discriminate.
    destruct (getitem lr (days - 1)) eqn:El; cbn [obind] in Hys; try discriminate.
    destruct (getitem arima (days - 1)) eqn:Em; cbn [obind] in Hys;
      try discriminate.
    apply getitem_ok_bound in Ea, El, Em; lia. }
  split; [|exact Hb].
  destruct (Z.ltb_spec 0 days) as [Hd|Hd].
  - destruct (Hb Hd) as [Ha [Hl Hm]].
    rewrite ensemble_predictions_ok in H by assumption. congruence.
  - unfold ensemble_predictions, range in H.
    replace (Z.to_nat (days - 0)) with 0%nat in H by lia.
    replace (Z.to_nat days) with 0%nat by lia.
    cbn [seq map for_each] in *. congruence.
Qed.

(** ** The per-step records *)

Lemma float_div_ok x y : y <> 0 -> float_div x y = Ok (x / y).
Proof. intros H. unfold float_div. now destruct (Req_dec_T y 0). Qed.

Lemma float_div_zero x :
  float_div x 0 = Raise (ZeroDivisionError "float division by zero").
Proof. unfold float_div. destruct (Req_dec_T 0 0); [reflexivity | congruence]. Qed.

Lemma skipn_cons_nth_error {A} (l : list A) k x :
  nth_error l k = Some x -> skipn k l = x :: skipn (S k) l.
Proof.
  revert k. induction l as [|y t IH]; intros [|k] H; simpl in *;
    try discriminate.
  - now injection H as ->.
  - now apply IH.
Qed.

Lemma predictions_data_from cp ens ci dates (k : nat) :
  cp <> 0 -> List.length ci = List.length ens ->
  for_each (fun '(i, d) =>
              if (i <? len ens)%Z then
                e <- getitem ens i ;;
                let pred_price := round2 e in
                c <- getitem ci i ;;
                let lower_bound := round2 (fst c) in
                c' <- getitem ci i ;;
                let upper_bound := round2 (snd c') in
                q <- float_div (pred_price - cp) cp ;;
                Ok [ {| date_ := d;
                        predicted_price := pred_price;
                        lower_bound := lower_bound;
                        upper_bound := upper_bound;
                        change_from_current := round2 (pred_price - cp);
                        change_percent := round2 (q * 100) |} ]
              else Ok [])%outcome
           (enumerate_from (Z.of_nat k) dates) =
  Ok (map (fun p => step_record cp (fst (fst p)) (snd (fst p)) (snd p))
          (combine (combine (skipn k ens) (skipn k ci)) dates)).
Proof.
  intros Hcp Hlen. revert k.
  induction dates as [|d t IH]; intros k.
  - cbn [enumerate_from for_each]. now rewrite combine_nil.
  - cbn [enumerate_from for_each].
    replace (Z.of_nat k + 1)%Z with (Z.of_nat (S k)) by lia.
    rewrite IH. unfold len.
    destruct (Z.ltb_spec (Z.of_nat k) (Z.of_nat (List.length ens))) as [Hk|Hk].
    + destruct (nth_error ens k) as [e|] eqn:Ee;
        [|apply nth_error_None in Ee; lia].
      destruct (nth_error ci k) as [c|] eqn:Ec;
        [|apply nth_error_None in Ec; lia].
      rewrite (getitem_nth_error _ _ _ Ee), (getitem_nth_error _ _ _ Ec).
      cbn [obind]. rewrite float_div_ok by exact Hcp. cbn [obind].
      rewrite (skipn_cons_nth_error _ _ _ Ee), (skipn_cons_nth_error _ _ _ Ec).
      reflexivity.
    + cbn [obind app].
      rewrite (skipn_all2 (n := k) ens), (skipn_all2 (n := S k) ens) by lia.
      reflexivity.
Qed.

Lemma predictions_data_ok cp ens ci dates :
  cp <> 0 -> List.length ci = List.length ens ->
  predictions_data cp ens ci dates =
  Ok (map (fun p => step_record cp (fst (fst p)) (snd (fst p)) (snd p))
          (combine (combine ens ci) dates)).
Proof.
  intros Hcp Hlen. unfold predictions_data, enumerate.
  apply (predictions_data_from cp ens ci dates 0 Hcp Hlen).
Qed.

Lemma predictions_data_zero ens ci dates :
  List.length ci = List.length ens -> ens <> [] -> dates <> [] ->
  predictions_data 0 ens ci dates =
  Raise (ZeroDivisionError "float division by zero").
Proof.
  intros Hlen He Hd. unfold predictions_data, enumerate.
  destruct dates as [|d t]; [congruence|].
  destruct ens as [|e ens']; [congruence|].
  destruct ci as [|c ci']; [discriminate|].
  cbn [enumerate_from for_each]. unfold len. cbn [List.length].
  destruct (Z.ltb_spec 0 (Z.of_nat (S (List.length ens')))); [|lia].
  change (getitem (e :: ens') 0) with (Ok (A := R) e).
  change (getitem (c :: ci') 0) with (Ok (A := R * R) c).
  cbn [obind]. rewrite float_div_zero. reflexivity.
Qed.

(** ** The accuracy metrics *)

Lemma calculate_accuracy_metrics_ok (prices : list R) :
  (30 <= List.length prices)%nat ->
  _calculate_accuracy_metrics prices =
  Ok (metrics_of prices).
Proof.
  intros Hlen. unfold _calculate_accuracy_metrics. cbv zeta.
  change (-30)%Z with (- Z.of_nat 30)%Z.
  change (-1)%Z with (- Z.of_nat 1)%Z.
  rewrite slice_from_trailing by lia.
  rewrite !np_getitem_from_end by lia.
  reflexivity.
Qed.

(** ** The calendar *)

(** Decide the integer equality tests of the goal and of the hypotheses. *)
Ltac zeq_cases :=
  repeat match goal with
         | |- context [(?a =? ?b)%Z] => destruct (Z.eqb_spec a b)
         | H : context [(?a =? ?b)%Z] |- _ => destruct (Z.eqb_spec a b)
         end.

Lemma weekday_bounds (d : date) : (0 <= weekday d <= 6)%Z.
Proof. unfold weekday. pose proof (Z.mod_pos_bound (d + 6) 7). lia. Qed.

Lemma weekday_succ (d : date) :
  weekday (d + 1)%Z = (if (weekday d =? 6)%Z then 0 else weekday d + 1)%Z.
Proof.
  unfold weekday. destruct (Z.eqb_spec ((d + 6) mod 7) 6) as [E|E];
    Z.div_mod_to_equations; lia.
Qed.

Lemma next_business_day_spec (d : date) :
  business_day (next_business_day d) /\
  (d <= next_business_day d <= d + 2)%Z /\
  (business_day d -> next_business_day d = d).
Proof.
  unfold next_business_day, business_day.
  pose proof (weekday_bounds d) as Hb.
  destruct (Z.eqb_spec (weekday d) 5) as [E5|E5].
  - replace (d + 2)%Z with (d + 1 + 1)%Z by lia.
    rewrite !weekday_succ, E5. cbn. lia.
  - destruct (Z.eqb_spec (weekday d) 6) as [E6|E6].
    + rewrite weekday_succ, E6. cbn. lia.
    + lia.
Qed.

Lemma skip_weekend_business (fuel : nat) (d : date) :
  (weekday d <= 4)%Z -> Backend.skip_weekend fuel d = Ok d.
Proof.
  intros H. destruct fuel; cbn [Backend.skip_weekend];
    destruct (Z.gtb_spec (weekday d) 4); (lia || reflexivity).
Qed.

Lemma skip_weekend_step (fuel : nat) (d : date) :
  (4 < weekday d)%Z ->
  Backend.skip_weekend (S fuel) d = Backend.skip_weekend fuel (d + 1)%Z.
Proof.
  intros H. cbn [Backend.skip_weekend].
  destruct (Z.gtb_spec (weekday d) 4); [reflexivity | lia].
Qed.

Lemma skip_weekend_ok (fuel : nat) (d : date) :
  (2 <= fuel)%nat -> Backend.skip_weekend fuel d = Ok (next_business_day d).
Proof.
  intros Hf. destruct fuel as [|[|fuel]]; try lia.
  unfold next_business_day. pose proof (weekday_bounds d) as Hb.
  pose proof (weekday_succ d) as H1.
  pose proof (weekday_succ (d + 1)%Z) as H2.
  destruct (Z.eqb_spec (weekday d) 5) as [E5|E5].
  - rewrite E5 in H1. cbn in H1. rewrite H1 in H2. cbn in H2.
    rewrite !skip_weekend_step by lia.
    rewrite skip_weekend_business by lia. f_equal. lia.
  - destruct (Z.eqb_spec (weekday d) 6) as [E6|E6].
    + rewrite skip_weekend_step by lia.
      now rewrite skip_weekend_business by lia.
    + now rewrite skip_weekend_business by lia.
Qed.

Lemma backend_future_dates_ok (fuel : nat) (last_date : date) (days : Z) :
  (2 <= fuel)%nat ->
  Backend.future_dates fuel last_date days =
  Ok (map (fun i => next_business_day (last_date + i)%Z) (range 1 (days + 1))).
Proof.
  intros Hf. unfold Backend.future_dates. apply for_each_singletons.
  intros i _. rewrite skip_weekend_ok by exact Hf. reflexivity.
Qed.

Lemma increasing_cons (d : date) (l : list date) :
  Forall (fun x => (d < x)%Z) l -> increasing l -> increasing (d :: l).
Proof.
  intros HF Hl. split; [|exact Hl].
  destruct l; [exact I | now inversion HF].
Qed.

Lemma business_dates_loop_ok (days : Z) : forall (fuel : nat) acc (d : date),
  (days - len acc <= 0)%Z \/
  (3 * (days - len acc)
   + (if (weekday d =? 5)%Z then 2 else if (weekday d =? 6)%Z then 1 else 0)
   <= Z.of_nat fuel)%Z ->
  exists new,
    Service.business_dates_loop fuel days acc d = Ok (acc ++ new) /\
    len new = Z.max 0 (days - len acc) /\
    Forall business_day new /\ increasing new /\
    Forall (fun x => (d <= x)%Z) new.
Proof.
  induction fuel as [|fuel IH]; intros acc d H.
  - exists []. cbn [Service.business_dates_loop].
    pose proof (weekday_bounds d).
    destruct (Z.ltb_spec (len acc) days) as [Hn|Hn].
    + exfalso. destruct H as [H|H]; [lia|].
      destruct (weekday d =? 5)%Z; [lia|]. destruct (weekday d =? 6)%Z; lia.
    + rewrite app_nil_r. repeat split; try constructor.
      change (len (@nil date)) with 0%Z. lia.
  - cbn [Service.business_dates_loop].
    pose proof (weekday_bounds d) as Hb.
    destruct (Z.ltb_spec (len acc) days) as [Hn|Hn].
    2:{ exists []. rewrite app_nil_r. repeat split; try constructor.
        change (len (@nil date)) with 0%Z. lia. }
    destruct H as [H|H]; [lia|].
    unfold add_days. pose proof (weekday_succ d) as Hs.
    destruct (Z.ltb_spec (weekday d) 5) as [Hw|Hw].
    + destruct (IH (acc ++ [d]) (d + 1)%Z) as [new [E [L [B [I F]]]]].
      { rewrite len_app. change (len [d]) with 1%Z. zeq_cases; lia. }
      exists (d :: new). rewrite E, <- app_assoc. split; [reflexivity|].
      rewrite len_app in L. change (len [d]) with 1%Z in L.
      split; [unfold len in *; cbn [List.length]; lia|].
      split; [constructor; [unfold business_day; lia | exact B]|].
      split.
      * apply increasing_cons; [|exact I].
        eapply Forall_impl; [|exact F]. intros; cbv beta in *; lia.
      * constructor; [lia|].
        eapply Forall_impl; [|exact F]. intros; cbv beta in *; lia.
    + destruct (IH acc (d + 1)%Z) as [new [E [L [B [I F]]]]].
      { right. zeq_cases; lia. }
      exists new. split; [exact E|]. split; [exact L|].
      split; [exact B|]. split; [exact I|].
      eapply Forall_impl; [|exact F]. intros; cbv beta in *; lia.
Qed.

Lemma generate_business_dates_ok (fuel : nat) (start_date : date) (days : Z) :
  (0 <= days)%Z -> (3 * days + 2 <= Z.of_nat fuel)%Z ->
  exists l,
    Service._generate_business_dates fuel start_date days = Ok l /\
    len l = days /\ Forall business_day l /\ increasing l /\
    Forall (fun x => (start_date < x)%Z) l.
Proof.
  intros Hd Hf. unfold Service._generate_business_dates. cbv zeta.
  destruct (business_dates_loop_ok days fuel [] (add_days start_date 1))
    as [new [E [L [B [I F]]]]].
  { right. change (len []) with 0%Z.
    destruct (weekday (add_days start_date 1) =? 5)%Z; [lia|].
    destruct (weekday (add_days start_date 1) =? 6)%Z; lia. }
  exists new. cbn [app] in E. change (len (@nil date)) with 0%Z in L.
  split; [exact E|]. split; [lia|]. split; [exact B|]. split; [exact I|].
  eapply Forall_impl; [|exact F]. unfold add_days. intros; cbv beta in *; lia.
Qed.

Lemma slice_to_all {A} (l : list A) (n : Z) :
  len l = n -> slice_to l n = l.
Proof.
  intros H. unfold slice_to. cbv zeta. pose proof (len_nonneg l).
  zlt_cases. unfold len in H. replace (Z.to_nat n) with (List.length l) by lia.
  apply firstn_all.
Qed.

(** ** The assembled response *)

Lemma predictions_data_no_forecast cp ci dates :
  predictions_data cp [] ci dates = Ok [].
Proof.
  unfold predictions_data, enumerate.
  change 0%Z with (Z.of_nat 0). generalize 0%nat.
  induction dates as [|d t IH]; intros k; cbn [enumerate_from for_each];
    [reflexivity|].
  replace (Z.of_nat k + 1)%Z with (Z.of_nat (S k)) by lia.
  rewrite IH. change (len (@nil R)) with 0%Z.
  destruct (Z.ltb_spec (Z.of_nat k) 0); [lia | reflexivity].
Qed.

Lemma predictions_data_inv cp ens ci dates pd :
  List.length ci = List.length ens ->
  predictions_data cp ens ci dates = Ok pd ->
  pd = map (fun p => step_record cp (fst (fst p)) (snd (fst p)) (snd p))
           (combine (combine ens ci) dates) /\
  (pd <> [] -> cp <> 0).
Proof.
  intros Hlen H.
  destruct (Req_dec_T cp 0) as [E|E].
  - subst cp. destruct ens as [|e ens'].
    + rewrite predictions_data_no_forecast in H. injection H as <-.
      split; [reflexivity | congruence].
    + destruct dates as [|d t].
      * unfold predictions_data in H. cbn in H. injection H as <-.
        rewrite combine_nil. split; [reflexivity | congruence].
      * rewrite predictions_data_zero in H by (assumption || discriminate).
        discriminate.
  - rewrite predictions_data_ok in H by assumption. injection H as <-.
    split; [reflexivity | intros _; exact E].
Qed.

Section Assemble.

Variable intervals : list R -> list R -> list (R * R).
Variable calendar : date -> outcome (list date).
Variable trim : list date -> list date.
Variables period description now symbol : string.
Variable hist : history.
Variable days : Z.
Variables ar lr arima : list R.

Hypothesis intervals_length :
  forall series ens, List.length (intervals series ens) = List.length ens.
Hypothesis enough_history : (30 <= List.length hist)%nat.

Lemma hist_nonempty : index hist <> [] /\ Close hist <> [].
Proof.
  unfold index, Close.
  destruct hist; [simpl in enough_history; lia|]. split; discriminate.
Qed.

Lemma assemble_ok (dates : list date) :
  (days <= len ar)%Z -> (days <= len lr)%Z -> (days <= len arima)%Z ->
  calendar (last (index hist) 0%Z) = Ok dates ->
  last (Close hist) 0 <> 0 ->
  assemble intervals calendar trim period description now hist symbol days
           ar lr arima =
  Ok (response_of intervals period description now hist symbol days
                  ar lr arima (trim dates)).
Proof.
  intros Ha Hl Hm Hc Hcp. unfold assemble. cbv zeta.
  destruct hist_nonempty as [Hi Hp].
  rewrite ensemble_predictions_ok by assumption. cbn [obind].
  rewrite (np_getitem_last (A := date) _ 0%Z Hi). cbn [obind]. rewrite Hc. cbn [obind].
  rewrite (np_getitem_last (Close hist) 0 Hp). cbn [obind].
  rewrite predictions_data_ok by (exact Hcp || apply intervals_length).
  cbn [obind].
  rewrite calculate_accuracy_metrics_ok
    by (rewrite length_Close; exact enough_history).
  reflexivity.
Qed.

Lemma assemble_zero (dates : list date) :
  (0 < days)%Z ->
  (days <= len ar)%Z -> (days <= len lr)%Z -> (days <= len arima)%Z ->
  calendar (last (index hist) 0%Z) = Ok dates -> trim dates <> [] ->
  last (Close hist) 0 = 0 ->
  assemble intervals calendar trim period description now hist symbol days
           ar lr arima =
  Raise (ZeroDivisionError "float division by zero").
Proof.
  intros Hd Ha Hl Hm Hc Ht Hcp. unfold assemble. cbv zeta.
  destruct hist_nonempty as [Hi Hp].
  rewrite ensemble_predictions_ok by assumption. cbn [obind].
  rewrite (np_getitem_last (A := date) _ 0%Z Hi). cbn [obind]. rewrite Hc. cbn [obind].
  rewrite (np_getitem_last (Close hist) 0 Hp). cbn [obind]. rewrite Hcp.
  rewrite predictions_data_zero; [reflexivity | apply intervals_length | | exact Ht].
  destruct (Z.to_nat days) eqn:E; [lia | discriminate].
Qed.

Lemma assemble_inv (r : PredictionResponse) :
  assemble intervals calendar trim period description now hist symbol days
           ar lr arima = Ok r ->
  exists dates,
    calendar (last (index hist) 0%Z) = Ok dates /\
    r = response_of intervals period description now hist symbol days
                    ar lr arima (trim dates) /\
    (predictions r <> [] -> last (Close hist) 0 <> 0) /\
    (days <= len ar)%Z /\ (days <= len lr)%Z /\ (days <= len arima)%Z.
Proof.
  unfold assemble. cbv zeta. destruct hist_nonempty as [Hi Hp].
  destruct (ensemble_predictions ar lr arima days) as [e| |] eqn:Ee;
    cbn [obind]; try discriminate.
  apply ensemble_predictions_inv in Ee. destruct Ee as [-> Hb].
  rewrite (np_getitem_last (A := date) _ 0%Z Hi). cbn [obind].
  destruct (calendar (last (index hist) 0%Z)) as [dates| |] eqn:Ec;
    cbn [obind]; try discriminate.
  rewrite (np_getitem_last (Close hist) 0 Hp). cbn [obind].
  destruct (predictions_data _ _ _ _) as [pd| |] eqn:Ep;
    cbn [obind]; try discriminate.
  apply predictions_data_inv in Ep; [|apply intervals_length].
  destruct Ep as [-> Hnz].
  rewrite calculate_accuracy_metrics_ok
    by (rewrite length_Close; exact enough_history).
  cbn [obind]. intros [= <-]. exists dates.
  split; [reflexivity|]. split; [reflexivity|]. split; [exact Hnz|].
  destruct (Z.ltb_spec 0 days) as [Hd|Hd]; [exact (Hb Hd)|].
  pose proof (len_nonneg ar). pose proof (len_nonneg lr).
  pose proof (len_nonneg arima). lia.
Qed.

End Assemble.

(** ** Lengths of the predictor outputs *)

Lemma length_lr_forecast model n steps : forall last_prices,
  List.length (lr_forecast model n steps last_prices) = List.length steps.
Proof.
  induction steps as [|i rest IH]; intros last_prices; [reflexivity|].
  cbn [lr_forecast List.length]. cbv zeta. now rewrite IH.
Qed.

Lemma len_output_ar lib prices days :
  forecasts_steps lib -> (0 <= days)%Z ->
  len (output_of (ar_try lib prices days) prices days) = days.
Proof.
  intros [Har _] Hd. unfold ar_try. cbv zeta.
  destruct (AutoReg_forecast lib prices _ days) as [e|l] eqn:E; cbn.
  - now apply len_fallback_forecast.
  - eapply Har; eauto.
Qed.

Lemma len_output_arima lib prices days :
  forecasts_steps lib -> (0 <= days)%Z ->
  len (output_of (arima_try lib prices days) prices days) = days.
Proof.
  intros [_ Hma] Hd. unfold arima_try.
  destruct (ARIMA_forecast lib prices days) as [e|l] eqn:E; cbn.
  - now apply len_fallback_forecast.
  - eapply Hma; eauto.
Qed.

Lemma len_output_lr lib prices days :
  (0 <= days)%Z ->
  len (output_of (lr_try lib prices days) prices days) = days.
Proof.
  intros Hd. unfold lr_try. cbv zeta.
  destruct (LinearRegression_fit lib _ _) as [e|m]; cbn.
  - now apply len_fallback_forecast.
  - unfold len. rewrite length_lr_forecast, length_range. lia.
Qed.

(** ** [predict_prices] as a whole *)

Lemma backend_predict_run lib fuel now hist sym days log :
  (50 <= len hist)%Z ->
  Backend.predict_prices lib fuel now hist sym days log =
  (match backend_assemble fuel now hist sym days
           (output_of (ar_try lib (Close hist) days) (Close hist) days)
           (output_of (lr_try lib (Close hist) days) (Close hist) days)
           (output_of (arima_try lib (Close hist) days) (Close hist) days)
   with
   | Raise e => Raise (Exception_ ("Error predicting prices for "
                                   ++ sym ++ ": " ++ str e)%string)
   | r => r
   end,
   log ++ all_predictors).
Proof.
  intros H. unfold Backend.predict_prices.
  rewrite handler_run, backend_try_run by exact H.
  now destruct (backend_assemble _ _ _ _ _ _ _ _).
Qed.

Lemma service_predict_run lib fuel now hist sym days log :
  (50 <= len hist)%Z ->
  Service.predict_prices lib fuel now hist sym days log =
  (match service_assemble fuel now hist sym days
           (output_of (ar_try lib (Close hist) days) (Close hist) days)
           (output_of (lr_try lib (Close hist) days) (Close hist) days)
           (output_of (arima_try lib (Close hist) days) (Close hist) days)
   with
   | Raise e => Raise (Exception_ ("Prediction failed for "
                                   ++ sym ++ ": " ++ str e)%string)
   | r => r
   end,
   log ++ all_predictors).
Proof.
  intros H. unfold Service.predict_prices.
  rewrite handler_run, service_try_run by exact H.
  now destruct (service_assemble _ _ _ _ _ _ _ _).
Qed.

Lemma backend_predict_short lib fuel now hist sym days log :
  (len hist < 50)%Z ->
  Backend.predict_prices lib fuel now hist sym days log =
  (Raise (Exception_ ("Error predicting prices for " ++ sym ++ ": "
                      ++ "Insufficient historical data for " ++ sym)%string),
   log).
Proof.
  intros H. unfold Backend.predict_prices.
  now rewrite handler_run, backend_try_short by exact H.
Qed.

Lemma service_predict_short lib fuel now hist sym days log :
  (len hist < 50)%Z ->
  Service.predict_prices lib fuel now hist sym days log =
  (Raise (Exception_ ("Prediction failed for " ++ sym ++ ": "
                      ++ "Insufficient historical data for " ++ sym)%string),
   log).
Proof.
  intros H. unfold Service.predict_prices.
  now rewrite handler_run, service_try_short by exact H.
Qed.

Lemma len_hist_length (hist : history) :
  (50 <= len hist)%Z -> (30 <= List.length hist)%nat.
Proof. unfold len. lia. Qed.

Lemma backend_predict_ok lib fuel now hist sym days log :
  (50 <= len hist)%Z -> forecasts_steps lib -> (0 <= days)%Z ->
  (2 <= fuel)%nat -> last (Close hist) 0 <> 0 ->
  Backend.predict_prices lib fuel now hist sym days log =
  (Ok (backend_response lib now hist sym days), log ++ all_predictors).
Proof.
  intros Hlen Hlib Hd Hf Hcp. rewrite backend_predict_run by exact Hlen.
  unfold backend_assemble, backend_response.
  rewrite (assemble_ok _ _ _ _ _ _ _ _ _ _ _ _
             length_backend_intervals (len_hist_length _ Hlen)
             (map (fun i => next_business_day (last (index hist) 0 + i)%Z)
                  (range 1 (days + 1)))).
  - reflexivity.
  - rewrite len_output_ar by assumption. lia.
  - rewrite len_output_lr by assumption. lia.
  - rewrite len_output_arima by assumption. lia.
  - now apply backend_future_dates_ok.
  - exact Hcp.
Qed.

Lemma backend_predict_zero lib fuel now hist sym days log :
  (50 <= len hist)%Z -> forecasts_steps lib -> (0 < days)%Z ->
  (2 <= fuel)%nat -> last (Close hist) 0 = 0 ->
  Backend.predict_prices lib fuel now hist sym days log =
  (Raise (Exception_ ("Error predicting prices for " ++ sym
                      ++ ": float division by zero")%string),
   log ++ all_predictors).
Proof.
  intros Hlen Hlib Hd Hf Hcp. rewrite backend_predict_run by exact Hlen.
  unfold backend_assemble.
  rewrite (assemble_zero _ _ _ _ _ _ _ _ _ _ _ _
             length_backend_intervals (len_hist_length _ Hlen)
             (map (fun i => next_business_day (last (index hist) 0 + i)%Z)
                  (range 1 (days + 1)))).
  - reflexivity.
  - exact Hd.
  - rewrite len_output_ar by (assumption || lia). lia.
  - rewrite len_output_lr by lia. lia.
  - rewrite len_output_arima by (assumption || lia). lia.
  - now apply backend_future_dates_ok.
  - intros E. apply (f_equal (@List.length date)) in E.
    rewrite length_map, length_range in E. simpl in E. lia.
  - exact Hcp.
Qed.

Lemma service_predict_ok lib fuel now hist sym days log :
  (50 <= len hist)%Z -> forecasts_steps lib -> (0 <= days)%Z ->
  (3 * days + 2 <= Z.of_nat fuel)%Z -> last (Close hist) 0 <> 0 ->
  exists dates,
    Service._generate_business_dates fuel (last (index hist) 0%Z) days
      = Ok dates /\
    len dates = days /\ Forall business_day dates /\ increasing dates /\
    Service.predict_prices lib fuel now hist sym days log =
    (Ok (service_response lib now hist sym days dates), log ++ all_predictors).
Proof.
  intros Hlen Hlib Hd Hf Hcp.
  destruct (generate_business_dates_ok fuel (last (index hist) 0%Z) days Hd Hf)
    as [dates [Eg [Ld [Bd [Id _]]]]].
  exists dates. repeat (split; [assumption|]).
  rewrite service_predict_run by exact Hlen.
  unfold service_assemble, service_response.
  rewrite (assemble_ok _ _ _ _ _ _ _ _ _ _ _ _
             length_service_intervals (len_hist_length _ Hlen) dates).
  - now rewrite slice_to_all.
  - rewrite len_output_ar by assumption. lia.
  - rewrite len_output_lr by assumption. lia.
  - rewrite len_output_arima by assumption. lia.
  - exact Eg.
  - exact Hcp.
Qed.

Lemma service_predict_zero lib fuel now hist sym days log :
  (50 <= len hist)%Z -> forecasts_steps lib -> (0 < days)%Z ->
  (3 * days + 2 <= Z.of_nat fuel)%Z -> last (Close hist) 0 = 0 ->
  Service.predict_prices lib fuel now hist sym days log =
  (Raise (Exception_ ("Prediction failed for " ++ sym
                      ++ ": float division by zero")%string),
   log ++ all_predictors).
Proof.
  intros Hlen Hlib Hd Hf Hcp.
  destruct (generate_business_dates_ok fuel (last (index hist) 0%Z) days
              ltac:(lia) Hf) as [dates [Eg [Ld _]]].
  rewrite service_predict_run by exact Hlen.
  unfold service_assemble.
  rewrite (assemble_zero _ _ _ _ _ _ _ _ _ _ _ _
             length_service_intervals (len_hist_length _ Hlen) dates).
  - reflexivity.
  - exact Hd.
  - rewrite len_output_ar by (assumption || lia). lia.
  - rewrite len_output_lr by lia. lia.
  - rewrite len_output_arima by (assumption || lia). lia.
  - exact Eg.
  - rewrite slice_to_all by exact Ld. intros ->.
    change (len (@nil date)) with 0%Z in Ld. lia.
  - exact Hcp.
Qed.

Lemma backend_predict_inv lib fuel now hist sym days log r log' :
  Backend.predict_prices lib fuel now hist sym days log = (Ok r, log') ->
  (50 <= len hist)%Z /\ log' = log ++ all_predictors /\
  exists dates,
    Backend.future_dates fuel (last (index hist) 0%Z) days = Ok dates /\
    r = response_of Backend._calculate_confidence_intervals
          (str_of_int days ++ " days")%string "Average of all methods"
          now hist sym days
          (output_of (ar_try lib (Close hist) days) (Close hist) days)
          (output_of (lr_try lib (Close hist) days) (Close hist) days)
          (output_of (arima_try lib (Close hist) days) (Close hist) days)
          dates /\
    (predictions r <> [] -> last (Close hist) 0 <> 0) /\
    (days <= len (output_of (ar_try lib (Close hist) days) (Close hist) days))%Z /\
    (days <= len (output_of (lr_try lib (Close hist) days) (Close hist) days))%Z /\
    (days <= len (output_of (arima_try lib (Close hist) days) (Close hist) days))%Z.
Proof.
  intros H. destruct (Z.ltb_spec (len hist) 50) as [Hs|Hlen].
  - rewrite backend_predict_short in H by exact Hs. discriminate.
  - split; [exact Hlen|].
    rewrite backend_predict_run in H by exact Hlen.
    injection H as Hr <-. split; [reflexivity|].
    destruct (backend_assemble _ _ _ _ _ _ _ _) as [r'| |] eqn:E;
      try discriminate.
    injection Hr as ->. unfold backend_assemble in E.
    apply assemble_inv in E;
      [|apply length_backend_intervals | now apply len_hist_length].
    destruct E as [dates [Ec [Er [Hnz Hb]]]]. exists dates. auto.
Qed.

Lemma service_predict_inv lib fuel now hist sym days log r log' :
  Service.predict_prices lib fuel now hist sym days log = (Ok r, log') ->
  (50 <= len hist)%Z /\ log' = log ++ all_predictors /\
  exists dates,
    Service._generate_business_dates fuel (last (index hist) 0%Z) days
      = Ok dates /\
    r = service_response lib now hist sym days (slice_to dates days) /\
    (predictions r <> [] -> last (Close hist) 0 <> 0) /\
    (days <= len (output_of (ar_try lib (Close hist) days) (Close hist) days))%Z /\
    (days <= len (output_of (lr_try lib (Close hist) days) (Close hist) days))%Z /\
    (days <= len (output_of (arima_try lib (Close hist) days) (Close hist) days))%Z.
Proof.
  intros H. destruct (Z.ltb_spec (len hist) 50) as [Hs|Hlen].
  - rewrite service_predict_short in H by exact Hs. discriminate.
  - split; [exact Hlen|].
    rewrite service_predict_run in H by exact Hlen.
    injection H as Hr <-. split; [reflexivity|].
    destruct (service_assemble _ _ _ _ _ _ _ _) as [r'| |] eqn:E;
      try discriminate.
    injection Hr as ->. unfold service_assemble in E.
    apply assemble_inv in E;
      [|apply length_service_intervals | now apply len_hist_length].
    destruct E as [dates [Ec [Er [Hnz Hb]]]]. exists dates. auto.
Qed.

(** ** Reading the assembled response *)

Lemma nth_error_combine {A B} (l1 : list A) (l2 : list B) : forall i a b,
  nth_error (combine l1 l2) i = Some (a, b) ->
  nth_error l1 i = Some a /\ nth_error l2 i = Some b.
Proof.
  revert l2. induction l1 as [|x t IH]; intros [|y l2] [|i] a b H;
    simpl in *; try discriminate.
  - injection H as -> ->. auto.
  - now apply IH.
Qed.

Lemma map_snd_combine_all {A B} (l1 : list A) (l2 : list B) :
  List.length l1 = List.length l2 -> map snd (combine l1 l2) = l2.
Proof.
  revert l2. induction l1 as [|x t IH]; intros [|y l2] H; simpl in *;
    try discriminate; [reflexivity|].
  f_equal. apply IH. lia.
Qed.

Section Response.

Variable intervals : list R -> list R -> list (R * R).
Variables period description now symbol : string.
Variable hist : history.
Variable days : Z.
Variables ar lr arima : list R.
Variable dates : list date.

Hypothesis intervals_length :
  forall series ens, List.length (intervals series ens) = List.length ens.

Lemma response_step (i : nat) (rec : PredictionData) :
  nth_error (predictions (response_of intervals period description now hist
                            symbol days ar lr arima dates)) i = Some rec ->
  exists ci,
    nth_error (intervals (Close hist)
                 (map (ensemble_mean ar lr arima) (seq 0 (Z.to_nat days)))) i
      = Some ci /\
    nth_error dates i = Some (date_ rec) /\
    (i < Z.to_nat days)%nat /\
    rec = step_record (last (Close hist) 0) (ensemble_mean ar lr arima i) ci
                      (date_ rec).
Proof.
  unfold response_of. cbv zeta. cbn [predictions].
  rewrite nth_error_map.
  destruct (nth_error (combine _ dates) i) as [[[e ci] d]|] eqn:E;
    [|discriminate].
  cbn [option_map fst snd]. intros [= <-].
  apply nth_error_combine in E. destruct E as [E Ed].
  apply nth_error_combine in E. destruct E as [Ee Eci].
  rewrite nth_error_map in Ee.
  destruct (nth_error (seq 0 (Z.to_nat days)) i) as [k|] eqn:Ek;
    [|discriminate].
  injection Ee as <-.
  assert (Hi : (i < Z.to_nat days)%nat).
  { rewrite <- (length_seq (Z.to_nat days) 0).
    apply nth_error_Some. congruence. }
  rewrite nth_error_seq in Ek.
  destruct (Nat.ltb_spec i (Z.to_nat days)); [|lia]. injection Ek as <-.
  exists ci. cbn [date_ step_record]. auto.
Qed.

Lemma response_dates :
  List.length dates = Z.to_nat days ->
  map date_ (predictions (response_of intervals period description now hist
                            symbol days ar lr arima dates)) = dates.
Proof.
  intros H. unfold response_of. cbv zeta. cbn [predictions].
  rewrite map_map. cbn [date_ step_record].
  change (fun x : R * (R * R) * date => snd x) with (@snd (R * (R * R)) date).
  apply map_snd_combine_all.
  rewrite length_combine, intervals_length, length_map, length_seq. lia.
Qed.

End Response.

(** ** The concrete inputs *)

Lemma failing_library_forecasts_steps : forecasts_steps failing_library.
Proof. split; intros; discriminate. Qed.

Lemma naive_library_forecasts_steps : forecasts_steps naive_library.
Proof.
  split; cbn; intros; match goal with H : inr _ = inr _ |- _ => injection H as <- end;
    rewrite len_map, len_range; lia.
Qed.

Lemma friday_history_len close last_close :
  len (friday_history close last_close) = 50%Z.
Proof. reflexivity. Qed.

Lemma friday_history_last_close close last_close :
  last (Close (friday_history close last_close)) 0 = last_close.
Proof. reflexivity. Qed.

Lemma friday_history_last_date close last_close :
  last (index (friday_history close last_close)) 0%Z = 738890%Z.
Proof. reflexivity. Qed.

(** A run of the backend that returns a response. *)
Lemma friday_backend_run :
  Backend.predict_prices naive_library 2 "2024-01-05T18:00:00"
    (friday_history 100 102) "AAPL" 3 [] =
  (Ok friday_response, all_predictors).
Proof.
  apply (backend_predict_ok naive_library 2 _ (friday_history 100 102) "AAPL" 3 []).
  - rewrite friday_history_len. lia.
  - apply naive_library_forecasts_steps.
  - lia.
  - lia.
  - rewrite friday_history_last_close. lra.
Qed.

(** ** Too short a history *)

(** C5, on the code.  With a history of three observations no predictor is
    invoked, but the error that [predict_prices] raises is not the
    [ValueError "Insufficient historical data for <symbol>"] of its length
    check (the InsufficientDataError of the specification): the handler
    around the check re-raises it as a plain [Exception], in both services,
    and the endpoint of the prediction service, which keeps status 400 for a
    [ValueError], answers 500. *)
Theorem insufficient_data_error_kind_lost :
  (len short_history < 50)%Z /\
  Backend.predict_prices naive_library 2 "now" short_history "AAPL" 30 [] =
    (Raise (Exception_
              "Error predicting prices for AAPL: Insufficient historical data for AAPL"),
     []) /\
  Service.predict_prices naive_library 92 "now" short_history "AAPL" 30 [] =
    (Raise (Exception_
              "Prediction failed for AAPL: Insufficient historical data for AAPL"),
     []) /\
  (forall msg,
      fst (Backend.predict_prices naive_library 2 "now" short_history "AAPL" 30 [])
      <> Raise (ValueError msg)) /\
  (forall msg,
      fst (Service.predict_prices naive_library 92 "now" short_history "AAPL" 30 [])
      <> Raise (ValueError msg)) /\
  Main.predict_stock_price (fun s => s) short_provider naive_library 92 "now"
    "AAPL" 30 [] =
    (HTTPException 500
       "Prediction failed: Prediction failed for AAPL: Insufficient historical data for AAPL",
     []).
Proof.
  assert (Hs : (len short_history < 50)%Z) by reflexivity.
  split; [exact Hs|].
  pose proof (backend_predict_short naive_library 2 "now" short_history "AAPL"
                30 [] Hs) as HB.
  pose proof (service_predict_short naive_library 92 "now" short_history "AAPL"
                30 [] Hs) as HS.
  split; [exact HB|]. split; [exact HS|]. split; [|split].
  - intros msg. rewrite HB. cbn [fst]. discriminate.
  - intros msg. rewrite HS. cbn [fst]. discriminate.
  - unfold Main.predict_stock_price, short_provider. rewrite HS. reflexivity.
Qed.

(** ** Errors that reach the caller *)

(** C6, counterexample. With three observations the caller of
    [predict_prices] receives a plain [Exception], not the [ValueError] of the
    length check: it is of the kind, and has the prefix, of the failure that a
    zero current price causes on a history of 50 observations.  That failure
    reads the same for the horizons 5 and 7: the horizon is not carried. *)
Lemma insufficient_data_not_told_apart :
  fst (Service.predict_prices failing_library 17 "now" short_history "X" 5 []) =
    Raise (Exception_ "Prediction failed for X: Insufficient historical data for X") /\
  fst (Backend.predict_prices failing_library 17 "now" short_history "X" 5 []) =
    Raise (Exception_ "Error predicting prices for X: Insufficient historical data for X") /\
  (forall m,
      fst (Service.predict_prices failing_library 17 "now" short_history "X" 5 [])
      <> Raise (ValueError m)) /\
  fst (Service.predict_prices failing_library 17 "now" (friday_history 100 0) "X" 5 []) =
    Raise (Exception_ "Prediction failed for X: float division by zero") /\
  fst (Service.predict_prices failing_library 23 "now" (friday_history 100 0) "X" 7 []) =
    Raise (Exception_ "Prediction failed for X: float division by zero") /\
  fst (Backend.predict_prices failing_library 17 "now" (friday_history 100 0) "X" 5 []) =
    fst (Backend.predict_prices failing_library 23 "now" (friday_history 100 0) "X" 7 []).
Proof.
  assert (Hs : (len short_history < 50)%Z) by reflexivity.
  assert (Hl : (50 <= len (friday_history 100 0))%Z)
    by (rewrite friday_history_len; lia).
  pose proof failing_library_forecasts_steps as Hlib.
  rewrite !(service_predict_short _ _ _ _ _ _ _ Hs).
  rewrite (backend_predict_short _ _ _ _ _ _ _ Hs).
  rewrite (service_predict_zero failing_library 17 "now" _ "X" 5 [] Hl Hlib)
    by (reflexivity || lia).
  rewrite (service_predict_zero failing_library 23 "now" _ "X" 7 [] Hl Hlib)
    by (reflexivity || lia).
  rewrite (backend_predict_zero failing_library 17 "now" _ "X" 5 [] Hl Hlib)
    by (reflexivity || lia).
  rewrite (backend_predict_zero failing_library 23 "now" _ "X" 7 [] Hl Hlib)
    by (reflexivity || lia).
  cbn [fst]. repeat split; try reflexivity. intros m. discriminate.
Qed.

(** C6, amended. For a history of at least 50 observations and a positive
    horizon, the assembler raises no error kind of its own: whatever exception
    the ensembling or the assembly raises is re-raised as one generic
    [Exception] whose message is a fixed prefix, the symbol and the text of
    the original error, and the horizon is not part of it.  With library
    forecasts of [horizon] values the only such failure is the
    [ZeroDivisionError] of a zero current price; with any other current price
    the response is returned. *)
Theorem failures_reraised_with_symbol lib fuel now hist sym days log :
  (50 <= len hist)%Z -> forecasts_steps lib -> (0 < days)%Z ->
  (3 * days + 2 <= Z.of_nat fuel)%Z ->
  (last (Close hist) 0 = 0 ->
   Backend.predict_prices lib fuel now hist sym days log =
     (Raise (Exception_ ("Error predicting prices for " ++ sym
                         ++ ": float division by zero")%string),
      log ++ all_predictors) /\
   Service.predict_prices lib fuel now hist sym days log =
     (Raise (Exception_ ("Prediction failed for " ++ sym
                         ++ ": float division by zero")%string),
      log ++ all_predictors)) /\
  (last (Close hist) 0 <> 0 ->
   exists rb rs,
     Backend.predict_prices lib fuel now hist sym days log =
       (Ok rb, log ++ all_predictors) /\
     Service.predict_prices lib fuel now hist sym days log =
       (Ok rs, log ++ all_predictors)) /\
  (forall e log',
      Backend.predict_prices_try lib fuel now hist sym days log = (Raise e, log') ->
      Backend.predict_prices lib fuel now hist sym days log =
        (Raise (Exception_ ("Error predicting prices for " ++ sym ++ ": "
                            ++ str e)%string), log')) /\
  (forall e log',
      Service.predict_prices_try lib fuel now hist sym days log = (Raise e, log') ->
      Service.predict_prices lib fuel now hist sym days log =
        (Raise (Exception_ ("Prediction failed for " ++ sym ++ ": "
                            ++ str e)%string), log')).
Proof.
  intros Hlen Hlib Hd Hf.
  assert (Hf2 : (2 <= fuel)%nat) by lia.
  split; [|split; [|split]].
  - intros Hz. split.
    + now apply backend_predict_zero.
    + now apply service_predict_zero.
  - intros Hnz.
    destruct (service_predict_ok lib fuel now hist sym days log Hlen Hlib
                ltac:(lia) Hf Hnz) as [dates [_ [_ [_ [_ Hs]]]]].
    eexists. eexists. split; [|exact Hs].
    apply backend_predict_ok; (assumption || lia).
  - intros e log' H. unfold Backend.predict_prices.
    now rewrite handler_run, H.
  - intros e log' H. unfold Service.predict_prices.
    now rewrite handler_run, H.
Qed.

Lemma failures_reraised_with_symbol_witness :
  (50 <= len (friday_history 100 0))%Z /\ forecasts_steps failing_library /\
  (0 < 5)%Z /\ (3 * 5 + 2 <= Z.of_nat 17)%Z /\
  last (Close (friday_history 100 0)) 0 = 0 /\
  Service.predict_prices failing_library 17 "now" (friday_history 100 0) "X" 5 [] =
    (Raise (Exception_ "Prediction failed for X: float division by zero"),
     all_predictors).
Proof.
  assert (Hl : (50 <= len (friday_history 100 0))%Z)
    by (rewrite friday_history_len; lia).
  assert (Hd : (0 < 5)%Z) by lia.
  assert (Hf : (3 * 5 + 2 <= Z.of_nat 17)%Z) by lia.
  assert (Hz : last (Close (friday_history 100 0)) 0 = 0) by reflexivity.
  repeat (split; [assumption || exact failing_library_forecasts_steps|]).
  destruct (failures_reraised_with_symbol failing_library 17 "now"
              (friday_history 100 0) "X" 5 [] Hl
              failing_library_forecasts_steps Hd Hf) as [H _].
  exact (proj2 (H Hz)).
Defined.

(** ** Dates and number of steps of a response *)

Lemma backend_response_dates lib now hist sym days :
  (0 <= days)%Z ->
  map date_ (predictions (backend_response lib now hist sym days)) =
  map (fun i => next_business_day (last (index hist) 0 + i)%Z) (range 1 (days + 1)).
Proof.
  intros Hd. unfold backend_response.
  apply response_dates; [apply length_backend_intervals|].
  rewrite length_map, length_range. lia.
Qed.

Lemma service_response_dates lib now hist sym days dates :
  len dates = days ->
  map date_ (predictions (service_response lib now hist sym days dates)) = dates.
Proof.
  intros Hd. unfold service_response.
  apply response_dates; [apply length_service_intervals|].
  unfold len in Hd. lia.
Qed.

Lemma len_of_dates (l : list PredictionData) (dates : list date) :
  map date_ l = dates -> len l = len dates.
Proof. intros <-. now rewrite len_map. Qed.

(** The prediction service hands out exactly [days] steps, on strictly
    increasing business days. *)
Lemma service_dates_increasing_business lib fuel now hist sym days log r log' :
  (0 <= days)%Z -> (3 * days + 2 <= Z.of_nat fuel)%Z ->
  Service.predict_prices lib fuel now hist sym days log = (Ok r, log') ->
  len (predictions r) = days /\
  increasing (map date_ (predictions r)) /\
  Forall business_day (map date_ (predictions r)).
Proof.
  intros Hd Hf H.
  apply service_predict_inv in H.
  destruct H as [_ [_ [dates [Eg [-> _]]]]].
  destruct (generate_business_dates_ok fuel (last (index hist) 0%Z) days Hd Hf)
    as [dates' [Eg' [Ld [Bd [Id _]]]]].
  rewrite Eg in Eg'. injection Eg' as <-.
  rewrite slice_to_all by exact Ld.
  pose proof (service_response_dates lib now hist sym days dates Ld) as E.
  rewrite (len_of_dates _ _ E), E. auto.
Qed.

(** The backend hands out exactly [days] steps, each on a business day. *)
Lemma backend_dates_business lib fuel now hist sym days log r log' :
  (0 <= days)%Z -> (2 <= fuel)%nat ->
  Backend.predict_prices lib fuel now hist sym days log = (Ok r, log') ->
  len (predictions r) = days /\
  Forall business_day (map date_ (predictions r)).
Proof.
  intros Hd Hf H.
  apply backend_predict_inv in H.
  destruct H as [_ [_ [dates [Eg [-> _]]]]].
  rewrite backend_future_dates_ok in Eg by exact Hf. injection Eg as <-.
  pose proof (backend_response_dates lib now hist sym days Hd) as E.
  fold (backend_response lib now hist sym days).
  rewrite (len_of_dates _ _ E), E. split.
  - rewrite len_map, len_range; lia.
  - apply Forall_forall. intros d Hin. apply in_map_iff in Hin.
    destruct Hin as [i [<- _]]. apply next_business_day_spec.
Qed.

(** C1, on the backend.  A two-year history of AAPL whose last row is Friday
    2024-01-05 and a horizon of 3 days: the backend returns 3 records, each on
    a business day, and all three carry Monday 2024-01-08 (ordinal 738893), so
    the dates are not strictly increasing. *)
Theorem backend_dates_repeat :
  exists r,
    Backend.predict_prices naive_library 2 "2024-01-05T18:00:00"
      (friday_history 100 102) "AAPL" 3 [] = (Ok r, all_predictors) /\
    len (predictions r) = 3%Z /\
    map date_ (predictions r) = [738893; 738893; 738893]%Z /\
    Forall business_day (map date_ (predictions r)) /\
    ~ increasing (map date_ (predictions r)).
Proof.
  exists friday_response.
  split; [exact friday_backend_run|].
  assert (E : map date_ (predictions friday_response) =
              [738893; 738893; 738893]%Z).
  { unfold friday_response. rewrite backend_response_dates by lia.
    rewrite friday_history_last_date. reflexivity. }
  rewrite (len_of_dates _ _ E), E.
  split; [reflexivity|]. split; [reflexivity|]. split.
  - repeat constructor; unfold business_day; cbn; lia.
  - cbn. lia.
Qed.

(** ** The trend fallback in the forecast *)

(** The current price of a price series is not zero. *)
Lemma PriceSeries_current_price (series : list R) :
  PriceSeries series -> series <> [] -> last series 0 <> 0.
Proof.
  intros HP Hne.
  assert (Hin : In (last series 0) series).
  { rewrite (app_removelast_last 0 Hne) at 2. apply in_or_app. right. now left. }
  unfold PriceSeries in HP. rewrite Forall_forall in HP.
  specialize (HP _ Hin). lra.
Qed.

(** C2. For every history of at least 50 observations and every positive
    horizon: the trend fallback never raises, it has one value for each step
    and its step [i] (counted from 1) is
    [series[-1] + ((series[-1] - series[-10]) / 10) * i]; a predictor whose
    fit or forecast raises returns exactly that fallback, in both services;
    and the forecast as a whole completes with a response of [horizon] steps
    (the current price being nonzero, as the positive prices of a price series
    are, and the library forecasts having [horizon] values). *)
Theorem fallback_on_predictor_failure lib fuel now hist sym days log :
  (50 <= len hist)%Z -> (0 < days)%Z -> forecasts_steps lib ->
  (3 * days + 2 <= Z.of_nat fuel)%Z -> last (Close hist) 0 <> 0 ->
  let prices := Close hist in
  let fallback := fallback_forecast prices days in
  _simple_trend_prediction prices days = Ok fallback /\
  len fallback = days /\
  (forall i, (1 <= i <= days)%Z ->
     nth_error fallback (Z.to_nat (i - 1)) =
     Some (from_end prices 1
           + ((from_end prices 1 - from_end prices 10) / 10) * IZR i)) /\
  (forall e, ar_try lib prices days = Raise e ->
     Backend._predict_with_autoregression lib prices days log =
       (Ok fallback, log ++ [CallAutoRegression]) /\
     Service._predict_with_autoregression lib prices days log =
       (Ok fallback, log ++ [CallAutoRegression])) /\
  (forall e, lr_try lib prices days = Raise e ->
     Backend._predict_with_linear_regression lib prices days log =
       (Ok fallback, log ++ [CallLinearRegression]) /\
     Service._predict_with_linear_regression lib prices days log =
       (Ok fallback, log ++ [CallLinearRegression])) /\
  (forall e, arima_try lib prices days = Raise e ->
     Backend._predict_with_arima lib prices days log =
       (Ok fallback, log ++ [CallArima]) /\
     Service._predict_with_arima lib prices days log =
       (Ok fallback, log ++ [CallArima])) /\
  (exists rb,
     Backend.predict_prices lib fuel now hist sym days log =
       (Ok rb, log ++ all_predictors) /\
     len (predictions rb) = days) /\
  (exists rs,
     Service.predict_prices lib fuel now hist sym days log =
       (Ok rs, log ++ all_predictors) /\
     len (predictions rs) = days).
Proof.
  intros Hlen Hd Hlib Hf Hcp prices fallback.
  assert (H10 : (10 <= List.length prices)%nat)
    by (unfold prices; rewrite length_Close; unfold len in Hlen; lia).
  split; [now apply simple_trend_prediction_ok|].
  split; [apply len_fallback_forecast; lia|].
  split; [intros i Hi; now apply nth_error_fallback_forecast|].
  split; [|split; [|split; [|split]]].
  - intros e He.
    rewrite backend_autoregression_run, service_autoregression_run by exact H10.
    rewrite He. split; reflexivity.
  - intros e He.
    rewrite backend_linear_regression_run, service_linear_regression_run
      by exact H10.
    rewrite He. split; reflexivity.
  - intros e He.
    rewrite backend_arima_run, service_arima_run by exact H10.
    rewrite He. split; reflexivity.
  - eexists. split.
    + apply backend_predict_ok; (assumption || lia).
    + rewrite (len_of_dates _ _ (backend_response_dates lib now hist sym days
                                   ltac:(lia))).
      rewrite len_map, len_range; lia.
  - destruct (service_predict_ok lib fuel now hist sym days log Hlen Hlib
                ltac:(lia) Hf Hcp) as [dates [_ [Ld [_ [_ Hs]]]]].
    eexists. split; [exact Hs|].
    now rewrite (len_of_dates _ _ (service_response_dates lib now hist sym days
                                     dates Ld)).
Qed.

Lemma fallback_on_predictor_failure_witness :
  (50 <= len (friday_history 100 102))%Z /\ (0 < 5)%Z /\
  forecasts_steps failing_library /\ (3 * 5 + 2 <= Z.of_nat 17)%Z /\
  last (Close (friday_history 100 102)) 0 <> 0 /\
  arima_try failing_library (Close (friday_history 100 102)) 5
    = Raise (LibraryError "fit failed") /\
  Service._predict_with_arima failing_library (Close (friday_history 100 102)) 5 []
    = (Ok (fallback_forecast (Close (friday_history 100 102)) 5), [CallArima]) /\
  exists rs,
    Service.predict_prices failing_library 17 "now" (friday_history 100 102)
      "AAPL" 5 [] = (Ok rs, all_predictors) /\
    len (predictions rs) = 5%Z.
Proof.
  assert (Hl : (50 <= len (friday_history 100 102))%Z)
    by (rewrite friday_history_len; lia).
  assert (Hd : (0 < 5)%Z) by lia.
  assert (Hf : (3 * 5 + 2 <= Z.of_nat 17)%Z) by lia.
  assert (Hcp : last (Close (friday_history 100 102)) 0 <> 0)
    by (rewrite friday_history_last_close; lra).
  assert (Hr : arima_try failing_library (Close (friday_history 100 102)) 5
               = Raise (LibraryError "fit failed")) by reflexivity.
  repeat (split; [assumption || exact failing_library_forecasts_steps|]).
  destruct (fallback_on_predictor_failure failing_library 17 "now"
              (friday_history 100 102) "AAPL" 5 [] Hl Hd
              failing_library_forecasts_steps Hf Hcp)
    as [_ [_ [_ [_ [_ [Harima [_ Hs]]]]]]].
  split; [exact (proj2 (Harima _ Hr)) | exact Hs].
Defined.

(** ** The ensemble in the response *)

Lemma predict_prices_inv lib fuel now hist sym days log r log' :
  Backend.predict_prices lib fuel now hist sym days log = (Ok r, log') \/
  Service.predict_prices lib fuel now hist sym days log = (Ok r, log') ->
  (50 <= len hist)%Z /\
  (days <= len (output_of (ar_try lib (Close hist) days) (Close hist) days))%Z /\
  (days <= len (output_of (lr_try lib (Close hist) days) (Close hist) days))%Z /\
  (days <= len (output_of (arima_try lib (Close hist) days) (Close hist) days))%Z /\
  (predictions r <> [] -> last (Close hist) 0 <> 0) /\
  exists intervals period description dates,
    (forall series ens,
        List.length (intervals series ens) = List.length ens) /\
    r = response_of intervals period description now hist sym days
          (output_of (ar_try lib (Close hist) days) (Close hist) days)
          (output_of (lr_try lib (Close hist) days) (Close hist) days)
          (output_of (arima_try lib (Close hist) days) (Close hist) days)
          dates.
Proof.
  intros [H|H].
  - apply backend_predict_inv in H.
    destruct H as [Hlen [_ [dates [_ [Er [Hnz [Ha [Hl Hm]]]]]]]].
    repeat (split; [assumption|]).
    exists Backend._calculate_confidence_intervals. do 2 eexists. exists dates.
    split; [apply length_backend_intervals | exact Er].
  - apply service_predict_inv in H.
    destruct H as [Hlen [_ [dates [_ [Er [Hnz [Ha [Hl Hm]]]]]]]].
    repeat (split; [assumption|]).
    exists Service._calculate_confidence_intervals. do 2 eexists.
    exists (slice_to dates days).
    split; [apply length_service_intervals | exact Er].
Qed.

(** C7. In every response of either service, the three predictors having
    returned the outputs [ar], [lr] and [arima], the ensemble value of every
    step [i] is the plain arithmetic mean [(ar[i] + lr[i] + arima[i]) / 3],
    with equal weights and nothing else, and the point forecast of the step is
    that mean rounded to 2 decimals. *)
Theorem ensemble_is_plain_mean lib fuel now hist sym days log r log' :
  Backend.predict_prices lib fuel now hist sym days log = (Ok r, log') \/
  Service.predict_prices lib fuel now hist sym days log = (Ok r, log') ->
  let prices := Close hist in
  let ar := output_of (ar_try lib prices days) prices days in
  let lr := output_of (lr_try lib prices days) prices days in
  let arima := output_of (arima_try lib prices days) prices days in
  (forall log0,
      Backend._predict_with_autoregression lib prices days log0 =
        (Ok ar, log0 ++ [CallAutoRegression]) /\
      Backend._predict_with_linear_regression lib prices days log0 =
        (Ok lr, log0 ++ [CallLinearRegression]) /\
      Backend._predict_with_arima lib prices days log0 =
        (Ok arima, log0 ++ [CallArima]) /\
      Service._predict_with_autoregression lib prices days log0 =
        (Ok ar, log0 ++ [CallAutoRegression]) /\
      Service._predict_with_linear_regression lib prices days log0 =
        (Ok lr, log0 ++ [CallLinearRegression]) /\
      Service._predict_with_arima lib prices days log0 =
        (Ok arima, log0 ++ [CallArima])) /\
  exists ens,
    ensemble_predictions ar lr arima days = Ok ens /\
    (forall i, (i < Z.to_nat days)%nat ->
       exists a b c,
         nth_error ar i = Some a /\ nth_error lr i = Some b /\
         nth_error arima i = Some c /\
         nth_error ens i = Some ((a + b + c) / 3)) /\
    (forall i rec, nth_error (predictions r) i = Some rec ->
       exists e, nth_error ens i = Some e /\ predicted_price rec = round2 e).
Proof.
  intros H prices ar lr arima.
  apply predict_prices_inv in H.
  destruct H as [Hlen [Ha [Hl [Hm [_ [intervals [period [descr [dates [HI ->]]]]]]]]]].
  fold prices ar lr arima in Ha, Hl, Hm |- *.
  assert (H10 : (10 <= List.length prices)%nat)
    by (unfold prices; rewrite length_Close; unfold len in Hlen; lia).
  split.
  - intros log0.
    rewrite backend_autoregression_run, backend_linear_regression_run,
      backend_arima_run, service_autoregression_run,
      service_linear_regression_run, service_arima_run by exact H10.
    repeat split; reflexivity.
  - exists (map (ensemble_mean ar lr arima) (seq 0 (Z.to_nat days))).
    split; [now apply ensemble_predictions_ok|]. split.
    + intros i Hi. unfold len in Ha, Hl, Hm.
      exists (nth i ar 0), (nth i lr 0), (nth i arima 0).
      rewrite !nth_error_nth' with (d := 0) by lia.
      repeat (split; [reflexivity|]).
      rewrite nth_error_map, nth_error_seq.
      destruct (Nat.ltb_spec i (Z.to_nat days)); [reflexivity | lia].
    + intros i rec Hrec.
      apply (response_step intervals) in Hrec.
      destruct Hrec as [ci [_ [_ [Hi ->]]]].
      exists (ensemble_mean ar lr arima i). split; [|reflexivity].
      rewrite nth_error_map, nth_error_seq.
      destruct (Nat.ltb_spec i (Z.to_nat days)); [reflexivity | lia].
Qed.

Lemma ensemble_is_plain_mean_witness :
  Backend.predict_prices naive_library 2 "2024-01-05T18:00:00"
    (friday_history 100 102) "AAPL" 3 [] = (Ok friday_response, all_predictors) /\
  exists ens,
    ensemble_predictions
      (output_of (ar_try naive_library (Close (friday_history 100 102)) 3)
                 (Close (friday_history 100 102)) 3)
      (output_of (lr_try naive_library (Close (friday_history 100 102)) 3)
                 (Close (friday_history 100 102)) 3)
      (output_of (arima_try naive_library (Close (friday_history 100 102)) 3)
                 (Close (friday_history 100 102)) 3) 3
    = Ok ens /\
    forall i rec, nth_error (predictions friday_response) i = Some rec ->
      exists e, nth_error ens i = Some e /\ predicted_price rec = round2 e.
Proof.
  split; [exact friday_backend_run|].
  destruct (ensemble_is_plain_mean naive_library 2 "2024-01-05T18:00:00"
              (friday_history 100 102) "AAPL" 3 [] friday_response
              all_predictors (or_introl friday_backend_run))
    as [_ [ens [He [_ Hr]]]].
  exists ens. split; [exact He | exact Hr].
Defined.

(** ** Changes from the current price *)

Lemma Rabs_bound (x b : R) : - b <= x <= b -> Rabs x <= b.
Proof. apply Rabs_le. Qed.

(** C8. In every response of either service and for every step, with
    [current_price] the last value of the input series:
    [change_from_current] is [predicted_price - current_price] rounded to 2
    decimals and [change_percent] is
    [(predicted_price - current_price) / current_price * 100] rounded to 2
    decimals, so [predicted_price - change_from_current] recovers
    [current_price] within the rounding tolerance 0.005, and [change_percent]
    is [change_from_current / current_price * 100] within
    [0.005 + 0.5 / |current_price|]. *)
Theorem changes_from_current_price lib fuel now hist sym days log r log' rec :
  Backend.predict_prices lib fuel now hist sym days log = (Ok r, log') \/
  Service.predict_prices lib fuel now hist sym days log = (Ok r, log') ->
  In rec (predictions r) ->
  let cp := last (Close hist) 0 in
  cp <> 0 /\
  current_price r = round2 cp /\
  change_from_current rec = round2 (predicted_price rec - cp) /\
  change_percent rec = round2 ((predicted_price rec - cp) / cp * 100) /\
  Rabs (predicted_price rec - change_from_current rec - cp) <= 1 / 200 /\
  Rabs (change_percent rec - (predicted_price rec - cp) / cp * 100) <= 1 / 200 /\
  Rabs (change_percent rec - change_from_current rec / cp * 100)
    <= 1 / 200 + 1 / (2 * Rabs cp).
Proof.
  intros H Hin cp.
  apply predict_prices_inv in H.
  destruct H as [_ [_ [_ [_ [Hnz [intervals [period [descr [dates [HI Er]]]]]]]]]].
  assert (Hcp : cp <> 0).
  { apply Hnz. intros E. rewrite E in Hin. contradiction. }
  subst r. split; [exact Hcp|]. split; [reflexivity|].
  apply In_nth_error in Hin. destruct Hin as [i Hi].
  apply (response_step intervals) in Hi.
  destruct Hi as [ci [_ [_ [_ ->]]]]. cbn [step_record change_from_current
    change_percent predicted_price]. fold cp.
  set (pp := round2 (ensemble_mean _ _ _ i)).
  split; [reflexivity|]. split; [reflexivity|].
  pose proof (round2_bounds (pp - cp)) as B1.
  pose proof (round2_bounds ((pp - cp) / cp * 100)) as B2.
  split; [apply Rabs_bound; lra|]. split; [apply Rabs_bound; lra|].
  set (x := pp - cp) in *.
  replace (round2 (x / cp * 100) - round2 x / cp * 100)
    with ((round2 (x / cp * 100) - x / cp * 100) + (x - round2 x) * (100 / cp))
    by (field; exact Hcp).
  eapply Rle_trans; [apply Rabs_triang|].
  apply Rplus_le_compat; [apply Rabs_bound; lra|].
  rewrite Rabs_mult.
  assert (Hx : Rabs (x - round2 x) <= 1 / 200) by (apply Rabs_bound; lra).
  assert (Hc : 0 < Rabs cp) by now apply Rabs_pos_lt.
  assert (Hd : Rabs (100 / cp) = 100 / Rabs cp).
  { unfold Rdiv. rewrite Rabs_mult, Rabs_inv.
    rewrite (Rabs_pos_eq 100) by lra. reflexivity. }
  rewrite Hd.
  replace (1 / (2 * Rabs cp)) with (1 / 200 * (100 / Rabs cp))
    by (field; lra).
  apply Rmult_le_compat_r; [|exact Hx].
  apply Rlt_le. apply Rdiv_lt_0_compat; lra.
Qed.

Lemma changes_from_current_price_witness :
  Backend.predict_prices naive_library 2 "2024-01-05T18:00:00"
    (friday_history 100 102) "AAPL" 3 [] = (Ok friday_response, all_predictors) /\
  exists rec,
    In rec (predictions friday_response) /\
    change_from_current rec =
      round2 (predicted_price rec - last (Close (friday_history 100 102)) 0) /\
    Rabs (predicted_price rec - change_from_current rec
          - last (Close (friday_history 100 102)) 0) <= 1 / 200.
Proof.
  split; [exact friday_backend_run|].
  assert (Hin : In (hd (step_record 0 0 (0, 0) 0%Z) (predictions friday_response))
                   (predictions friday_response)) by (left; reflexivity).
  exists (hd (step_record 0 0 (0, 0) 0%Z) (predictions friday_response)).
  split; [exact Hin|].
  destruct (changes_from_current_price naive_library 2 "2024-01-05T18:00:00"
              (friday_history 100 102) "AAPL" 3 [] friday_response
              all_predictors _ (or_introl friday_backend_run) Hin)
    as [_ [_ [H1 [_ [H2 _]]]]].
  split; [exact H1 | exact H2].
Defined.

(** ** Accuracy metrics *)

(** C9. For every series of at least 50 observations the accuracy metrics
    are: [recent_volatility_percent], the standard deviation of the last 30
    prices over their mean, times 100, rounded to 2 decimals;
    [trend_direction], "upward" if the last price exceeds the first of the
    last 30 observations ([prices[-30]]) and "downward" otherwise; and
    [data_points_used], the length of the series.  They are the metrics of
    every response of either service. *)
Theorem accuracy_metrics_formula (prices : list R) :
  (50 <= len prices)%Z ->
  exists m,
    _calculate_accuracy_metrics prices = Ok m /\
    recent_volatility_percent m =
      round2 (np_std (trailing 30 prices) / np_mean (trailing 30 prices) * 100) /\
    List.length (trailing 30 prices) = 30%nat /\
    (from_end prices 1 > from_end prices 30 ->
     trend_direction m = "upward"%string) /\
    (~ from_end prices 1 > from_end prices 30 ->
     trend_direction m = "downward"%string) /\
    data_points_used m = len prices /\
    forall lib fuel now hist sym days log r log',
      Close hist = prices ->
      Backend.predict_prices lib fuel now hist sym days log = (Ok r, log') \/
      Service.predict_prices lib fuel now hist sym days log = (Ok r, log') ->
      accuracy_metrics (model_info r) = m.
Proof.
  intros Hlen. exists (metrics_of prices).
  assert (H30 : (30 <= List.length prices)%nat) by (unfold len in Hlen; lia).
  split; [now apply calculate_accuracy_metrics_ok|].
  split; [reflexivity|]. split; [now apply length_trailing|].
  unfold metrics_of. cbn [trend_direction data_points_used].
  split; [|split; [|split]].
  - intros H. destruct (Rgt_dec _ _); [reflexivity | contradiction].
  - intros H. destruct (Rgt_dec _ _); [contradiction | reflexivity].
  - reflexivity.
  - intros lib fuel now hist sym days log r log' <- H.
    apply predict_prices_inv in H.
    destruct H as [_ [_ [_ [_ [_ [intervals [period [descr [dates [_ ->]]]]]]]]]].
    reflexivity.
Qed.

Lemma accuracy_metrics_formula_witness :
  (50 <= len (Close (friday_history 100 102)))%Z /\
  exists m,
    _calculate_accuracy_metrics (Close (friday_history 100 102)) = Ok m /\
    trend_direction m = "upward"%string /\
    data_points_used m = 50%Z.
Proof.
  assert (H : (50 <= len (Close (friday_history 100 102)))%Z)
    by (intros E; discriminate E).
  split; [exact H|].
  destruct (accuracy_metrics_formula (Close (friday_history 100 102)) H)
    as [m [Hm [_ [_ [Hup [_ [Hn _]]]]]]].
  exists m. split; [exact Hm|]. split; [|exact Hn].
  apply Hup. unfold from_end. cbn. lra.
Defined.

(** * Further properties of the two services *)

(** ** The calendar of the prediction service *)




Lemma increasing_adjacent (l : list date) : forall k d e,
  increasing l -> nth_error l k = Some d -> nth_error l (S k) = Some e ->
  (d < e)%Z.
Proof.
  induction l as [|x t IH]; intros k d e Hinc Hd He; [destruct k; discriminate|].
  destruct Hinc as [Hx Ht]. destruct k as [|k].
  - cbn in Hd. injection Hd as <-. destruct t as [|y t']; [discriminate|].
    cbn in He. injection He as <-. exact Hx.
  - cbn in Hd. change (nth_error (x :: t) (S (S k))) with (nth_error t (S k)) in He.
    eapply IH; eauto.
Qed.




(** ** The calendar of the backend *)

Lemma next_business_day_monotone (d : date) :
  (next_business_day d <= next_business_day (d + 1))%Z /\
  (next_business_day d = next_business_day (d + 1)%Z <-> (5 <= weekday d)%Z).
Proof.
  unfold next_business_day. pose proof (weekday_bounds d) as Hb.
  pose proof (weekday_succ d) as Hs.
  destruct (Z.eqb_spec (weekday d) 5) as [E5|E5].
  - rewrite E5 in Hs. cbn in Hs. rewrite Hs. cbn. lia.
  - destruct (Z.eqb_spec (weekday d) 6) as [E6|E6].
    + rewrite Hs. cbn. lia.
    + rewrite Hs.
      destruct (Z.eqb_spec (weekday d + 1) 5);
        destruct (Z.eqb_spec (weekday d + 1) 6); lia.
Qed.

Lemma weekend_within_six_days (d : date) :
  exists i, (1 <= i <= 6)%Z /\ (5 <= weekday (d + i))%Z.
Proof.
  pose proof (weekday_bounds d) as Hb. unfold weekday in *.
  assert (H : ((d + 6) mod 7 = 0 \/ (d + 6) mod 7 = 1 \/ (d + 6) mod 7 = 2 \/
               (d + 6) mod 7 = 3 \/ (d + 6) mod 7 = 4 \/ (d + 6) mod 7 = 5 \/
               (d + 6) mod 7 = 6)%Z) by lia.
  destruct H as [H|[H|[H|[H|[H|[H|H]]]]]];
    [exists 5%Z | exists 4%Z | exists 3%Z | exists 2%Z | exists 1%Z
     | exists 1%Z | exists 6%Z];
    (split; [lia|]); Z.div_mod_to_equations; lia.
Qed.

(** On calendar days: step [i], counted from 1, is dated
    [next_business_day (last_date + i)]; the dates never decrease, two
    consecutive steps carry the same date exactly when the day of the first
    falls on a weekend, and 7 steps or more repeat a date. *)
Lemma calendar_dates_repeat (last_date : date) (days : Z) :
  (0 <= days)%Z ->
  len (calendar_dates last_date days) = days /\
  (forall i, (1 <= i <= days)%Z ->
     nth_error (calendar_dates last_date days) (Z.to_nat (i - 1)) =
     Some (next_business_day (last_date + i)%Z)) /\
  (forall i d e, (1 <= i < days)%Z ->
     nth_error (calendar_dates last_date days) (Z.to_nat (i - 1)) = Some d ->
     nth_error (calendar_dates last_date days) (Z.to_nat i) = Some e ->
     (d <= e)%Z /\ (d = e <-> (5 <= weekday (last_date + i))%Z)) /\
  ((7 <= days)%Z -> ~ increasing (calendar_dates last_date days)).
Proof.
  intros Hd. unfold calendar_dates.
  split; [rewrite len_map, len_range; lia|].
  assert (Hnth : forall i, (1 <= i <= days)%Z ->
            nth_error (map (fun i => next_business_day (last_date + i)%Z)
                           (range 1 (days + 1))) (Z.to_nat (i - 1)) =
            Some (next_business_day (last_date + i)%Z)).
  { intros i Hi. rewrite nth_error_map, nth_error_range by lia.
    cbn [option_map]. do 3 f_equal. lia. }
  split; [exact Hnth|]. split.
  - intros i d e Hi Hd' He.
    rewrite Hnth in Hd' by lia. injection Hd' as <-.
    replace (Z.to_nat i) with (Z.to_nat (i + 1 - 1)) in He by lia.
    rewrite Hnth in He by lia. injection He as <-.
    replace (last_date + (i + 1))%Z with (last_date + i + 1)%Z by lia.
    apply next_business_day_monotone.
  - intros H7 Hinc.
    destruct (weekend_within_six_days last_date) as [i [Hi Hw]].
    pose proof (Hnth i ltac:(lia)) as Hd'.
    pose proof (Hnth (i + 1)%Z ltac:(lia)) as He.
    replace (Z.to_nat (i + 1 - 1)) with (S (Z.to_nat (i - 1))) in He by lia.
    pose proof (increasing_adjacent _ _ _ _ Hinc Hd' He) as Hlt.
    replace (last_date + (i + 1))%Z with (last_date + i + 1)%Z in Hlt by lia.
    pose proof (next_business_day_monotone (last_date + i)%Z) as [_ Heq].
    apply Heq in Hw. lia.
Qed.

(** ** The feature regression *)

Lemma trailing_trailing (j k : nat) (l : list R) :
  (j <= k)%nat -> trailing j (trailing k l) = trailing j l.
Proof.
  intros H. unfold trailing. rewrite length_skipn, skipn_skipn. f_equal. lia.
Qed.

Lemma slice_from_trailing_20 (l : list R) (j : nat) :
  (1 <= j <= 20)%nat ->
  slice_from (trailing 20 l) (- Z.of_nat j) = slice_from l (- Z.of_nat j).
Proof.
  intros H. rewrite !slice_from_trailing by lia. apply trailing_trailing. lia.
Qed.

Lemma tl_skipn {A} (l : list A) (k : nat) : tl (skipn k l) = skipn (S k) l.
Proof.
  revert k. induction l as [|x t IH]; intros [|k]; try reflexivity.
  change (tl (skipn k t) = skipn (S k) t). apply IH.
Qed.

(** Appending a value and popping the oldest one beyond 20 keeps the last 20
    values of the extended series. *)
Lemma trailing_20_push (known : list R) (pred : R) :
  (if (len (trailing 20 known ++ [pred]) >? 20)%Z
   then tl (trailing 20 known ++ [pred])
   else trailing 20 known ++ [pred]) = trailing 20 (known ++ [pred]).
Proof.
  unfold trailing, len. rewrite !length_app, length_skipn. cbn [List.length].
  destruct (Nat.le_gt_cases 20 (List.length known)) as [H|H].
  - destruct (Z.gtb_spec (Z.of_nat (List.length known - (List.length known - 20) + 1)) 20);
      [|lia].
    rewrite skipn_app.
    replace (List.length known + 1 - 20 - List.length known)%nat with 0%nat by lia.
    cbn [skipn].
    replace (List.length known + 1 - 20)%nat with (S (List.length known - 20)) by lia.
    rewrite <- tl_skipn.
    destruct (skipn (List.length known - 20) known) as [|x t] eqn:E; [|reflexivity].
    apply (f_equal (@List.length R)) in E. rewrite length_skipn in E.
    cbn in E. lia.
  - destruct (Z.gtb_spec (Z.of_nat (List.length known - (List.length known - 20) + 1)) 20);
      [lia|].
    replace (List.length known - 20)%nat with 0%nat by lia.
    replace (List.length known + 1 - 20)%nat with 0%nat by lia.
    reflexivity.
Qed.

Lemma lr_forecast_steps (model : linear_model) (n : Z) : forall steps known k i,
  nth_error steps k = Some i ->
  nth_error (lr_forecast model n steps (trailing 20 known)) k =
  Some (predict model
          (lr_features
             (known ++ firstn k (lr_forecast model n steps (trailing 20 known)))
             (n + i))).
Proof.
  induction steps as [|i0 rest IH]; intros known k i Hk; [destruct k; discriminate|].
  cbn [lr_forecast]. cbv zeta. rewrite trailing_20_push.
  change (-5)%Z with (- Z.of_nat 5)%Z. change (-10)%Z with (- Z.of_nat 10)%Z.
  change (-20)%Z with (- Z.of_nat 20)%Z.
  rewrite !slice_from_trailing_20 by lia.
  destruct k as [|k].
  - cbn in Hk. injection Hk as ->. cbn [nth_error firstn].
    rewrite app_nil_r. reflexivity.
  - cbn [nth_error firstn]. cbn [nth_error] in Hk.
    rewrite (IH _ k i Hk). do 3 f_equal.
    now rewrite <- app_assoc.
Qed.

(** X3. When the regression is fitted, the feature regression returns one
    forecast for each step, and step [k] is the model's prediction from the
    means of the last 5, 10 and 20 values of the series extended by the
    forecasts of the earlier steps, with the trend index [len(prices) + k]:
    the window that is appended to and popped from always holds the 20 most
    recent known or predicted prices. *)
Theorem feature_regression_steps (lib : library) (prices : list R) (days : Z)
    (model : linear_model) :
  LinearRegression_fit lib (map fst (feature_rows prices))
                           (map snd (feature_rows prices)) = inr model ->
  exists out,
    lr_try lib prices days = Ok out /\
    List.length out = Z.to_nat days /\
    forall k, (k < Z.to_nat days)%nat ->
      nth_error out k =
      Some (predict model
              [np_mean (slice_from (prices ++ firstn k out) (-5));
               np_mean (slice_from (prices ++ firstn k out) (-10));
               np_mean (slice_from (prices ++ firstn k out) (-20));
               IZR (len prices + Z.of_nat k)]).
Proof.
  intros Hfit. unfold lr_try. cbv zeta. rewrite Hfit. cbn [of_sum obind].
  eexists. split; [reflexivity|].
  split; [rewrite length_lr_forecast, length_range; f_equal; lia|].
  intros k Hk.
  change (slice_from prices (-20)) with (slice_from prices (- Z.of_nat 20)).
  rewrite slice_from_trailing by lia.
  rewrite (lr_forecast_steps model (len prices) (range 0 days) prices k
             (Z.of_nat k)).
  - reflexivity.
  - rewrite nth_error_range by lia. f_equal.
Qed.

Lemma feature_regression_steps_witness :
  LinearRegression_fit naive_library (map fst (feature_rows [1; 2; 3]))
                                     (map snd (feature_rows [1; 2; 3])) =
    inr {| coef_ := [1; 0; 0; 0]; intercept_ := 0 |} /\
  exists out,
    lr_try naive_library [1; 2; 3] 2 = Ok out /\ List.length out = 2%nat.
Proof.
  assert (H : LinearRegression_fit naive_library
                (map fst (feature_rows [1; 2; 3]))
                (map snd (feature_rows [1; 2; 3])) =
              inr {| coef_ := [1; 0; 0; 0]; intercept_ := 0 |}) by reflexivity.
  split; [exact H|].
  destruct (feature_regression_steps naive_library [1; 2; 3] 2 _ H)
    as [out [E [L _]]].
  exists out. split; [exact E | exact L].
Defined.

Lemma flat_map_all_nil {A B} (g : A -> list B) (l : list A) :
  (forall x, In x l -> g x = []) -> flat_map g l = [].
Proof.
  induction l as [|x t IH]; intros H; [reflexivity|].
  cbn [flat_map]. rewrite (H x) by now left.
  apply IH. intros y Hy. apply H. now right.
Qed.

Lemma flat_map_singletons {A B} (g : A -> list B) (h : A -> B) (l : list A) :
  (forall x, In x l -> g x = [h x]) -> flat_map g l = map h l.
Proof.
  induction l as [|x t IH]; intros H; [reflexivity|].
  cbn [flat_map map]. rewrite (H x) by now left. cbn [app]. f_equal.
  apply IH. intros y Hy. apply H. now right.
Qed.

Lemma nth_rolling_mean (k : nat) (prices : list R) (t : nat) :
  (t < List.length prices)%nat ->
  nth t (rolling_mean k prices) None =
  if (S t <? k)%nat then None
  else Some (np_mean (window k (S t - k) prices)).
Proof.
  intros Ht. unfold rolling_mean. apply nth_error_nth.
  rewrite nth_error_map, nth_error_seq.
  destruct (Nat.ltb_spec t (List.length prices)); [reflexivity | lia].
Qed.

(** The row of the training frame for the price of day [t]. *)
Lemma feature_rows_as_map (prices : list R) :
  feature_rows prices =
  map (fun t => ([np_mean (window 5 (t - 4) prices);
                  np_mean (window 10 (t - 9) prices);
                  np_mean (window 20 (t - 19) prices);
                  IZR (Z.of_nat t)],
                 nth t prices 0))
      (seq 19 (List.length prices - 19)).
Proof.
  unfold feature_rows. cbv zeta.
  destruct (Nat.le_gt_cases 19 (List.length prices)) as [H|H].
  - assert (Hs : seq 0 (List.length prices) =
                 seq 0 19 ++ seq 19 (List.length prices - 19))
      by (rewrite <- seq_app; f_equal; lia).
    rewrite Hs, flat_map_app.
    rewrite flat_map_all_nil.
    + cbn [app Nat.add]. apply flat_map_singletons.
      intros t Ht. apply in_seq in Ht.
      rewrite (nth_error_nth' prices 0) by lia.
      rewrite !nth_rolling_mean by lia.
      destruct (Nat.ltb_spec (S t) 5); [lia|].
      destruct (Nat.ltb_spec (S t) 10); [lia|].
      destruct (Nat.ltb_spec (S t) 20); [lia|].
      replace (S t - 5)%nat with (t - 4)%nat by lia.
      replace (S t - 10)%nat with (t - 9)%nat by lia.
      replace (S t - 20)%nat with (t - 19)%nat by lia.
      reflexivity.
    + intros t Ht. apply in_seq in Ht.
      rewrite (nth_error_nth' prices 0) by lia.
      rewrite (nth_rolling_mean 20) by lia.
      destruct (Nat.ltb_spec (S t) 20); [|lia].
      destruct (nth t (rolling_mean 5 prices) None);
        [destruct (nth t (rolling_mean 10 prices) None)|]; reflexivity.
  - replace (List.length prices - 19)%nat with 0%nat by lia. cbn [seq map].
    apply flat_map_all_nil. intros t Ht. apply in_seq in Ht.
    rewrite (nth_error_nth' prices 0) by lia.
    rewrite (nth_rolling_mean 20) by lia.
    destruct (Nat.ltb_spec (S t) 20); [|lia].
    destruct (nth t (rolling_mean 5 prices) None);
      [destruct (nth t (rolling_mean 10 prices) None)|]; reflexivity.
Qed.

Lemma window_trailing (k : nat) (prices : list R) :
  (1 <= k <= List.length prices)%nat ->
  window k (List.length prices - k) prices = slice_from prices (- Z.of_nat k).
Proof.
  intros H. unfold window, slice_from, len. cbv zeta.
  destruct (Z.ltb_spec (- Z.of_nat k) 0) as [Hk|Hk]; [|lia].
  replace (Z.to_nat (Z.max 0 (- Z.of_nat k + Z.of_nat (List.length prices))))
    with (List.length prices - k)%nat by lia.
  apply firstn_all2. rewrite length_skipn. lia.
Qed.

(** X4. After [dropna()] the training frame of the feature regression has
    [len(prices) - 19] rows, none with fewer than 20 prices.  Row [k] pairs
    the price of day [19 + k] with the means of the 5, 10 and 20 prices that
    end on that same day and with the trend index [19 + k]; so the last row
    holds the means of the last 5, 10 and 20 prices, the very means the first
    forecast step is computed from. *)
Theorem training_frame_rows (prices : list R) :
  List.length (feature_rows prices) = (List.length prices - 19)%nat /\
  (forall k, (k < List.length prices - 19)%nat ->
     nth_error (feature_rows prices) k =
     Some ([np_mean (window 5 (k + 15) prices);
            np_mean (window 10 (k + 10) prices);
            np_mean (window 20 k prices);
            IZR (19 + Z.of_nat k)],
           nth (19 + k) prices 0)) /\
  ((20 <= List.length prices)%nat ->
   nth_error (feature_rows prices) (List.length prices - 20) =
   Some (lr_features prices (len prices - 1), from_end prices 1)).
Proof.
  rewrite feature_rows_as_map.
  assert (Hrow : forall k, (k < List.length prices - 19)%nat ->
     nth_error (map (fun t => ([np_mean (window 5 (t - 4) prices);
                                np_mean (window 10 (t - 9) prices);
                                np_mean (window 20 (t - 19) prices);
                                IZR (Z.of_nat t)],
                               nth t prices 0))
                    (seq 19 (List.length prices - 19))) k =
     Some ([np_mean (window 5 (k + 15) prices);
            np_mean (window 10 (k + 10) prices);
            np_mean (window 20 k prices);
            IZR (19 + Z.of_nat k)],
           nth (19 + k) prices 0)).
  { intros k Hk. rewrite nth_error_map, nth_error_seq.
    destruct (Nat.ltb_spec k (List.length prices - 19)); [|lia].
    cbn [option_map].
    replace (19 + k - 4)%nat with (k + 15)%nat by lia.
    replace (19 + k - 9)%nat with (k + 10)%nat by lia.
    replace (19 + k - 19)%nat with k by lia.
    replace (Z.of_nat (19 + k)) with (19 + Z.of_nat k)%Z by lia.
    reflexivity. }
  split; [now rewrite length_map, length_seq|]. split; [exact Hrow|].
  intros H20. rewrite Hrow by lia. unfold lr_features, from_end, len.
  replace (List.length prices - 20 + 15)%nat with (List.length prices - 5)%nat
    by lia.
  replace (List.length prices - 20 + 10)%nat with (List.length prices - 10)%nat
    by lia.
  rewrite !window_trailing by lia.
  replace (19 + (List.length prices - 20))%nat with (List.length prices - 1)%nat
    by lia.
  replace (19 + Z.of_nat (List.length prices - 20))%Z
    with (Z.of_nat (List.length prices) - 1)%Z by lia.
  reflexivity.
Qed.

(** ** The trend fallback on any series *)

Lemma length_trailing_min (k : nat) (l : list R) :
  List.length (trailing k l) = Nat.min k (List.length l).
Proof. unfold trailing. rewrite length_skipn. lia. Qed.

(** X5. [_simple_trend_prediction] raises only on an empty series, an
    [IndexError] from [recent_prices[-1]].  On any other series it returns,
    for [m] the smaller of 10 and the length, the line through the last price
    with slope [(series[-1] - series[-m]) / m]: a series shorter than 10 is
    used whole, and a horizon of 0 or less gives the empty forecast. *)
Theorem trend_fallback_on_any_series (prices : list R) (days : Z) :
  prices <> [] ->
  _simple_trend_prediction [] days =
    Raise (IndexError "index -1 is out of bounds for axis 0 with size 0") /\
  _simple_trend_prediction prices days =
    Ok (map (fun i =>
               from_end prices 1
               + (from_end prices 1
                  - from_end prices (Nat.min 10 (List.length prices)))
                 / IZR (Z.of_nat (Nat.min 10 (List.length prices)))
                 * IZR i)
            (range 1 (days + 1))) /\
  ((days <= 0)%Z -> _simple_trend_prediction prices days = Ok []).
Proof.
  intros Hne. split; [reflexivity|].
  assert (Hlen : (1 <= List.length prices)%nat)
    by (destruct prices; [congruence | simpl; lia]).
  assert (E : _simple_trend_prediction prices days =
    Ok (map (fun i =>
               from_end prices 1
               + (from_end prices 1
                  - from_end prices (Nat.min 10 (List.length prices)))
                 / IZR (Z.of_nat (Nat.min 10 (List.length prices)))
                 * IZR i)
            (range 1 (days + 1)))).
  { unfold _simple_trend_prediction. cbv zeta.
    change (-10)%Z with (- Z.of_nat 10)%Z.
    rewrite slice_from_trailing by lia.
    change (-1)%Z with (- Z.of_nat 1)%Z.
    rewrite np_getitem_from_end by (rewrite length_trailing_min; lia).
    cbn [obind].
    rewrite (np_getitem_nonneg _ 0
               (from_end prices (Nat.min 10 (List.length prices)))); [|lia|].
    2:{ unfold trailing, from_end. cbn [Z.to_nat].
        rewrite nth_error_skipn, Nat.add_0_r.
        replace (List.length prices - Nat.min 10 (List.length prices))%nat
          with (List.length prices - 10)%nat by lia.
        apply nth_error_nth'. lia. }
    cbn [obind]. apply for_each_singletons. intros i _.
    rewrite np_getitem_from_end by lia. cbn [obind].
    unfold len. rewrite length_trailing_min.
    replace (from_end (trailing 10 prices) 1) with (from_end prices 1);
      [reflexivity|].
    unfold from_end, trailing. rewrite length_skipn, nth_skipn. f_equal. lia. }
  split; [exact E|].
  intros Hd. rewrite E. unfold range.
  replace (Z.to_nat (days + 1 - 1)) with 0%nat by lia. reflexivity.
Qed.

Lemma trend_fallback_on_any_series_witness :
  [4; 6; 10] <> [] /\
  _simple_trend_prediction [4; 6; 10] 2 =
    Ok (map (fun i =>
               from_end [4; 6; 10] 1
               + (from_end [4; 6; 10] 1 - from_end [4; 6; 10] 3) / IZR 3 * IZR i)
            (range 1 (2 + 1))).
Proof.
  assert (H : [4; 6; 10] <> @nil R) by discriminate.
  split; [exact H|].
  exact (proj1 (proj2 (trend_fallback_on_any_series [4; 6; 10] 2 H))).
Defined.

(** X6. The trend fallback is not clamped at zero: on a series of at least
    10 observations that has fallen over the last 10, every step [i] with
    [i * (series[-10] - series[-1]) > 10 * series[-1]] is forecast at a
    negative price. *)
Theorem trend_fallback_goes_negative (prices : list R) (days i : Z) :
  (10 <= List.length prices)%nat ->
  from_end prices 1 < from_end prices 10 ->
  (1 <= i <= days)%Z ->
  10 * from_end prices 1 < IZR i * (from_end prices 10 - from_end prices 1) ->
  exists fallback p,
    _simple_trend_prediction prices days = Ok fallback /\
    nth_error fallback (Z.to_nat (i - 1)) = Some p /\ p < 0.
Proof.
  intros Hlen Hfall Hi Hbig.
  exists (fallback_forecast prices days), (trend_fallback_step prices i).
  split; [now apply simple_trend_prediction_ok|].
  split; [now apply nth_error_fallback_forecast|].
  unfold trend_fallback_step. lra.
Qed.

Lemma trend_fallback_goes_negative_witness :
  (10 <= List.length falling_series)%nat /\
  from_end falling_series 1 < from_end falling_series 10 /\
  (1 <= 3 <= 3)%Z /\
  10 * from_end falling_series 1
    < IZR 3 * (from_end falling_series 10 - from_end falling_series 1) /\
  exists fallback p,
    _simple_trend_prediction falling_series 3 = Ok fallback /\
    nth_error fallback (Z.to_nat (3 - 1)) = Some p /\ p < 0.
Proof.
  assert (H1 : (10 <= List.length falling_series)%nat) by (cbn; lia).
  assert (H2 : from_end falling_series 1 < from_end falling_series 10)
    by (unfold from_end; cbn; lra).
  assert (H3 : (1 <= 3 <= 3)%Z) by lia.
  assert (H4 : 10 * from_end falling_series 1
               < IZR 3 * (from_end falling_series 10 - from_end falling_series 1))
    by (unfold from_end; cbn; lra).
  repeat (split; [assumption|]).
  exact (trend_fallback_goes_negative falling_series 3 3 H1 H2 H3 H4).
Defined.

(** ** Confidence intervals of a negative forecast *)

(** X7. For a negative ensemble value and a positive volatility the bounds
    are inverted, in both services: the value called upper bound lies below
    the forecast and the one called lower bound above it. *)
Theorem negative_forecast_inverts_bounds (series ensemble : list R) (i : nat)
    (e lo hi : R) :
  nth_error ensemble i = Some e ->
  e < 0 -> 0 < volatility series ->
  nth_error (Backend._calculate_confidence_intervals series ensemble) i
    = Some (lo, hi) \/
  nth_error (Service._calculate_confidence_intervals series ensemble) i
    = Some (lo, hi) ->
  hi < e < lo.
Proof.
  intros He Hneg Hv H.
  assert (Hs : 0 < sqrt (IZR (Z.of_nat i + 1)))
    by (apply sqrt_lt_R0; apply IZR_lt; lia).
  assert (Hvs : 0 < volatility series * sqrt (IZR (Z.of_nat i + 1)))
    by now apply Rmult_lt_0_compat.
  destruct H as [H|H].
  - rewrite (backend_interval _ _ _ _ He) in H. injection H as <- <-.
    unfold uncertainty. nra.
  - rewrite (service_interval _ _ _ _ He) in H. injection H as <- <-.
    unfold damped_uncertainty, uncertainty. nra.
Qed.

Lemma negative_forecast_inverts_bounds_witness :
  nth_error [6; 2; -2] 2 = Some (-2) /\ -2 < 0 /\
  0 < volatility falling_series /\
  nth_error (Backend._calculate_confidence_intervals falling_series [6; 2; -2]) 2
    = Some (-2 - 1.96 * uncertainty falling_series 2 (-2),
            -2 + 1.96 * uncertainty falling_series 2 (-2)) /\
  -2 + 1.96 * uncertainty falling_series 2 (-2) < -2
    < -2 - 1.96 * uncertainty falling_series 2 (-2).
Proof.
  assert (H1 : nth_error [6; 2; -2] 2 = Some (-2)) by reflexivity.
  assert (H2 : -2 < 0) by lra.
  pose proof falling_series_volatility as H3.
  pose proof (backend_interval falling_series [6; 2; -2] 2 (-2) H1) as H4.
  repeat (split; [assumption|]).
  exact (negative_forecast_inverts_bounds falling_series [6; 2; -2] 2 (-2) _ _
           H1 H2 H3 (or_introl H4)).
Defined.

(** ** Rounding keeps the order *)

Lemma rint_monotone (x y : R) : x <= y -> (rint x <= rint y)%Z.
Proof.
  intros H. destruct (Req_dec_T x y) as [->|Hne]; [lia|].
  pose proof (rint_error x) as Hx. pose proof (rint_error y) as Hy.
  assert (Hlt : IZR (rint x) < IZR (rint y) + 1) by lra.
  rewrite <- plus_IZR in Hlt. apply lt_IZR in Hlt. lia.
Qed.

Lemma round2_monotone (x y : R) : x <= y -> round2 x <= round2 y.
Proof.
  intros H. unfold round2.
  assert (Hz : (rint (x * 100) <= rint (y * 100))%Z)
    by (apply rint_monotone; lra).
  apply IZR_le in Hz. lra.
Qed.

Lemma round2_zero : round2 0 = 0.
Proof.
  unfold round2, rint. rewrite Rmult_0_l.
  change 0 with (IZR 0) at 1 2. rewrite ZfloorZ.
  destruct (Rlt_dec (IZR 0 - IZR 0) (1 / 2)) as [_|H]; [|exfalso; lra].
  lra.
Qed.

Lemma round2_positive (x : R) : 0 < round2 x -> 0 < x.
Proof.
  intros H. destruct (Rlt_le_dec 0 x) as [Hx|Hx]; [exact Hx|].
  apply round2_monotone in Hx. rewrite round2_zero in Hx. lra.
Qed.

(** ** The records of a response, step by step *)

Lemma nth_error_ensemble (ar lr arima : list R) (days : Z) (k : nat) :
  (k < Z.to_nat days)%nat ->
  nth_error (map (ensemble_mean ar lr arima) (seq 0 (Z.to_nat days))) k =
  Some (ensemble_mean ar lr arima k).
Proof.
  intros Hk. rewrite nth_error_map, nth_error_seq.
  destruct (Nat.ltb_spec k (Z.to_nat days)); [reflexivity | lia].
Qed.

Lemma backend_record lib fuel now hist sym days log r log' (i : nat) rec :
  Backend.predict_prices lib fuel now hist sym days log = (Ok r, log') ->
  nth_error (predictions r) i = Some rec ->
  let prices := Close hist in
  let e := ensemble_mean (output_of (ar_try lib prices days) prices days)
                         (output_of (lr_try lib prices days) prices days)
                         (output_of (arima_try lib prices days) prices days) i in
  rec = step_record (last prices 0) e
          (e - 1.96 * uncertainty prices (Z.of_nat i) e,
           e + 1.96 * uncertainty prices (Z.of_nat i) e)
          (date_ rec).
Proof.
  intros H Hrec prices e. apply backend_predict_inv in H.
  destruct H as [_ [_ [dates [_ [-> _]]]]].
  apply (response_step Backend._calculate_confidence_intervals) in Hrec.
  destruct Hrec as [ci [Hci [_ [Hi Hr]]]].
  rewrite (backend_interval _ _ _ _ (nth_error_ensemble _ _ _ _ _ Hi)) in Hci.
  injection Hci as <-. exact Hr.
Qed.

Lemma service_record lib fuel now hist sym days log r log' (i : nat) rec :
  Service.predict_prices lib fuel now hist sym days log = (Ok r, log') ->
  nth_error (predictions r) i = Some rec ->
  let prices := Close hist in
  let e := ensemble_mean (output_of (ar_try lib prices days) prices days)
                         (output_of (lr_try lib prices days) prices days)
                         (output_of (arima_try lib prices days) prices days) i in
  rec = step_record (last prices 0) e
          (e - 1.96 * damped_uncertainty prices (Z.of_nat i) e,
           e + 1.96 * damped_uncertainty prices (Z.of_nat i) e)
          (date_ rec).
Proof.
  intros H Hrec prices e. apply service_predict_inv in H.
  destruct H as [_ [_ [dates [_ [-> _]]]]].
  unfold service_response in Hrec.
  apply (response_step Service._calculate_confidence_intervals) in Hrec.
  destruct Hrec as [ci [Hci [_ [Hi Hr]]]].
  rewrite (service_interval _ _ _ _ (nth_error_ensemble _ _ _ _ _ Hi)) in Hci.
  injection Hci as <-. exact Hr.
Qed.

Lemma uncertainty_sign (series : list R) (i : nat) (e : R) :
  0 <= e ->
  0 <= damped_uncertainty series (Z.of_nat i) e
    <= uncertainty series (Z.of_nat i) e.
Proof.
  intros He. unfold damped_uncertainty, uncertainty.
  pose proof (volatility_nonneg series) as Hv.
  pose proof (sqrt_step_nonneg i) as Hs.
  assert (Hvs : 0 <= volatility series * sqrt (IZR (Z.of_nat i + 1)))
    by now apply Rmult_le_pos.
  nra.
Qed.

(** X8. In every response of either service, the rounded fields of a step
    with a positive [predicted_price] are in order:
    [lower_bound <= predicted_price <= upper_bound]. *)
Theorem rounded_bounds_in_order lib fuel now hist sym days log r log' rec :
  Backend.predict_prices lib fuel now hist sym days log = (Ok r, log') \/
  Service.predict_prices lib fuel now hist sym days log = (Ok r, log') ->
  In rec (predictions r) ->
  0 < predicted_price rec ->
  lower_bound rec <= predicted_price rec <= upper_bound rec.
Proof.
  intros H Hin Hpos. apply In_nth_error in Hin. destruct Hin as [i Hi].
  destruct H as [H|H].
  - pose proof (backend_record _ _ _ _ _ _ _ _ _ _ _ H Hi) as Hr.
    cbv zeta in Hr. rewrite Hr in Hpos |- *.
    cbn [step_record predicted_price lower_bound upper_bound fst snd] in *.
    apply round2_positive in Hpos.
    pose proof (uncertainty_sign (Close hist) i _ (Rlt_le _ _ Hpos)) as Hu.
    split; apply round2_monotone; lra.
  - pose proof (service_record _ _ _ _ _ _ _ _ _ _ _ H Hi) as Hr.
    cbv zeta in Hr. rewrite Hr in Hpos |- *.
    cbn [step_record predicted_price lower_bound upper_bound fst snd] in *.
    apply round2_positive in Hpos.
    pose proof (uncertainty_sign (Close hist) i _ (Rlt_le _ _ Hpos)) as Hu.
    split; apply round2_monotone; lra.
Qed.

(** X9. On the same history, library and horizon the two services agree step
    by step on [predicted_price], [change_from_current] and [change_percent],
    and on the current price and the accuracy metrics; and wherever the
    predicted price is positive, the bounds of the prediction service lie
    between the bounds of the backend, with which they may coincide. *)
Theorem services_agree_on_point_forecasts lib now hist sym days
    fuel_b log_b rb log_b' fuel_s log_s rs log_s' (i : nat) recb recs :
  Backend.predict_prices lib fuel_b now hist sym days log_b = (Ok rb, log_b') ->
  Service.predict_prices lib fuel_s now hist sym days log_s = (Ok rs, log_s') ->
  nth_error (predictions rb) i = Some recb ->
  nth_error (predictions rs) i = Some recs ->
  predicted_price recb = predicted_price recs /\
  change_from_current recb = change_from_current recs /\
  change_percent recb = change_percent recs /\
  current_price rb = current_price rs /\
  accuracy_metrics (model_info rb) = accuracy_metrics (model_info rs) /\
  (0 < predicted_price recb ->
   lower_bound recb <= lower_bound recs /\ upper_bound recs <= upper_bound recb).
Proof.
  intros HB HS Hb Hs.
  pose proof (backend_record _ _ _ _ _ _ _ _ _ _ _ HB Hb) as Rb.
  pose proof (service_record _ _ _ _ _ _ _ _ _ _ _ HS Hs) as Rs.
  cbv zeta in Rb, Rs.
  apply backend_predict_inv in HB. destruct HB as [_ [_ [db [_ [Erb _]]]]].
  apply service_predict_inv in HS. destruct HS as [_ [_ [ds [_ [Ers _]]]]].
  rewrite Rb, Rs, Erb, Ers.
  cbn [step_record predicted_price change_from_current change_percent
       lower_bound upper_bound fst snd].
  repeat (split; [reflexivity|]).
  intros Hpos. apply round2_positive in Hpos.
  pose proof (uncertainty_sign (Close hist) i _ (Rlt_le _ _ Hpos)) as Hu.
  split; apply round2_monotone; lra.
Qed.

Lemma friday_service_run :
  Service.predict_prices naive_library 11 "2024-01-05T18:00:00"
    (friday_history 100 102) "AAPL" 3 [] =
  (Ok friday_service_response, all_predictors).
Proof.
  destruct (service_predict_ok naive_library 11 "2024-01-05T18:00:00"
              (friday_history 100 102) "AAPL" 3 [])
    as [dates [Eg [_ [_ [_ H]]]]].
  - rewrite friday_history_len. lia.
  - apply naive_library_forecasts_steps.
  - lia.
  - lia.
  - rewrite friday_history_last_close. lra.
  - rewrite friday_history_last_date in Eg.
    assert (E : Service._generate_business_dates 11 738890%Z 3 =
                Ok [738893; 738894; 738895]%Z) by reflexivity.
    rewrite E in Eg. injection Eg as <-. exact H.
Qed.

Lemma friday_first_forecast_positive :
  0 < predicted_price (hd (step_record 0 0 (0, 0) 0%Z)
                          (predictions friday_response)).
Proof.
  assert (Hn : nth_error (predictions friday_response) 0 =
               Some (hd (step_record 0 0 (0, 0) 0%Z)
                        (predictions friday_response))) by reflexivity.
  pose proof (backend_record _ _ _ _ _ _ _ _ _ _ _ friday_backend_run Hn) as Hr.
  cbv zeta in Hr. rewrite Hr. cbn [step_record predicted_price].
  match goal with |- 0 < round2 ?e => set (e0 := e) end.
  assert (He : 1 <= e0).
  { unfold e0, ensemble_mean.
    assert (Ha : nth 0 (output_of (ar_try naive_library
                  (Close (friday_history 100 102)) 3)
                  (Close (friday_history 100 102)) 3) 0 = 102) by reflexivity.
    assert (Hm : nth 0 (output_of (arima_try naive_library
                  (Close (friday_history 100 102)) 3)
                  (Close (friday_history 100 102)) 3) 0 = 102) by reflexivity.
    assert (Hl : 0 <= nth 0 (output_of (lr_try naive_library
                  (Close (friday_history 100 102)) 3)
                  (Close (friday_history 100 102)) 3) 0).
    { lazy -[Rplus Rmult Rinv Rdiv Rminus Ropp IZR Rle Rlt]. lra. }
    rewrite Ha, Hm. lra. }
  pose proof (round2_bounds e0). lra.
Qed.

Lemma rounded_bounds_in_order_witness :
  Backend.predict_prices naive_library 2 "2024-01-05T18:00:00"
    (friday_history 100 102) "AAPL" 3 [] = (Ok friday_response, all_predictors) /\
  exists rec,
    In rec (predictions friday_response) /\ 0 < predicted_price rec /\
    lower_bound rec <= predicted_price rec <= upper_bound rec.
Proof.
  split; [exact friday_backend_run|].
  assert (Hin : In (hd (step_record 0 0 (0, 0) 0%Z) (predictions friday_response))
                   (predictions friday_response)) by (left; reflexivity).
  exists (hd (step_record 0 0 (0, 0) 0%Z) (predictions friday_response)).
  split; [exact Hin|]. split; [exact friday_first_forecast_positive|].
  exact (rounded_bounds_in_order naive_library 2 "2024-01-05T18:00:00"
           (friday_history 100 102) "AAPL" 3 [] friday_response all_predictors _
           (or_introl friday_backend_run) Hin friday_first_forecast_positive).
Defined.

Lemma services_agree_on_point_forecasts_witness :
  Backend.predict_prices naive_library 2 "2024-01-05T18:00:00"
    (friday_history 100 102) "AAPL" 3 [] = (Ok friday_response, all_predictors) /\
  Service.predict_prices naive_library 11 "2024-01-05T18:00:00"
    (friday_history 100 102) "AAPL" 3 [] =
    (Ok friday_service_response, all_predictors) /\
  exists recb recs,
    nth_error (predictions friday_response) 0 = Some recb /\
    nth_error (predictions friday_service_response) 0 = Some recs /\
    predicted_price recb = predicted_price recs /\
    date_ recb = 738893%Z /\ date_ recs = 738893%Z.
Proof.
  split; [exact friday_backend_run|]. split; [exact friday_service_run|].
  assert (Hb : nth_error (predictions friday_response) 0 =
               Some (hd (step_record 0 0 (0, 0) 0%Z)
                        (predictions friday_response))) by reflexivity.
  assert (Hs : nth_error (predictions friday_service_response) 0 =
               Some (hd (step_record 0 0 (0, 0) 0%Z)
                        (predictions friday_service_response))) by reflexivity.
  exists (hd (step_record 0 0 (0, 0) 0%Z) (predictions friday_response)),
         (hd (step_record 0 0 (0, 0) 0%Z) (predictions friday_service_response)).
  split; [exact Hb|]. split; [exact Hs|].
  split; [|split; reflexivity].
  exact (proj1 (services_agree_on_point_forecasts naive_library
                  "2024-01-05T18:00:00" (friday_history 100 102) "AAPL" 3
                  2 [] friday_response all_predictors
                  11 [] friday_service_response all_predictors 0 _ _
                  friday_backend_run friday_service_run Hb Hs)).
Defined.

(** ** The forecast when every model fails *)







(** ** Accuracy metrics at the edges *)

(** X11. On a series of 1 to 29 observations [_calculate_accuracy_metrics]
    raises the [IndexError] of [prices[-30]]; only the length check of
    [predict_prices] keeps it from being called so. *)
Theorem accuracy_metrics_need_30 (prices : list R) :
  prices <> [] -> (List.length prices < 30)%nat ->
  _calculate_accuracy_metrics prices =
  Raise (IndexError ("index -30 is out of bounds for axis 0 with size "
                     ++ str_of_int (len prices))%string).
Proof.
  intros Hne Hlen. unfold _calculate_accuracy_metrics. cbv zeta.
  rewrite (np_getitem_last prices 0 Hne). cbn [obind].
  unfold np_getitem. cbv zeta. unfold len.
  destruct (Z.ltb_spec (-30) 0); [|lia].
  destruct (Z.ltb_spec (-30 + Z.of_nat (List.length prices)) 0); [|lia].
  reflexivity.
Qed.

Lemma accuracy_metrics_need_30_witness :
  [4; 6; 10] <> [] /\ (List.length [4; 6; 10] < 30)%nat /\
  _calculate_accuracy_metrics [4; 6; 10] =
  Raise (IndexError "index -30 is out of bounds for axis 0 with size 3").
Proof.
  assert (H1 : [4; 6; 10] <> @nil R) by discriminate.
  assert (H2 : (List.length [4; 6; 10] < 30)%nat) by (cbn; lia).
  split; [exact H1|]. split; [exact H2|].
  exact (accuracy_metrics_need_30 [4; 6; 10] H1 H2).
Defined.

Lemma fsum_repeat (c : R) (n : nat) : fsum (repeat c n) = IZR (Z.of_nat n) * c.
Proof.
  induction n as [|n IH]; [cbn; lra|].
  cbn [repeat fsum fold_right]. change (fold_right Rplus 0 (repeat c n))
    with (fsum (repeat c n)).
  rewrite IH, Nat2Z.inj_succ, succ_IZR. lra.
Qed.

Lemma np_mean_repeat (c : R) (n : nat) :
  (1 <= n)%nat -> np_mean (repeat c n) = c.
Proof.
  intros H. unfold np_mean, len. rewrite fsum_repeat, repeat_length.
  assert (0 < IZR (Z.of_nat n)) by (apply IZR_lt; lia).
  field. lra.
Qed.

Lemma np_std_repeat (c : R) (n : nat) :
  (1 <= n)%nat -> np_std (repeat c n) = 0.
Proof.
  intros H. unfold np_std. cbv zeta. rewrite np_mean_repeat by exact H.
  rewrite map_repeat.
  replace ((c - c) * (c - c)) with 0 by lra.
  rewrite np_mean_repeat by exact H. apply sqrt_0.
Qed.

(** X12. When the last 30 prices are all the same nonzero value, the recent
    volatility is 0 percent and the trend direction is "downward": a flat
    series is never reported as upward. *)
Theorem flat_series_metrics (prices : list R) (c : R) :
  c <> 0 -> trailing 30 prices = repeat c 30 ->
  _calculate_accuracy_metrics prices =
  Ok {| recent_volatility_percent := 0;
        trend_direction := "downward";
        data_points_used := len prices |}.
Proof.
  intros Hc Hflat.
  assert (Hlen : (30 <= List.length prices)%nat).
  { apply (f_equal (@List.length R)) in Hflat.
    rewrite length_trailing_min, repeat_length in Hflat. lia. }
  rewrite calculate_accuracy_metrics_ok by exact Hlen. unfold metrics_of.
  rewrite Hflat, np_std_repeat, np_mean_repeat by lia.
  assert (H1 : from_end prices 1 = c).
  { rewrite <- (from_end_trailing prices 30 1) by lia.
    rewrite Hflat. unfold from_end. rewrite repeat_length. reflexivity. }
  assert (H30 : from_end prices 30 = c).
  { rewrite <- (from_end_trailing prices 30 30) by lia.
    rewrite Hflat. unfold from_end. rewrite repeat_length. reflexivity. }
  rewrite H1, H30.
  destruct (Rgt_dec c c) as [H|_]; [exfalso; lra|].
  replace (0 / c * 100) with 0 by (field; exact Hc).
  now rewrite round2_zero.
Qed.

Lemma flat_series_metrics_witness :
  50 <> 0 /\ trailing 30 (repeat 50 60) = repeat 50 30 /\
  _calculate_accuracy_metrics (repeat 50 60) =
  Ok {| recent_volatility_percent := 0;
        trend_direction := "downward";
        data_points_used := 60 |}.
Proof.
  assert (H1 : 50 <> 0) by lra.
  assert (H2 : trailing 30 (repeat 50 60) = repeat 50 30) by reflexivity.
  split; [exact H1|]. split; [exact H2|].
  exact (flat_series_metrics (repeat 50 60) 50 H1 H2).
Defined.

(** ** A horizon of zero or less *)

Lemma range_empty (a b : Z) : (b <= a)%Z -> range a b = [].
Proof.
  intros H. unfold range. now replace (Z.to_nat (b - a)) with 0%nat by lia.
Qed.

Lemma generate_no_dates (fuel : nat) (start_date : date) (days : Z) :
  (days <= 0)%Z -> Service._generate_business_dates fuel start_date days = Ok [].
Proof.
  intros H. unfold Service._generate_business_dates. cbv zeta.
  destruct fuel; cbn [Service.business_dates_loop];
    change (len (@nil date)) with 0%Z;
    destruct (Z.ltb_spec 0 days); (lia || reflexivity).
Qed.

(** X13. [predict_prices] does not reject a horizon of zero or less: on a
    history of at least 50 observations both services run the three
    predictors and return a response without any step, whatever the library,
    the fuel and the current price, zero included. *)
Theorem nonpositive_horizon_gives_empty_forecast lib fuel now hist sym days log :
  (50 <= len hist)%Z -> (days <= 0)%Z ->
  exists rb rs,
    Backend.predict_prices lib fuel now hist sym days log =
      (Ok rb, log ++ all_predictors) /\
    Service.predict_prices lib fuel now hist sym days log =
      (Ok rs, log ++ all_predictors) /\
    predictions rb = [] /\ predictions rs = [] /\
    prediction_period rb = (str_of_int days ++ " days")%string /\
    prediction_period rs = (str_of_int days ++ " business days")%string.
Proof.
  intros Hlen Hd.
  destruct (hist_nonempty hist (len_hist_length _ Hlen)) as [Hi Hp].
  eexists. eexists.
  rewrite backend_predict_run, service_predict_run by exact Hlen.
  unfold backend_assemble, service_assemble, assemble. cbv zeta.
  unfold ensemble_predictions, Backend.future_dates.
  rewrite !range_empty by lia. cbn [for_each obind].
  rewrite (np_getitem_last (A := date) _ 0%Z Hi). cbn [obind].
  rewrite generate_no_dates by exact Hd. cbn [obind].
  rewrite (np_getitem_last (Close hist) 0 Hp). cbn [obind].
  rewrite !predictions_data_no_forecast. cbn [obind].
  rewrite calculate_accuracy_metrics_ok
    by (rewrite length_Close; now apply len_hist_length).
  cbn [obind]. repeat split; reflexivity.
Qed.

Lemma nonpositive_horizon_gives_empty_forecast_witness :
  (50 <= len (friday_history 100 0))%Z /\ (0 <= 0)%Z /\
  exists rb,
    Backend.predict_prices failing_library 0 "now" (friday_history 100 0)
      "AAPL" 0 [] = (Ok rb, all_predictors) /\
    predictions rb = [] /\ prediction_period rb = "0 days"%string.
Proof.
  assert (Hl : (50 <= len (friday_history 100 0))%Z)
    by (rewrite friday_history_len; lia).
  assert (Hd : (0 <= 0)%Z) by lia.
  split; [exact Hl|]. split; [exact Hd|].
  destruct (nonpositive_horizon_gives_empty_forecast failing_library 0 "now"
              (friday_history 100 0) "AAPL" 0 [] Hl Hd)
    as [rb [rs [HB [_ [HP [_ [Hpb _]]]]]]].
  exists rb. split; [exact HB|]. split; [exact HP | exact Hpb].
Defined.

(** ** The predict endpoints *)

(** X14. The predict endpoint of the prediction service never answers 400:
    whenever it raises [HTTPException] the status is 500 and the detail is
    "Prediction failed: Prediction failed for <SYMBOL>: ..." with the text of
    the original error, because [predict_prices] re-raises every error,
    the [ValueError] of too short a history included, as a plain
    [Exception]. *)
Theorem service_endpoint_never_answers_400 upper yf_history lib fuel now
    symbol days log status_code detail log' :
  Main.predict_stock_price upper yf_history lib fuel now symbol days log =
    (HTTPException status_code detail, log') ->
  status_code = 500%Z /\
  exists text,
    detail = ("Prediction failed: Prediction failed for " ++ upper symbol
              ++ ": " ++ text)%string.
Proof.
  unfold Main.predict_stock_price, Service.predict_prices.
  rewrite handler_run.
  destruct (Service.predict_prices_try lib fuel now (yf_history (upper symbol))
              (upper symbol) days log) as [[r|e|] l]; try discriminate.
  intros [= <- <- <-]. split; [reflexivity|].
  exists (str e). reflexivity.
Qed.

Lemma service_endpoint_never_answers_400_witness :
  Main.predict_stock_price (fun s => s) short_provider naive_library 92 "now"
    "AAPL" 30 [] =
    (HTTPException 500
       "Prediction failed: Prediction failed for AAPL: Insufficient historical data for AAPL",
     []) /\
  500%Z = 500%Z.
Proof.
  assert (H : Main.predict_stock_price (fun s => s) short_provider
                naive_library 92 "now" "AAPL" 30 [] =
              (HTTPException 500
                 "Prediction failed: Prediction failed for AAPL: Insufficient historical data for AAPL",
               [])) by reflexivity.
  split; [exact H|].
  exact (proj1 (service_endpoint_never_answers_400 _ _ _ _ _ _ _ _ _ _ _ H)).
Defined.

(** X15. For a symbol whose history has fewer than 50 rows the two endpoints
    answer differently and invoke no predictor: the backend view answers 400
    with the error "Error predicting prices for <SYMBOL>: Insufficient
    historical data for <SYMBOL>" (the [days] argument being absent or
    convertible), the endpoint of the prediction service raises
    [HTTPException] 500 with that text after its two prefixes. *)
Theorem short_history_status_codes upper int yf_history lib fuel now symbol
    days_arg days log :
  (len (yf_history (upper symbol)) < 50)%Z ->
  (forall s, days_arg = Some s -> exists d, int s = inr d) ->
  App.predict_stock_price upper int yf_history lib fuel now symbol days_arg log =
    (JsonifyError ("Error predicting prices for " ++ upper symbol ++ ": "
                   ++ "Insufficient historical data for " ++ upper symbol)%string
                  400, log) /\
  Main.predict_stock_price upper yf_history lib fuel now symbol days log =
    (HTTPException 500
       ("Prediction failed: " ++ "Prediction failed for " ++ upper symbol ++ ": "
        ++ "Insufficient historical data for " ++ upper symbol)%string, log).
Proof.
  intros Hlen Hint. split.
  - unfold App.predict_stock_price. cbv zeta.
    destruct days_arg as [s|].
    + destruct (Hint s eq_refl) as [d Hd]. rewrite Hd.
      now rewrite backend_predict_short by exact Hlen.
    + now rewrite backend_predict_short by exact Hlen.
  - unfold Main.predict_stock_price.
    now rewrite service_predict_short by exact Hlen.
Qed.

Lemma short_history_status_codes_witness :
  (len (short_provider "AAPL") < 50)%Z /\
  (forall s, @None string = Some s -> exists d, @inl exn Z (ValueError s) = inr d) /\
  App.predict_stock_price (fun s => s) (fun s => inl (ValueError s))
    short_provider naive_library 2 "now" "AAPL" None [] =
    (JsonifyError
       "Error predicting prices for AAPL: Insufficient historical data for AAPL"
       400, []).
Proof.
  assert (H1 : (len (short_provider "AAPL") < 50)%Z) by reflexivity.
  assert (H2 : forall s, @None string = Some s ->
                         exists d, @inl exn Z (ValueError s) = inr d)
    by (intros s E; discriminate E).
  split; [exact H1|]. split; [exact H2|].
  exact (proj1 (short_history_status_codes (fun s => s)
                  (fun s => inl (ValueError s)) short_provider naive_library 2
                  "now" "AAPL" None 30 [] H1 H2)).
Defined.

(** ** The predictors are run once each *)

(** X16. Past the length check, every run of [predict_prices] invokes the
    three predictors once each, in the order autoregression, feature
    regression, ARIMA, whether it then returns a response or fails; and the
    endpoints add no invocation. *)
Theorem predictors_invoked_once_in_order lib fuel now hist sym days log :
  (50 <= len hist)%Z ->
  snd (Backend.predict_prices lib fuel now hist sym days log) =
    log ++ [CallAutoRegression; CallLinearRegression; CallArima] /\
  snd (Service.predict_prices lib fuel now hist sym days log) =
    log ++ [CallAutoRegression; CallLinearRegression; CallArima] /\
  (forall upper yf_history symbol,
      yf_history (upper symbol) = hist ->
      snd (Main.predict_stock_price upper yf_history lib fuel now symbol days log)
      = log ++ [CallAutoRegression; CallLinearRegression; CallArima]).
Proof.
  intros Hlen. split; [|split].
  - now rewrite backend_predict_run by exact Hlen.
  - now rewrite service_predict_run by exact Hlen.
  - intros upper yf symbol E. unfold Main.predict_stock_price. rewrite E.
    rewrite service_predict_run by exact Hlen.
    destruct (service_assemble _ _ _ _ _ _ _ _) as [r|e|]; reflexivity.
Qed.

Lemma predictors_invoked_once_in_order_witness :
  (50 <= len (friday_history 100 0))%Z /\
  snd (Backend.predict_prices failing_library 17 "now" (friday_history 100 0)
         "AAPL" 5 []) =
    [CallAutoRegression; CallLinearRegression; CallArima].
Proof.
  assert (Hl : (50 <= len (friday_history 100 0))%Z)
    by (rewrite friday_history_len; lia).
  split; [exact Hl|].
  exact (proj1 (predictors_invoked_once_in_order failing_library 17 "now"
                  (friday_history 100 0) "AAPL" 5 [] Hl)).
Defined.

(** ** The two calendars side by side *)

Lemma next_business_day_least (x d : date) :
  business_day d -> (x <= d)%Z -> (next_business_day x <= d)%Z.
Proof.
  intros Hb Hx. unfold next_business_day, business_day in *.
  pose proof (weekday_succ x) as H1. pose proof (weekday_succ (x + 1)%Z) as H2.
  destruct (Z.eqb_spec (weekday x) 5) as [E5|E5].
  - destruct (Z.eq_dec d x) as [->|N0]; [lia|].
    destruct (Z.eq_dec d (x + 1)%Z) as [->|N1]; [|lia].
    rewrite E5 in H1. cbn in H1. lia.
  - destruct (Z.eqb_spec (weekday x) 6) as [E6|E6]; [|lia].
    destruct (Z.eq_dec d x) as [->|N0]; lia.
Qed.




(** ** The date loop of the backend on timestamps *)

Lemma add_timedelta_days_twice (t : Timestamp) (a b : Z) :
  add_timedelta_days (add_timedelta_days t a) b = add_timedelta_days t (a + b).
Proof. unfold add_timedelta_days. cbn [seconds utcoffset]. f_equal. lia. Qed.

Lemma local_date_add_days (t : Timestamp) (k offset : Z) :
  utcoffset t (seconds t) = offset ->
  utcoffset t (seconds t + k * 86400)%Z = offset ->
  local_date (add_timedelta_days t k) = (local_date t + k)%Z.
Proof.
  unfold local_date, add_timedelta_days. cbn [seconds utcoffset].
  intros H0 Hk. rewrite H0, Hk.
  replace (seconds t + k * 86400 + offset)%Z
    with (seconds t + offset + k * 86400)%Z by lia.
  rewrite Z.div_add by lia. lia.
Qed.

Lemma timestamps_skip_business (fuel : nat) (t : Timestamp) :
  (weekday (local_date t) <= 4)%Z -> BackendTz.skip_weekend fuel t = Ok t.
Proof.
  intros H. destruct fuel; cbn [BackendTz.skip_weekend];
    destruct (Z.gtb_spec (weekday (local_date t)) 4); (lia || reflexivity).
Qed.

Lemma timestamps_skip_step (fuel : nat) (t : Timestamp) :
  (4 < weekday (local_date t))%Z ->
  BackendTz.skip_weekend (S fuel) t =
  BackendTz.skip_weekend fuel (add_timedelta_days t 1).
Proof.
  intros H. cbn [BackendTz.skip_weekend].
  destruct (Z.gtb_spec (weekday (local_date t)) 4); [reflexivity | lia].
Qed.

(** While the UTC offset stays what it is, the loop stops after two rounds at
    most, on the first business day from the local date of [t] on. *)
Lemma timestamps_skip_weekend_ok (fuel : nat) (t : Timestamp) (offset : Z) :
  (2 <= fuel)%nat ->
  (forall k, (0 <= k <= 2)%Z -> utcoffset t (seconds t + k * 86400)%Z = offset) ->
  exists t', BackendTz.skip_weekend fuel t = Ok t' /\
             local_date t' = next_business_day (local_date t).
Proof.
  intros Hf Hoff.
  assert (H0 : utcoffset t (seconds t) = offset).
  { rewrite <- (Hoff 0%Z ltac:(lia)). f_equal. lia. }
  assert (Hk : forall k, (0 <= k <= 2)%Z ->
                 local_date (add_timedelta_days t k) = (local_date t + k)%Z).
  { intros k Hk. apply (local_date_add_days t k offset H0). now apply Hoff. }
  destruct fuel as [|[|fuel]]; try lia.
  unfold next_business_day. pose proof (weekday_bounds (local_date t)) as Hb.
  pose proof (weekday_succ (local_date t)) as H1.
  pose proof (weekday_succ (local_date t + 1)%Z) as H2.
  destruct (Z.eqb_spec (weekday (local_date t)) 5) as [E5|E5].
  - rewrite E5 in H1.
    change (if (5 =? 6)%Z then 0%Z else (5 + 1)%Z) with 6%Z in H1.
    rewrite H1 in H2.
    change (if (6 =? 6)%Z then 0%Z else (6 + 1)%Z) with 0%Z in H2.
    exists (add_timedelta_days t 2).
    rewrite timestamps_skip_step by lia.
    rewrite timestamps_skip_step by (rewrite Hk by lia; lia).
    rewrite add_timedelta_days_twice. change (1 + 1)%Z with 2%Z.
    rewrite timestamps_skip_business
      by (rewrite Hk by lia;
          replace (local_date t + 2)%Z with (local_date t + 1 + 1)%Z by lia; lia).
    split; [reflexivity|]. apply Hk. lia.
  - destruct (Z.eqb_spec (weekday (local_date t)) 6) as [E6|E6].
    + cbv iota in H1.
      exists (add_timedelta_days t 1).
      rewrite timestamps_skip_step by lia.
      rewrite timestamps_skip_business by (rewrite Hk by lia; lia).
      split; [reflexivity|]. apply Hk. lia.
    + exists t. rewrite timestamps_skip_business by lia. now split.
Qed.

(** The loop on timestamps walks the calendar days of [calendar_dates] as
    long as the zone keeps one UTC offset from the last row of the history
    to two days past the horizon. *)
Lemma timestamps_future_dates_ok (fuel : nat) (last_date : Timestamp)
    (days offset : Z) :
  (2 <= fuel)%nat ->
  (forall t, (seconds last_date <= t <= seconds last_date + (days + 2) * 86400)%Z ->
             utcoffset last_date t = offset) ->
  BackendTz.future_dates fuel last_date days =
  Ok (calendar_dates (local_date last_date) days).
Proof.
  intros Hf Hoff. unfold BackendTz.future_dates, calendar_dates.
  apply for_each_singletons. intros i Hi. apply in_range in Hi.
  destruct (timestamps_skip_weekend_ok fuel (add_timedelta_days last_date i)
              offset Hf) as [t' [E Ed]].
  { intros k Hk. cbn [add_timedelta_days seconds utcoffset]. apply Hoff. lia. }
  rewrite E. cbn [obind]. rewrite Ed. do 3 f_equal.
  apply (local_date_add_days last_date i offset); apply Hoff; lia.
Qed.

(** Across a change of the offset the two differ.  A history that ends on
    Friday 2024-11-01 in New York, two days before the clocks go back, and 8
    days: the timestamps are 24 hours apart, so after the change they read
    23:00 of the day before.  The loop then needs a third round for a
    Saturday and dates four steps Monday 2024-11-04 (ordinal 739194), the
    last step Friday 2024-11-08; on calendar days Monday comes three times
    and the last step is Monday 2024-11-11. *)
Lemma backend_dates_across_dst_end :
  local_date friday_before_dst_end = 739191%Z /\
  BackendTz.future_dates 3 friday_before_dst_end 8 =
    Ok [739194; 739194; 739194; 739194; 739195; 739196; 739197; 739198]%Z /\
  BackendTz.future_dates 2 friday_before_dst_end 8 = OutOfFuel /\
  Backend.future_dates 2 739191%Z 8 =
    Ok [739194; 739194; 739194; 739195; 739196; 739197; 739198; 739201]%Z.
Proof. repeat split; vm_compute; reflexivity. Qed.

(** X2. On a time-zone-aware index whose zone keeps one UTC offset from the
    last row to two days past the horizon, the date loop of the backend gives
    the dates of the loop on calendar days: step [i] (counted from 1) is dated
    the first business day from the calendar day [i] days after the last date
    on; the dates never decrease, and two consecutive steps carry the same
    date exactly when the calendar day of the first falls on a weekend.
    Hence every forecast of 7 days or more repeats a date. *)
Theorem backend_dates_repeat_on_weekends (fuel : nat) (last_date : Timestamp)
    (days offset : Z) :
  (2 <= fuel)%nat -> (0 <= days)%Z ->
  (forall t, (seconds last_date <= t <= seconds last_date + (days + 2) * 86400)%Z ->
             utcoffset last_date t = offset) ->
  exists l,
    BackendTz.future_dates fuel last_date days = Ok l /\
    Backend.future_dates fuel (local_date last_date) days = Ok l /\
    len l = days /\
    (forall i, (1 <= i <= days)%Z ->
       exists d, nth_error l (Z.to_nat (i - 1)) = Some d /\
                 business_day d /\
                 (local_date last_date + i <= d)%Z /\
                 (forall x, (local_date last_date + i <= x < d)%Z ->
                            ~ business_day x)) /\
    (forall i d e, (1 <= i < days)%Z ->
       nth_error l (Z.to_nat (i - 1)) = Some d ->
       nth_error l (Z.to_nat i) = Some e ->
       (d <= e)%Z /\ (d = e <-> (5 <= weekday (local_date last_date + i))%Z)) /\
    ((7 <= days)%Z -> ~ increasing l).
Proof.
  intros Hf Hd Hoff.
  exists (calendar_dates (local_date last_date) days).
  destruct (calendar_dates_repeat (local_date last_date) days Hd)
    as [Hlen [Hnth [Hadj Hrep]]].
  split; [now apply (timestamps_future_dates_ok fuel last_date days offset)|].
  split; [now apply backend_future_dates_ok|].
  split; [exact Hlen|]. split; [|split; [exact Hadj | exact Hrep]].
  intros i Hi. exists (next_business_day (local_date last_date + i)%Z).
  split; [now apply Hnth|].
  pose proof (next_business_day_spec (local_date last_date + i)%Z)
    as [Hb [Hr _]].
  split; [exact Hb|]. split; [lia|].
  intros x Hx Hbx.
  pose proof (next_business_day_least (local_date last_date + i)%Z x Hbx
                ltac:(lia)).
  lia.
Qed.

Lemma backend_dates_repeat_on_weekends_witness :
  (2 <= 2)%nat /\ (0 <= 7)%Z /\
  (forall t, (seconds tuesday_in_january <= t
              <= seconds tuesday_in_january + (7 + 2) * 86400)%Z ->
             utcoffset tuesday_in_january t = (-18000)%Z) /\
  exists l,
    BackendTz.future_dates 2 tuesday_in_january 7 = Ok l /\
    len l = 7%Z /\ ~ increasing l.
Proof.
  assert (Hf : (2 <= 2)%nat) by lia.
  assert (Hd : (0 <= 7)%Z) by lia.
  assert (Hoff : forall t, (seconds tuesday_in_january <= t
                            <= seconds tuesday_in_january + (7 + 2) * 86400)%Z ->
                           utcoffset tuesday_in_january t = (-18000)%Z).
  { intros t Ht. cbn [tuesday_in_january seconds utcoffset] in *.
    unfold new_york.
    destruct (Z.ltb_spec t 1710054000); [reflexivity | lia]. }
  split; [exact Hf|]. split; [exact Hd|]. split; [exact Hoff|].
  destruct (backend_dates_repeat_on_weekends 2 tuesday_in_january 7 (-18000)
              Hf Hd Hoff) as [l [E [_ [L [_ [_ H]]]]]].
  exists l. split; [exact E|]. split; [exact L|]. apply H. lia.
Defined.
